(** * NDI HX to OMT converter: the capture / classify / forward loop

    A shallow embedding of [C++/ndi2omt/ndi_to_omt_converter.cpp]:
    the class [NDIToOMTConverter] with its counters and stream properties,
    [handle_video_frame], [handle_compressed_frame], [send_compressed_to_omt],
    [print_statistics] and the loop of [run].

    Conventions.
    - [int] and [std::atomic<int>] are 32-bit two's complement; the atomic
      increments wrap ([wrap32]).
    - [float] is IEEE binary32, [double] binary64, both through the
      Standard Library's [SpecFloat] (round to nearest even).
    - The two SDKs are external: what the program calls on them is recorded
      as a list of [call]s, what they answer is an input of the iteration.
    - Console output is not modelled, except the frame analysis line and the
      statistics block, which are recorded as calls. *)

From Stdlib Require Import ZArith List Bool Lia QArith.
From Stdlib Require Import Floats.SpecFloat.
From Stdlib Require String.
Import String.StringSyntax.
Open Scope string_scope.
Import ListNotations.
Open Scope Z_scope.

(** ** Machine integers *)

Module Int32.

Definition min_int : Z := - 2 ^ 31.
Definition max_int : Z := 2 ^ 31 - 1.

(** Two's complement reduction of an integer to 32 bits. *)
Definition wrap32 (z : Z) : Z := (z + 2 ^ 31) mod 2 ^ 32 - 2 ^ 31.

Definition in_range (z : Z) : Prop := min_int <= z <= max_int.

(** [c++] and [c += n] on a [std::atomic<int>]. *)
Definition incr (c : Z) : Z := wrap32 (c + 1).
Definition add (c n : Z) : Z := wrap32 (c + n).

End Int32.

(** ** Clock readings

    A [time_point] of [std::chrono::high_resolution_clock] is a 64-bit
    count of ticks, and so is the difference of two of them. *)

Module Int64.

(** Two's complement reduction of an integer to 64 bits. *)
Definition wrap64 (z : Z) : Z := (z + 2 ^ 63) mod 2 ^ 64 - 2 ^ 63.

(** [a - b] on two time points. *)
Definition sub (a b : Z) : Z := wrap64 (a - b).

End Int64.

(** ** Floating point *)

Module Float.

(** binary32 *)
Definition prec32 : Z := 24.
Definition emax32 : Z := 128.
(** binary64 *)
Definition prec64 : Z := 53.
Definition emax64 : Z := 1024.

(** [(float)z] for an integer [z]. *)
Definition of_int (z : Z) : spec_float := binary_normalize prec32 emax32 z 0 false.

Definition mul : spec_float -> spec_float -> spec_float := SFmul prec32 emax32.
Definition div : spec_float -> spec_float -> spec_float := SFdiv prec32 emax32.

(** The promotion of a [float] to [double]; it is exact. *)
Definition to_double (x : spec_float) : spec_float :=
  match x with
  | S754_finite s m e => binary_round prec64 emax64 s m e
  | _ => x
  end.

(** The [double] literal [0.1]. *)
Definition double_0_1 : spec_float := S754_finite false 7205759403792794 (-56).

(** [x > y] on doubles. *)
Definition gt (x y : spec_float) : bool := SFltb y x.

Definition is_finite (x : spec_float) : bool :=
  match x with
  | S754_zero _ | S754_finite _ _ _ => true
  | S754_infinity _ | S754_nan => false
  end.

End Float.

(** ** The SDK declarations the program is compiled against

    [Processing.NDI.Advanced.h] and [libomt.h] are not part of the
    repository; the constants and the layout of the packet header the
    program takes from them are parameters of the development. *)

(** [NDIlib_compressed_packet_t], the fields the program reads. *)
Record NDIlib_compressed_packet_t := {
  version : Z;
  fourCC : Z;
  flags : Z
}.

Record SDK := {
  (** [sizeof(NDIlib_compressed_packet_t)] *)
  sizeof_NDIlib_compressed_packet_t : nat;
  (** the view of the first [sizeof] bytes of a payload as a packet header *)
  packet_of_bytes : list Z -> NDIlib_compressed_packet_t;
  NDIlib_compressed_FourCC_type_H264 : Z;
  NDIlib_compressed_packet_flags_keyframe : Z;
  OMTVideoFlags_None : Z
}.

(** ** Frames *)

(** [NDIlib_video_frame_v2_t]. The pair [p_data], [data_size_in_bytes] is a
    byte list; [None] is the null pointer. Bytes are integers in 0..255. *)
Record NDIlib_video_frame_v2_t := {
  xres : Z;
  yres : Z;
  FourCC : Z;
  frame_rate_N : Z;
  frame_rate_D : Z;
  p_data : option (list Z)
}.

Definition data_size_in_bytes (f : NDIlib_video_frame_v2_t) : Z :=
  match p_data f with
  | Some bytes => Z.of_nat (length bytes)
  | None => 0
  end.

(** [OMTMediaFrame], the fields [send_compressed_to_omt] and [run] write.
    [Type], [Codec] and [ColorSpace] are set once in [run] and never
    change. *)
Record OMTMediaFrame := {
  Timestamp : Z;
  Flags : Z;
  Width : Z;
  Height : Z;
  FrameRateN : Z;
  FrameRateD : Z;
  AspectRatio : spec_float;
  Data : list Z;
  DataLength : Z;
  CompressedLength : Z;
  Stride : Z
}.

(** ** The byte scan of [handle_compressed_frame] (lines 370-406) *)

(** The value of the local [frame_type]; the program keeps it as the text
    it prints: "Unknown", "IDR (I-frame)", "P-frame", "SPS", "PPS",
    "NAL type <n>". *)
Inductive frame_type :=
| Unknown
| IDR
| PFrame
| SPS
| PPS
| NALType (nal_type : Z).

(** [h264_data[i]] *)
Definition at_ (h264_data : list Z) (i : nat) : Z := nth i h264_data 0.

(** The chain of comparisons on [nal_type]. *)
Definition frame_type_of_nal (nal_type : Z) : frame_type :=
  if nal_type =? 5 then IDR
  else if nal_type =? 1 then PFrame
  else if nal_type =? 7 then SPS
  else if nal_type =? 8 then PPS
  else NALType nal_type.

(** "Analyze NAL unit type if we have enough data": the body both
    branches of the loop share. *)
Definition analyze_nal (h264_data : list Z) (i : nat) : frame_type :=
  if (i + 1 <? length h264_data)%nat
  then frame_type_of_nal (Z.land (at_ h264_data (i + 1)) 31)
  else Unknown.

(** The condition of the first [if]: a four byte start code ends at [i]. *)
Definition start_code4 (h264_data : list Z) (i : nat) : bool :=
  (3 <=? i)%nat
  && (at_ h264_data (i - 3) =? 0) && (at_ h264_data (i - 2) =? 0)
  && (at_ h264_data (i - 1) =? 0) && (at_ h264_data i =? 1).

(** The condition of the second [if]: a three byte start code ends at [i]. *)
Definition start_code3 (h264_data : list Z) (i : nat) : bool :=
  (2 <=? i)%nat
  && (at_ h264_data (i - 2) =? 0) && (at_ h264_data (i - 1) =? 0)
  && (at_ h264_data i =? 1).

(** The [for] loop from index [i] with [n] iterations left; the result is
    the pair [(has_start_codes, frame_type)]. *)
Fixpoint scan_from (h264_data : list Z) (n i : nat) : bool * frame_type :=
  match n with
  | O => (false, Unknown)
  | S n' =>
      if start_code4 h264_data i then (true, analyze_nal h264_data i)
      else if start_code3 h264_data i then (true, analyze_nal h264_data i)
      else scan_from h264_data n' (S i)
  end.

(** [i] runs from 0 to [std::min(h264_size, 32)]. *)
Definition scan_window (h264_data : list Z) : nat := Nat.min (length h264_data) 32.

Definition scan_start_codes (h264_data : list Z) : bool * frame_type :=
  scan_from h264_data (scan_window h264_data) 0.

(** ** The converter *)

(** The data members of [class NDIToOMTConverter] (lines 53-70); the two
    handles and the two names play no part after [initialize]. Times are
    clock ticks (nanoseconds). *)
Record NDIToOMTConverter := mkConverter {
  frames_received : Z;
  frames_sent : Z;
  bytes_received : Z;
  bytes_sent : Z;
  connections : Z;
  keyframes_sent : Z;
  pframes_sent : Z;
  frames_dropped : Z;
  current_width : Z;
  current_height : Z;
  current_fps_n : Z;
  current_fps_d : Z;
  start_time : Z;
  last_stats_time : Z
}.

(** The state the constructor leaves (lines 54-67, 77-78). *)
Definition new_converter (now : Z) : NDIToOMTConverter :=
  {| frames_received := 0; frames_sent := 0; bytes_received := 0;
     bytes_sent := 0; connections := 0; keyframes_sent := 0;
     pframes_sent := 0; frames_dropped := 0;
     current_width := 0; current_height := 0;
     current_fps_n := 30; current_fps_d := 1;
     start_time := now; last_stats_time := now |}.

Definition with_frames_received (v : Z) (c : NDIToOMTConverter) :=
  let '(mkConverter _ fs br bs cn ks ps fd w h n d t0 t1) := c in
  mkConverter v fs br bs cn ks ps fd w h n d t0 t1.

Definition with_frames_sent (v : Z) (c : NDIToOMTConverter) :=
  let '(mkConverter fr _ br bs cn ks ps fd w h n d t0 t1) := c in
  mkConverter fr v br bs cn ks ps fd w h n d t0 t1.

Definition with_bytes_received (v : Z) (c : NDIToOMTConverter) :=
  let '(mkConverter fr fs _ bs cn ks ps fd w h n d t0 t1) := c in
  mkConverter fr fs v bs cn ks ps fd w h n d t0 t1.

Definition with_bytes_sent (v : Z) (c : NDIToOMTConverter) :=
  let '(mkConverter fr fs br _ cn ks ps fd w h n d t0 t1) := c in
  mkConverter fr fs br v cn ks ps fd w h n d t0 t1.

Definition with_connections (v : Z) (c : NDIToOMTConverter) :=
  let '(mkConverter fr fs br bs _ ks ps fd w h n d t0 t1) := c in
  mkConverter fr fs br bs v ks ps fd w h n d t0 t1.

Definition with_keyframes_sent (v : Z) (c : NDIToOMTConverter) :=
  let '(mkConverter fr fs br bs cn _ ps fd w h n d t0 t1) := c in
  mkConverter fr fs br bs cn v ps fd w h n d t0 t1.

Definition with_pframes_sent (v : Z) (c : NDIToOMTConverter) :=
  let '(mkConverter fr fs br bs cn ks _ fd w h n d t0 t1) := c in
  mkConverter fr fs br bs cn ks v fd w h n d t0 t1.

Definition with_frames_dropped (v : Z) (c : NDIToOMTConverter) :=
  let '(mkConverter fr fs br bs cn ks ps _ w h n d t0 t1) := c in
  mkConverter fr fs br bs cn ks ps v w h n d t0 t1.

(** The four assignments of lines 308-311. *)
Definition with_stream_properties (f : NDIlib_video_frame_v2_t) (c : NDIToOMTConverter) :=
  let '(mkConverter fr fs br bs cn ks ps fd _ _ _ _ t0 t1) := c in
  mkConverter fr fs br bs cn ks ps fd
    (xres f) (yres f) (frame_rate_N f) (frame_rate_D f) t0 t1.

Definition with_last_stats_time (v : Z) (c : NDIToOMTConverter) :=
  let '(mkConverter fr fs br bs cn ks ps fd w h n d t0 _) := c in
  mkConverter fr fs br bs cn ks ps fd w h n d t0 v.

(** ** What the program prints in [print_statistics] *)

Record statistics := {
  seconds : Z;
  total_received : Z;
  total_sent : Z;
  total_dropped : Z;
  i_frames : Z;
  p_frames : Z;
  ip_ratio : spec_float;
  success_rate : spec_float;
  avg_fps_received : spec_float;
  avg_fps_sent : spec_float;
  mbps_received : spec_float;
  mbps_sent : spec_float;
  omt_connections : Z;
  format_width : Z;
  format_height : Z;
  (** "WARNING: Only receiving I-frames, no P-frames detected!" *)
  warning_only_keyframes : bool;
  (** "WARNING: High frame drop rate" *)
  warning_high_drop_rate : bool
}.

(** ** Calls on the two SDKs, and the two printed blocks, in program order *)

Inductive call :=
| frame_analysis (is_keyframe : bool) (has_start_codes : bool) (nal : frame_type)
| omt_send (frame : OMTMediaFrame) (result : Z)
| omt_send_connections (result : Z)
| NDIlib_recv_free_video_v2
| NDIlib_recv_free_audio_v3
| NDIlib_recv_free_metadata
| NDIlib_recv_get_performance
| printed_statistics (s : statistics).

(** ** The rejections of [handle_compressed_frame]

    The function answers [false] in four places; they are told apart by
    what is printed there. *)
Inductive rejection :=
| NoData          (* line 333: null pointer or no bytes, nothing printed *)
| TooSmall        (* line 343: "Frame too small to contain compressed packet header" *)
| WrongCodec      (* line 357: "Packet is not H.264 format" *)
| NotCompressed.  (* line 433: "Frame is not compressed H.264 format" *)

Section Converter.

Variable sdk : SDK.

(** Lines 333-363 and 432-434: the checks in front of the scan. The answer
    is the packet header and the bytes [h264_data] (of length [h264_size])
    behind it, or the place the function returns [false] at. *)
Definition compressed_packet (ndi_frame : NDIlib_video_frame_v2_t)
  : rejection + NDIlib_compressed_packet_t * list Z :=
  match p_data ndi_frame with
  | None => inl NoData
  | Some bytes =>
      if data_size_in_bytes ndi_frame =? 0 then inl NoData
      else if FourCC ndi_frame =? NDIlib_compressed_FourCC_type_H264 sdk then
        let header_size := sizeof_NDIlib_compressed_packet_t sdk in
        if data_size_in_bytes ndi_frame <? Z.of_nat header_size then inl TooSmall
        else
          let packet := packet_of_bytes sdk (firstn header_size bytes) in
          if negb (fourCC packet =? NDIlib_compressed_FourCC_type_H264 sdk)
          then inl WrongCodec
          else inr (packet, skipn header_size bytes)
      else inl NotCompressed
  end.

(** Line 368. *)
Definition packet_is_keyframe (packet : NDIlib_compressed_packet_t) : bool :=
  negb (Z.land (flags packet) (NDIlib_compressed_packet_flags_keyframe sdk) =? 0).

(** Lines 441-463: the frame handed to [omt_send]. *)
Definition fill_omt_frame (c : NDIToOMTConverter) (h264_data : list Z)
  (is_keyframe : bool) (omt_frame : OMTMediaFrame) : OMTMediaFrame :=
  {| Timestamp := Timestamp omt_frame;
     Width := current_width c;
     Height := current_height c;
     FrameRateN := current_fps_n c;
     FrameRateD := current_fps_d c;
     AspectRatio := Float.div (Float.of_int (current_width c))
                              (Float.of_int (current_height c));
     Data := h264_data;
     DataLength := Z.of_nat (length h264_data);
     CompressedLength := 0;
     Stride := 0;
     Flags := if is_keyframe then OMTVideoFlags_None sdk
              else OMTVideoFlags_None sdk |}.

(** Lines 455-463: the counter of the frame's kind. *)
Definition count_frame_kind (is_keyframe : bool) (c : NDIToOMTConverter) :=
  if is_keyframe
  then with_keyframes_sent (Int32.incr (keyframes_sent c)) c
  else with_pframes_sent (Int32.incr (pframes_sent c)) c.

(** [send_compressed_to_omt] (lines 437-501). [send_result] is what
    [omt_send] answers, [conn_count] what [omt_send_connections] answers on
    the failure path. *)
Definition send_compressed_to_omt (h264_data : list Z) (is_keyframe : bool)
  (send_result conn_count : Z) (c : NDIToOMTConverter) (omt_frame : OMTMediaFrame)
  : bool * NDIToOMTConverter * OMTMediaFrame * list call :=
  let data_size := Z.of_nat (length h264_data) in
  let omt_frame := fill_omt_frame c h264_data is_keyframe omt_frame in
  let c := count_frame_kind is_keyframe c in
  if 0 <=? send_result then
    let c := with_frames_sent (Int32.incr (frames_sent c)) c in
    let c := with_bytes_sent (Int32.add (bytes_sent c) data_size) c in
    let c := with_bytes_received (Int32.add (bytes_received c) data_size) c in
    (true, c, omt_frame, [omt_send omt_frame send_result])
  else
    let c := with_frames_dropped (Int32.incr (frames_dropped c)) c in
    (false, c, omt_frame,
     [omt_send omt_frame send_result; omt_send_connections conn_count]).

(** [handle_compressed_frame] (lines 332-435). *)
Definition handle_compressed_frame (ndi_frame : NDIlib_video_frame_v2_t)
  (send_result conn_count : Z) (c : NDIToOMTConverter) (omt_frame : OMTMediaFrame)
  : bool * NDIToOMTConverter * OMTMediaFrame * list call :=
  match compressed_packet ndi_frame with
  | inl _ => (false, c, omt_frame, [])
  | inr (packet, h264_data) =>
      let is_keyframe := packet_is_keyframe packet in
      let '(has_start_codes, nal) := scan_start_codes h264_data in
      let '(_, c, omt_frame, calls) :=
        send_compressed_to_omt h264_data is_keyframe send_result conn_count
          c omt_frame in
      (true, c, omt_frame, frame_analysis is_keyframe has_start_codes nal :: calls)
  end.

(** The test of lines 305-306. *)
Definition stream_properties_changed (c : NDIToOMTConverter)
  (ndi_frame : NDIlib_video_frame_v2_t) : bool :=
  negb (current_width c =? xres ndi_frame)
  || negb (current_height c =? yres ndi_frame)
  || negb (current_fps_n c =? frame_rate_N ndi_frame)
  || negb (current_fps_d c =? frame_rate_D ndi_frame).

(** [handle_video_frame] (lines 301-330). *)
Definition handle_video_frame (ndi_frame : NDIlib_video_frame_v2_t)
  (send_result conn_count : Z) (c : NDIToOMTConverter) (omt_frame : OMTMediaFrame)
  : NDIToOMTConverter * OMTMediaFrame * list call :=
  let c := with_frames_received (Int32.incr (frames_received c)) c in
  let c := if stream_properties_changed c ndi_frame
           then with_stream_properties ndi_frame c else c in
  let '(_, c, omt_frame, calls) :=
    handle_compressed_frame ndi_frame send_result conn_count c omt_frame in
  (c, omt_frame, calls).

(** The converter after the first two steps of [handle_video_frame]
    (lines 302-315). *)
Definition received (f : NDIlib_video_frame_v2_t) (c : NDIToOMTConverter)
  : NDIToOMTConverter :=
  let c := with_frames_received (Int32.incr (frames_received c)) c in
  if stream_properties_changed c f then with_stream_properties f c else c.

(** ** [print_statistics] (lines 503-556) *)

(** The period of [std::chrono::high_resolution_clock]: one nanosecond. *)
Definition ticks_per_second : Z := 1000000000.

(** Lines 543-544: [drop_rate] is a [float], the literal [0.1] a [double]. *)
Definition drop_rate (c : NDIToOMTConverter) : spec_float :=
  Float.div (Float.of_int (frames_dropped c)) (Float.of_int (frames_received c)).

Definition high_drop_rate (c : NDIToOMTConverter) : bool :=
  (10 <? frames_received c)
  && Float.gt (Float.to_double (drop_rate c)) Float.double_0_1.

(** Line 534. *)
Definition only_keyframes (c : NDIToOMTConverter) : bool :=
  (10 <? frames_sent c) && (pframes_sent c =? 0).

(** Lines 510-551: the block printed when [seconds > 0]. *)
Definition statistics_of (secs : Z) (c : NDIToOMTConverter) : statistics :=
  {| seconds := secs;
     total_received := frames_received c;
     total_sent := frames_sent c;
     total_dropped := frames_dropped c;
     i_frames := keyframes_sent c;
     p_frames := pframes_sent c;
     ip_ratio :=
       if 0 <? pframes_sent c
       then Float.div (Float.of_int (keyframes_sent c)) (Float.of_int (pframes_sent c))
       else Float.of_int 0;
     success_rate :=
       if 0 <? frames_received c
       then Float.div (Float.mul (Float.of_int 100) (Float.of_int (frames_sent c)))
                      (Float.of_int (frames_received c))
       else Float.of_int 0;
     avg_fps_received := Float.div (Float.of_int (frames_received c)) (Float.of_int secs);
     avg_fps_sent := Float.div (Float.of_int (frames_sent c)) (Float.of_int secs);
     mbps_received :=
       Float.div (Float.mul (Float.of_int (bytes_received c)) (Float.of_int 8))
                 (Float.of_int (secs * 1000000));
     mbps_sent :=
       Float.div (Float.mul (Float.of_int (bytes_sent c)) (Float.of_int 8))
                 (Float.of_int (secs * 1000000));
     omt_connections := connections c;
     format_width := current_width c;
     format_height := current_height c;
     warning_only_keyframes := only_keyframes c;
     warning_high_drop_rate := high_drop_rate c |}.

(** [now] is the clock read at line 504; the two differences are 64-bit
    counts of ticks, and [duration_cast] truncates. *)
Definition print_statistics (now : Z) (c : NDIToOMTConverter)
  : NDIToOMTConverter * list call :=
  if 2 * ticks_per_second <=? Int64.sub now (last_stats_time c) then
    let secs := Z.quot (Int64.sub now (start_time c)) ticks_per_second in
    (with_last_stats_time now c,
     if 0 <? secs then [printed_statistics (statistics_of secs c)] else [])
  else (c, []).

(** ** The loop of [run] (lines 209-299) *)

(** What [NDIlib_recv_capture_v3] delivers. *)
Inductive NDIlib_frame_type_e :=
| NDIlib_frame_type_video (video_frame : NDIlib_video_frame_v2_t)
| NDIlib_frame_type_audio
| NDIlib_frame_type_metadata
| NDIlib_frame_type_none
| NDIlib_frame_type_status_change
| NDIlib_frame_type_other.   (* the [default] case *)

(** One iteration's inputs: the captured frame, and what the sink and the
    clock answer when they are asked. *)
Record capture := {
  captured : NDIlib_frame_type_e;
  send_result : Z;        (* [omt_send], line 474 *)
  conn_count : Z;         (* [omt_send_connections], line 492 *)
  now : Z;                (* the clock, line 290 *)
  connections_now : Z;    (* [omt_send_connections], line 292 *)
  stats_now : Z           (* the clock, line 504 *)
}.

(** The converter with the locals of [run] that live across iterations. *)
Record run_state := {
  converter : NDIToOMTConverter;
  omt_frame : OMTMediaFrame;
  last_connection_check : Z
}.

(** Lines 218-225. *)
Definition run_start (c : NDIToOMTConverter) (now : Z) : run_state :=
  {| converter := c;
     omt_frame :=
       {| Timestamp := -1; Flags := OMTVideoFlags_None sdk;
          Width := 0; Height := 0; FrameRateN := 0; FrameRateD := 0;
          AspectRatio := S754_zero false; Data := []; DataLength := 0;
          CompressedLength := 0; Stride := 0 |};
     last_connection_check := now |}.

(** The [switch] of lines 233-287. *)
Definition dispatch (i : capture) (c : NDIToOMTConverter) (f : OMTMediaFrame)
  : NDIToOMTConverter * OMTMediaFrame * list call :=
  match captured i with
  | NDIlib_frame_type_video video_frame =>
      let '(c, f, calls) :=
        handle_video_frame video_frame (send_result i) (conn_count i) c f in
      (c, f, calls ++ [NDIlib_recv_free_video_v2])
  | NDIlib_frame_type_audio => (c, f, [NDIlib_recv_free_audio_v3])
  | NDIlib_frame_type_metadata => (c, f, [NDIlib_recv_free_metadata])
  | NDIlib_frame_type_none => (c, f, [])
  | NDIlib_frame_type_status_change => (c, f, [NDIlib_recv_get_performance])
  | NDIlib_frame_type_other => (c, f, [])
  end.

(** The body of the [while] loop. *)
Definition iteration (i : capture) (s : run_state) : run_state * list call :=
  let '(c, f, calls) := dispatch i (converter s) (omt_frame s) in
  if ticks_per_second <=? Int64.sub (now i) (last_connection_check s) then
    let c := with_connections (connections_now i) c in
    let '(c, printed) := print_statistics (stats_now i) c in
    ({| converter := c; omt_frame := f; last_connection_check := now i |},
     calls ++ omt_send_connections (connections_now i) :: printed)
  else
    ({| converter := c; omt_frame := f;
        last_connection_check := last_connection_check s |}, calls).

(** The loop over the iterations made while [running] holds. *)
Fixpoint run_from (s : run_state) (inputs : list capture) : run_state * list call :=
  match inputs with
  | [] => (s, [])
  | i :: rest =>
      let '(s, calls) := iteration i s in
      let '(s, calls') := run_from s rest in
      (s, calls ++ calls')
  end.

(** A run from construction: [t0] is the clock in the constructor, [t1] the
    clock at line 225. *)
Definition run (t0 t1 : Z) (inputs : list capture) : run_state * list call :=
  run_from (run_start (new_converter t0) t1) inputs.

End Converter.

(** ** Properties of runs *)

(** The six telemetry counters (the byte counter in its two copies) of
    [c] are at most those of [c']. *)
Definition counters_le (c c' : NDIToOMTConverter) : Prop :=
  frames_received c <= frames_received c'
  /\ frames_sent c <= frames_sent c'
  /\ frames_dropped c <= frames_dropped c'
  /\ bytes_received c <= bytes_received c'
  /\ bytes_sent c <= bytes_sent c'
  /\ keyframes_sent c <= keyframes_sent c'
  /\ pframes_sent c <= pframes_sent c'.

(** The counters of [c] and [c'] are the same. *)
Definition same_counters (c c' : NDIToOMTConverter) : Prop :=
  frames_received c' = frames_received c
  /\ frames_sent c' = frames_sent c
  /\ frames_dropped c' = frames_dropped c
  /\ bytes_received c' = bytes_received c
  /\ bytes_sent c' = bytes_sent c
  /\ keyframes_sent c' = keyframes_sent c
  /\ pframes_sent c' = pframes_sent c.

(** The number of video frames among the inputs, and the bytes they carry. *)
Definition video_frames_of (i : capture) : Z :=
  match captured i with
  | NDIlib_frame_type_video _ => 1
  | _ => 0
  end.

Definition video_bytes_of (i : capture) : Z :=
  match captured i with
  | NDIlib_frame_type_video f => data_size_in_bytes f
  | _ => 0
  end.

Definition video_frames (inputs : list capture) : Z :=
  fold_right (fun i n => video_frames_of i + n) 0 inputs.

Definition video_bytes (inputs : list capture) : Z :=
  fold_right (fun i n => video_bytes_of i + n) 0 inputs.

Definition is_omt_send (k : call) : bool :=
  match k with omt_send _ _ => true | _ => false end.

Definition is_free_video (k : call) : bool :=
  match k with NDIlib_recv_free_video_v2 => true | _ => false end.

Definition is_free_audio (k : call) : bool :=
  match k with NDIlib_recv_free_audio_v3 => true | _ => false end.

Definition is_free_metadata (k : call) : bool :=
  match k with NDIlib_recv_free_metadata => true | _ => false end.

(** How often a kind of call occurs. *)
Definition count (p : call -> bool) (calls : list call) : nat :=
  length (filter p calls).

(** ** Start markers, in the words of the design

    A start marker is the byte sequence 00 00 01 or 00 00 00 01; it ends at
    the index of its last byte. *)
Definition marker3_ends_at (span : list Z) (i : nat) : Prop :=
  (2 <= i)%nat
  /\ nth_error span (i - 2) = Some 0 /\ nth_error span (i - 1) = Some 0
  /\ nth_error span i = Some 1.

Definition marker4_ends_at (span : list Z) (i : nat) : Prop :=
  (3 <= i)%nat
  /\ nth_error span (i - 3) = Some 0 /\ nth_error span (i - 2) = Some 0
  /\ nth_error span (i - 1) = Some 0 /\ nth_error span i = Some 1.

Definition marker_ends_at (span : list Z) (i : nat) : Prop :=
  marker3_ends_at span i \/ marker4_ends_at span i.

(** The first marker that lies within the first min(32, length) bytes. *)
Definition first_marker (span : list Z) (i : nat) : Prop :=
  (i < Nat.min 32 (length span))%nat
  /\ marker_ends_at span i
  /\ forall j, (j < i)%nat -> ~ marker_ends_at span j.

(** The unit types the design names. *)
Definition named_unit_type (code : Z) : bool :=
  (code =? 5) || (code =? 1) || (code =? 7) || (code =? 8).

(** ** Claims the program does not meet, as they are stated *)

Section AsStated.

Variable sdk : SDK.

(** A frame stopped at the size check or at the codec check counts as
    dropped and is not sent. *)
Definition rejected_frame_counts_as_dropped (f : NDIlib_video_frame_v2_t)
  (sr cc : Z) (c : NDIToOMTConverter) (fr : OMTMediaFrame) : Prop :=
  compressed_packet sdk f = inl TooSmall \/ compressed_packet sdk f = inl WrongCodec ->
  let '(c', _, calls) := handle_video_frame sdk f sr cc c fr in
  frames_dropped c' = Int32.incr (frames_dropped c)
  /\ count is_omt_send calls = 0%nat.

(** A negative send result touches the dropped counter only. *)
Definition failed_send_counts_dropped_only (h264_data : list Z) (is_keyframe : bool)
  (sr cc : Z) (c : NDIToOMTConverter) (fr : OMTMediaFrame) : Prop :=
  sr < 0 ->
  let '(_, c', _, _) := send_compressed_to_omt sdk h264_data is_keyframe sr cc c fr in
  frames_dropped c' = Int32.incr (frames_dropped c)
  /\ frames_sent c' = frames_sent c
  /\ keyframes_sent c' = keyframes_sent c
  /\ pframes_sent c' = pframes_sent c.

(** A frame of height 0 leaves the stream properties as they were. *)
Definition zero_height_is_rejected (f : NDIlib_video_frame_v2_t)
  (sr cc : Z) (c : NDIToOMTConverter) (fr : OMTMediaFrame) : Prop :=
  yres f = 0 ->
  let '(c', _, _) := handle_video_frame sdk f sr cc c fr in
  current_width c' = current_width c
  /\ current_height c' = current_height c
  /\ current_fps_n c' = current_fps_n c
  /\ current_fps_d c' = current_fps_d c.

(** No counter is smaller after one more iteration of a run. *)
Definition counters_never_decrease (t0 t1 : Z) (inputs : list capture)
  (i : capture) : Prop :=
  counters_le (converter (fst (run sdk t0 t1 inputs)))
              (converter (fst (run sdk t0 t1 (inputs ++ [i])))).

End AsStated.

(** dropped / received > 0.1, over the rationals. *)
Definition drop_ratio_above_tenth (dropped received : Z) : Prop :=
  (1 # 10 < inject_Z dropped / inject_Z received)%Q.

(** dropped / received >= 0.1, over the rationals. *)
Definition drop_ratio_at_least_tenth (dropped received : Z) : Prop :=
  (1 # 10 <= inject_Z dropped / inject_Z received)%Q.

(** The two flags of a printed block are exactly the two conditions. *)
Definition flags_as_specified (s : statistics) : Prop :=
  (warning_only_keyframes s = true <-> 10 < total_sent s /\ p_frames s = 0)
  /\ (warning_high_drop_rate s = true <->
      10 < total_received s /\ drop_ratio_above_tenth (total_dropped s) (total_received s)).

(** ** A concrete SDK and concrete frames

    A packed little-endian header of 44 bytes with [version] at offset 0,
    [fourCC] at offset 4 and [flags] at offset 32, the four character code
    'H','2','6','4', keyframe bit 1. *)
Definition le32 (bytes : list Z) (off : nat) : Z :=
  at_ bytes off + 256 * at_ bytes (off + 1)
  + 65536 * at_ bytes (off + 2) + 16777216 * at_ bytes (off + 3).

Definition sdk44 : SDK :=
  {| sizeof_NDIlib_compressed_packet_t := 44;
     packet_of_bytes := fun bytes =>
       {| version := le32 bytes 0; fourCC := le32 bytes 4; flags := le32 bytes 32 |};
     NDIlib_compressed_FourCC_type_H264 := 875967048;
     NDIlib_compressed_packet_flags_keyframe := 1;
     OMTVideoFlags_None := 0 |}.

(** A header for [sdk44] with the given code and flags byte. *)
Definition header44 (code : list Z) (flag_byte : Z) : list Z :=
  [44; 0; 0; 0] ++ code ++ repeat 0 24 ++ [flag_byte; 0; 0; 0] ++ repeat 0 8.

Definition h264_code : list Z := [72; 50; 54; 52].

Definition video (w h : Z) (code : Z) (payload : list Z) : NDIlib_video_frame_v2_t :=
  {| xres := w; yres := h; FourCC := code;
     frame_rate_N := 30; frame_rate_D := 1; p_data := Some payload |}.

(** A key frame: an IDR unit behind a four byte marker. *)
Definition idr_unit : list Z := [0; 0; 0; 1; 101; 136; 132; 0].

Definition key_frame : NDIlib_video_frame_v2_t :=
  video 1920 1080 875967048 (header44 h264_code 1 ++ idr_unit).

(** The same bytes with the keyframe flag clear. *)
Definition delta_frame : NDIlib_video_frame_v2_t :=
  video 1920 1080 875967048 (header44 h264_code 0 ++ idr_unit).

(** Four bytes only, too few for a header. *)
Definition short_frame : NDIlib_video_frame_v2_t :=
  video 1920 1080 875967048 [44; 0; 0; 0].

(** A header and nothing behind it. *)
Definition header_only_frame : NDIlib_video_frame_v2_t :=
  video 1920 1080 875967048 (header44 h264_code 1).

(** A key frame that announces height 0. *)
Definition flat_frame : NDIlib_video_frame_v2_t :=
  video 1920 0 875967048 (header44 h264_code 1 ++ idr_unit).

(** The keyframe flag of the header of [f], when the checks accept it,
    with the bytes behind the header. *)
Definition compressed_packet_flags (sdk : SDK) (f : NDIlib_video_frame_v2_t)
  : option bool * list Z :=
  match compressed_packet sdk f with
  | inr (packet, h264_data) => (Some (packet_is_keyframe sdk packet), h264_data)
  | inl _ => (None, [])
  end.

(** An iteration that captures [f] while the clock stands at [t] and the
    sink answers [sr]. *)
Definition capture_video (f : NDIlib_video_frame_v2_t) (sr t : Z) : capture :=
  {| captured := NDIlib_frame_type_video f; send_result := sr; conn_count := 0;
     now := t; connections_now := 0; stats_now := t |}.

(** A converter that has seen 1920x1080 at 30/1. *)
Definition hd_converter : NDIToOMTConverter :=
  with_stream_properties key_frame (new_converter 0).

(** Twenty key frames, one every 100 ms: the sink refuses the first two. *)
Definition twenty_frames : list capture :=
  map (fun n => capture_video key_frame (if n <? 2 then -1 else 52)
                              ((n + 1) * 100000000))
      (map Z.of_nat (seq 0 20)).

(** A key frame with 1000 bytes behind the header, accepted by the sink,
    while the clock stands still. *)
Definition kilobyte_frame : capture :=
  capture_video (video 1920 1080 875967048
                   (header44 h264_code 1 ++ idr_unit ++ repeat 0 992)) 1000 0.

(** The drop rate test of a converter with the given counters. *)
Definition drop_rate_test (dropped received : Z) : bool :=
  Float.gt (Float.to_double (Float.div (Float.of_int dropped) (Float.of_int received)))
           Float.double_0_1.

(** What the counters satisfy while none of them has wrapped: [n] bounds
    the frames received, [b] the bytes sent. *)
Definition consistent (n b : Z) (c : NDIToOMTConverter) : Prop :=
  0 <= frames_sent c /\ 0 <= frames_dropped c
  /\ frames_sent c + frames_dropped c <= frames_received c
  /\ frames_received c <= n
  /\ 0 <= keyframes_sent c /\ 0 <= pframes_sent c
  /\ keyframes_sent c + pframes_sent c <= frames_received c
  /\ 0 <= bytes_sent c <= b
  /\ bytes_received c = bytes_sent c.

(** 2 147 483 frames of 1000 bytes: 648 bytes short of 2^31. *)
Definition many_kilobyte_frames : list capture :=
  repeat kilobyte_frame (Z.to_nat 2147483).

(** The statistics blocks among the calls, in the order they are printed. *)
Fixpoint printed_blocks (calls : list call) : list statistics :=
  match calls with
  | [] => []
  | printed_statistics s :: rest => s :: printed_blocks rest
  | _ :: rest => printed_blocks rest
  end.

(** The block the run over [twenty_frames] prints after two seconds. *)
Definition twenty_frames_block : statistics :=
  statistics_of 2 (converter (fst (run sdk44 0 0 twenty_frames))).

(** ** Start-up and shutdown

    [main], [initialize], [find_ndi_source], [init_omt_sender], [cleanup]
    and [list_ndi_sources]. What the two SDKs answer is collected in a
    [world]; a handle is modelled by whether it is non-null. *)

(** The calls on the two SDKs outside the loop. *)
Inductive setup_call :=
| NDIlib_initialize
| NDIlib_find_create_v2
| NDIlib_find_get_current_sources
| NDIlib_recv_create_v3 (source_to_connect_to : String.string)
| omt_send_create (name : String.string)
| omt_send_setsenderinformation
| NDIlib_recv_destroy
| NDIlib_find_destroy
| omt_send_destroy
| NDIlib_destroy.

(** What the SDKs answer during start-up. *)
Record world := {
  NDIlib_initialize_result : bool;
  NDIlib_find_create_v2_result : bool;      (* a finder, or null *)
  current_sources : list String.string;     (* [p_ndi_name] of each source found *)
  NDIlib_recv_create_v3_result : bool;      (* a receiver, or null *)
  omt_send_create_result : bool             (* a sender, or null *)
}.

(** The components and the stream info of [NDIToOMTConverter]
    (lines 42-51). *)
Record components := {
  ndi_receiver : bool;
  ndi_finder : bool;
  omt_sender : bool;
  ndi_source_name : String.string;
  omt_stream_name : String.string
}.

(** The constructor (lines 73-75). *)
Definition new_components (ndi_source omt_stream : String.string) : components :=
  {| ndi_receiver := false; ndi_finder := false; omt_sender := false;
     ndi_source_name := ndi_source; omt_stream_name := omt_stream |}.

(** [source_name.find(ndi_source_name) != std::string::npos] *)
Definition found_in (ndi_source_name source_name : String.string) : bool :=
  match String.index 0 ndi_source_name source_name with
  | Some _ => true
  | None => false
  end.

(** The loop of lines 154-160 from index [i]: the first source whose name
    contains the requested one. *)
Fixpoint find_source_by_name (ndi_source_name : String.string)
  (p_sources : list String.string) (i : nat) : option (nat * String.string) :=
  match p_sources with
  | [] => None
  | source_name :: rest =>
      if found_in ndi_source_name source_name then Some (i, source_name)
      else find_source_by_name ndi_source_name rest (S i)
  end.

(** Lines 147-166: the selected source and the name the converter keeps. *)
Definition select_source (ndi_source_name : String.string)
  (p_sources : list String.string) : option (nat * String.string) :=
  match p_sources with
  | [] => None
  | first :: _ =>
      if String.eqb ndi_source_name "" then Some (O, first)
      else find_source_by_name ndi_source_name p_sources 0
  end.

(** [find_ndi_source] (lines 125-187). *)
Definition find_ndi_source (w : world) (c : components)
  : bool * components * list setup_call :=
  match current_sources w with
  | [] => (false, c, [NDIlib_find_get_current_sources])
  | _ :: _ =>
      match select_source (ndi_source_name c) (current_sources w) with
      | None => (false, c, [NDIlib_find_get_current_sources])
      | Some (_, selected) =>
          let name := if String.eqb (ndi_source_name c) "" then selected
                      else ndi_source_name c in
          let c := {| ndi_receiver := NDIlib_recv_create_v3_result w;
                      ndi_finder := ndi_finder c; omt_sender := omt_sender c;
                      ndi_source_name := name;
                      omt_stream_name := omt_stream_name c |} in
          (ndi_receiver c, c,
           [NDIlib_find_get_current_sources; NDIlib_recv_create_v3 selected])
      end
  end.

(** [init_omt_sender] (lines 189-207). *)
Definition init_omt_sender (w : world) (c : components)
  : bool * components * list setup_call :=
  let c := {| ndi_receiver := ndi_receiver c; ndi_finder := ndi_finder c;
              omt_sender := omt_send_create_result w;
              ndi_source_name := ndi_source_name c;
              omt_stream_name := omt_stream_name c |} in
  if omt_sender c
  then (true, c, [omt_send_create (omt_stream_name c); omt_send_setsenderinformation])
  else (false, c, [omt_send_create (omt_stream_name c)]).

(** [initialize] (lines 85-123). *)
Definition initialize (w : world) (c : components)
  : bool * components * list setup_call :=
  if negb (NDIlib_initialize_result w) then (false, c, [NDIlib_initialize])
  else
    let c := {| ndi_receiver := ndi_receiver c;
                ndi_finder := NDIlib_find_create_v2_result w;
                omt_sender := omt_sender c;
                ndi_source_name := ndi_source_name c;
                omt_stream_name := omt_stream_name c |} in
    if negb (ndi_finder c)
    then (false, c, [NDIlib_initialize; NDIlib_find_create_v2])
    else
      let '(found, c, calls) := find_ndi_source w c in
      if negb found
      then (false, c, [NDIlib_initialize; NDIlib_find_create_v2] ++ calls)
      else
        let '(sending, c, calls') := init_omt_sender w c in
        (sending, c, [NDIlib_initialize; NDIlib_find_create_v2] ++ calls ++ calls').

(** [cleanup] (lines 558-581). *)
Definition cleanup (c : components) : components * list setup_call :=
  ({| ndi_receiver := false; ndi_finder := false; omt_sender := false;
      ndi_source_name := ndi_source_name c;
      omt_stream_name := omt_stream_name c |},
   (if ndi_receiver c then [NDIlib_recv_destroy] else [])
   ++ (if ndi_finder c then [NDIlib_find_destroy] else [])
   ++ (if omt_sender c then [omt_send_destroy] else [])
   ++ [NDIlib_destroy]).

(** [list_ndi_sources] (lines 597-630): the calls, and the names printed. *)
Definition list_ndi_sources (w : world) : list setup_call * list String.string :=
  if negb (NDIlib_initialize_result w) then ([NDIlib_initialize], [])
  else if negb (NDIlib_find_create_v2_result w)
  then ([NDIlib_initialize; NDIlib_find_create_v2; NDIlib_destroy], [])
  else ([NDIlib_initialize; NDIlib_find_create_v2; NDIlib_find_get_current_sources;
         NDIlib_find_destroy; NDIlib_destroy],
        current_sources w).

(** The locals of [main] the arguments set (lines 633-635). *)
Record arguments := {
  ndi_source : String.string;
  omt_stream : String.string;
  list_sources : bool
}.

Definition default_arguments : arguments :=
  {| ndi_source := ""; omt_stream := "NDItoOMT"; list_sources := false |}.

(** The loop of lines 638-655 over [argv[1]], [argv[2]], ...: the
    arguments read, or the value [main] returns from inside the loop (0
    after the help text, 1 after an unknown argument). [i + 1 < argc] holds
    when an argument follows. *)
Fixpoint parse_arguments (argv : list String.string) (a : arguments)
  : arguments + Z :=
  match argv with
  | [] => inl a
  | arg :: rest =>
      match String.eqb arg "-s", String.eqb arg "-o", rest with
      | true, _, value :: rest' =>
          parse_arguments rest'
            {| ndi_source := value; omt_stream := omt_stream a;
               list_sources := list_sources a |}
      | false, true, value :: rest' =>
          parse_arguments rest'
            {| ndi_source := ndi_source a; omt_stream := value;
               list_sources := list_sources a |}
      | _, _, _ =>
          if String.eqb arg "-l"
          then parse_arguments rest
                 {| ndi_source := ndi_source a; omt_stream := omt_stream a;
                    list_sources := true |}
          else if String.eqb arg "--help" then inr 0
          else inr 1
      end
  end.

(** What [main] does after the arguments. *)
Inductive activity :=
| usage_printed                     (* [--help] or an unknown argument *)
| sources_listed (calls : list setup_call) (names : list String.string)
| initialization_failed (calls : list setup_call)
| converted (calls : list setup_call) (loop : list call)
    (calls_after : list setup_call).

Section Main.

Variable sdk : SDK.

(** [main] (lines 632-677): the exit code and what was done. The
    converter is destroyed when [main] returns, which runs [cleanup]. [t0]
    and [t1] are the clock readings of the constructor and of [run],
    [inputs] the iterations of the loop until [running] is cleared. *)
Definition main (argv : list String.string) (w : world) (t0 t1 : Z)
  (inputs : list capture) : Z * activity :=
  match parse_arguments argv default_arguments with
  | inr code => (code, usage_printed)
  | inl a =>
      if list_sources a
      then let '(calls, names) := list_ndi_sources w in (0, sources_listed calls names)
      else
        let '(ok, c, calls) :=
          initialize w (new_components (ndi_source a) (omt_stream a)) in
        if negb ok then (1, initialization_failed (calls ++ snd (cleanup c)))
        else (0, converted calls (snd (run sdk t0 t1 inputs)) (snd (cleanup c)))
  end.

End Main.

(** ** Options as the usage text describes them *)

Inductive option_given :=
| source_given (name : String.string)     (* -s <source> *)
| output_given (name : String.string)     (* -o <output> *)
| list_given.                             (* -l *)

Definition words_of (o : option_given) : list String.string :=
  match o with
  | source_given name => ["-s"; name]
  | output_given name => ["-o"; name]
  | list_given => ["-l"]
  end.

(** The command line that gives the options in this order. *)
Definition command_line (options : list option_given) : list String.string :=
  flat_map words_of options.

Definition apply_option (a : arguments) (o : option_given) : arguments :=
  match o with
  | source_given name =>
      {| ndi_source := name; omt_stream := omt_stream a;
         list_sources := list_sources a |}
  | output_given name =>
      {| ndi_source := ndi_source a; omt_stream := name;
         list_sources := list_sources a |}
  | list_given =>
      {| ndi_source := ndi_source a; omt_stream := omt_stream a;
         list_sources := true |}
  end.

(** How often a call occurs in a list of set-up calls. *)
Definition setup_call_eqb (x y : setup_call) : bool :=
  match x, y with
  | NDIlib_initialize, NDIlib_initialize
  | NDIlib_find_create_v2, NDIlib_find_create_v2
  | NDIlib_find_get_current_sources, NDIlib_find_get_current_sources
  | omt_send_setsenderinformation, omt_send_setsenderinformation
  | NDIlib_recv_destroy, NDIlib_recv_destroy
  | NDIlib_find_destroy, NDIlib_find_destroy
  | omt_send_destroy, omt_send_destroy
  | NDIlib_destroy, NDIlib_destroy => true
  | NDIlib_recv_create_v3 a, NDIlib_recv_create_v3 b => String.eqb a b
  | omt_send_create a, omt_send_create b => String.eqb a b
  | _, _ => false
  end.

Definition occurrences (x : setup_call) (calls : list setup_call) : nat :=
  length (filter (setup_call_eqb x) calls).

Definition is_recv_create (x : setup_call) : bool :=
  match x with NDIlib_recv_create_v3 _ => true | _ => false end.

Definition is_send_create (x : setup_call) : bool :=
  match x with omt_send_create _ => true | _ => false end.

(** The calls [main] makes on the two SDKs outside the loop. *)
Definition setup_calls (done : activity) : list setup_call :=
  match done with
  | usage_printed => []
  | sources_listed calls _ => calls
  | initialization_failed calls => calls
  | converted calls _ calls_after => calls ++ calls_after
  end.

(** [name] occurs in [source_name]. *)
Definition occurs_in (name source_name : String.string) : Prop :=
  exists n, String.substring n (String.length name) source_name = name.

(** ** The calls of a run, counted *)

(** A frame the sink took, and one it refused (line 476). *)
Definition is_send_accepted (k : call) : bool :=
  match k with omt_send _ result => 0 <=? result | _ => false end.

Definition is_send_refused (k : call) : bool :=
  match k with omt_send _ result => negb (0 <=? result) | _ => false end.

(** The payload bytes of the frames the sink took. *)
Definition accepted_bytes_of (k : call) : Z :=
  match k with
  | omt_send frame result => if 0 <=? result then DataLength frame else 0
  | _ => 0
  end.

Definition accepted_bytes (calls : list call) : Z :=
  fold_right (fun k n => accepted_bytes_of k + n) 0 calls.

(** The counters hold 32-bit values. *)
Definition counters_in_range (c : NDIToOMTConverter) : Prop :=
  Int32.in_range (frames_received c) /\ Int32.in_range (frames_sent c)
  /\ Int32.in_range (frames_dropped c) /\ Int32.in_range (bytes_sent c).

(** The counters of [c'] are those of [c] advanced by what [calls]
    shows: a release per frame received, a send the sink took per frame
    sent (with its bytes), a send it refused per frame dropped, and a send
    per frame counted by its kind. *)
Definition accounted_for (c : NDIToOMTConverter) (calls : list call)
  (c' : NDIToOMTConverter) : Prop :=
  frames_received c'
  = Int32.wrap32 (frames_received c + Z.of_nat (count is_free_video calls))
  /\ frames_sent c'
     = Int32.wrap32 (frames_sent c + Z.of_nat (count is_send_accepted calls))
  /\ frames_dropped c'
     = Int32.wrap32 (frames_dropped c + Z.of_nat (count is_send_refused calls))
  /\ bytes_sent c' = Int32.wrap32 (bytes_sent c + accepted_bytes calls)
  /\ Int32.wrap32 (keyframes_sent c' + pframes_sent c')
     = Int32.wrap32 (keyframes_sent c + pframes_sent c
                     + Z.of_nat (count is_omt_send calls)).

(** The clock reading [t] is less than 2^62 ticks, which is 146 years,
    away from [t0]. *)
Definition near (t0 t : Z) : Prop := - 2 ^ 62 < t - t0 < 2 ^ 62.

(** Each number of [l] is at least two above the one before it, the first
    at least two above [prev]. *)
Fixpoint spaced (prev : Z) (l : list Z) : Prop :=
  match l with
  | [] => True
  | x :: rest => prev + 2 <= x /\ spaced x rest
  end.

(** An argument that is no option, or [-s] or [-o] with nothing behind
    it. *)
Definition unknown_argument (arg : String.string) (rest : list String.string) : Prop :=
  arg <> "-l" /\ arg <> "--help" /\ ((arg <> "-s" /\ arg <> "-o") \/ rest = []).

(** A world in which every call succeeds and two cameras are found. *)
Definition two_cameras : world :=
  {| NDIlib_initialize_result := true;
     NDIlib_find_create_v2_result := true;
     current_sources := ["STUDIO (Camera 1)"; "STUDIO (Camera 2)"];
     NDIlib_recv_create_v3_result := true;
     omt_send_create_result := true |}.

(** What every frame handed to the sink carries, whatever was captured:
    no timestamp of its own, no flag, and the payload with its length. *)
Definition plain_envelope (sdk : SDK) (k : call) : Prop :=
  match k with
  | omt_send frame _ =>
      Timestamp frame = -1 /\ Flags frame = OMTVideoFlags_None sdk
      /\ CompressedLength frame = 0 /\ Stride frame = 0
      /\ DataLength frame = Z.of_nat (length (Data frame))
  | _ => True
  end.

(** * Proofs *)

(** ** The byte scan *)

Lemma at_nth_error (span : list Z) (i : nat) :
  (i < length span)%nat -> nth_error span i = Some (at_ span i).
Proof. intro H. unfold at_. now apply nth_error_nth'. Qed.

Lemma nth_error_at (span : list Z) (i : nat) (b : Z) :
  nth_error span i = Some b -> at_ span i = b.
Proof. intro H. unfold at_. now apply nth_error_nth. Qed.

Lemma start_code3_marker (span : list Z) (i : nat) :
  (i < length span)%nat ->
  start_code3 span i = true <-> marker3_ends_at span i.
Proof.
  intro Hi. unfold start_code3, marker3_ends_at.
  rewrite !andb_true_iff, Nat.leb_le, !Z.eqb_eq.
  split.
  - intros [[[H2 Ha] Hb] Hc].
    rewrite !at_nth_error by lia. now rewrite Ha, Hb, Hc.
  - intros (H2 & Ha & Hb & Hc).
    now rewrite (nth_error_at _ _ _ Ha), (nth_error_at _ _ _ Hb), (nth_error_at _ _ _ Hc).
Qed.

Lemma start_code4_marker (span : list Z) (i : nat) :
  (i < length span)%nat ->
  start_code4 span i = true <-> marker4_ends_at span i.
Proof.
  intro Hi. unfold start_code4, marker4_ends_at.
  rewrite !andb_true_iff, Nat.leb_le, !Z.eqb_eq.
  split.
  - intros [[[[H3 Ha] Hb] Hc] Hd].
    rewrite !at_nth_error by lia. now rewrite Ha, Hb, Hc, Hd.
  - intros (H3 & Ha & Hb & Hc & Hd).
    now rewrite (nth_error_at _ _ _ Ha), (nth_error_at _ _ _ Hb),
      (nth_error_at _ _ _ Hc), (nth_error_at _ _ _ Hd).
Qed.

(** Either test of the loop body succeeds exactly at the end of a marker. *)
Lemma start_code_marker (span : list Z) (i : nat) :
  (i < length span)%nat ->
  start_code4 span i || start_code3 span i = true <-> marker_ends_at span i.
Proof.
  intro Hi. unfold marker_ends_at.
  rewrite orb_true_iff, start_code3_marker, start_code4_marker by assumption.
  tauto.
Qed.

Lemma scan_from_step (span : list Z) (n i : nat) :
  scan_from span (S n) i =
  if start_code4 span i || start_code3 span i
  then (true, analyze_nal span i)
  else scan_from span n (S i).
Proof. simpl. now destruct (start_code4 span i), (start_code3 span i). Qed.

Lemma scan_from_no_marker (span : list Z) (n : nat) :
  forall i, (i + n <= length span)%nat ->
  (forall j, (i <= j < i + n)%nat -> ~ marker_ends_at span j) ->
  scan_from span n i = (false, Unknown).
Proof.
  induction n as [|n IH]; intros i Hlen Hno; [reflexivity|].
  rewrite scan_from_step.
  destruct (start_code4 span i || start_code3 span i) eqn:E.
  - exfalso. apply (Hno i); [lia|]. apply start_code_marker; [lia|exact E].
  - apply IH; [lia|]. intros j Hj. apply Hno. lia.
Qed.

Lemma scan_from_first_marker (span : list Z) (n : nat) :
  forall i k, (i + n <= length span)%nat -> (i <= k < i + n)%nat ->
  marker_ends_at span k ->
  (forall j, (i <= j < k)%nat -> ~ marker_ends_at span j) ->
  scan_from span n i = (true, analyze_nal span k).
Proof.
  induction n as [|n IH]; intros i k Hlen Hk Hm Hno; [lia|].
  rewrite scan_from_step.
  destruct (start_code4 span i || start_code3 span i) eqn:E.
  - destruct (Nat.eq_dec i k) as [->|Hne]; [reflexivity|].
    exfalso. apply (Hno i); [lia|]. apply start_code_marker; [lia|exact E].
  - destruct (Nat.eq_dec i k) as [->|Hne].
    + apply start_code_marker in Hm; [congruence|lia].
    + apply IH; [lia|lia|exact Hm|]. intros j Hj. apply Hno. lia.
Qed.

Lemma analyze_nal_byte (span : list Z) (i : nat) (b : Z) :
  nth_error span (S i) = Some b ->
  analyze_nal span i = frame_type_of_nal (Z.land b 31).
Proof.
  intro H. unfold analyze_nal.
  assert (Hlt : (S i < length span)%nat) by (apply nth_error_Some; congruence).
  replace (i + 1)%nat with (S i) by lia.
  apply Nat.ltb_lt in Hlt. rewrite Hlt.
  now rewrite (nth_error_at _ _ _ H).
Qed.

Lemma analyze_nal_end (span : list Z) (i : nat) :
  nth_error span (S i) = None -> analyze_nal span i = Unknown.
Proof.
  intro H. unfold analyze_nal. apply nth_error_None in H.
  replace (i + 1)%nat with (S i) by lia.
  destruct (S i <? length span)%nat eqn:E; [|reflexivity].
  apply Nat.ltb_lt in E. lia.
Qed.

(** The tests of the loop read no byte at or behind index [i + 1]. *)
Lemma start_codes_firstn (span : list Z) (w i : nat) :
  (i < w)%nat ->
  start_code4 (firstn w span) i = start_code4 span i
  /\ start_code3 (firstn w span) i = start_code3 span i.
Proof.
  intro Hi. unfold start_code4, start_code3, at_.
  rewrite !nth_firstn.
  replace (i - 3 <? w)%nat with true by (symmetry; apply Nat.ltb_lt; lia).
  replace (i - 2 <? w)%nat with true by (symmetry; apply Nat.ltb_lt; lia).
  replace (i - 1 <? w)%nat with true by (symmetry; apply Nat.ltb_lt; lia).
  replace (i <? w)%nat with true by (symmetry; apply Nat.ltb_lt; lia).
  split; reflexivity.
Qed.

Lemma scan_from_firstn (span : list Z) (w n : nat) :
  forall i, (i + n <= w)%nat ->
  fst (scan_from (firstn w span) n i) = fst (scan_from span n i).
Proof.
  induction n as [|n IH]; intros i Hw; [reflexivity|].
  rewrite !scan_from_step.
  destruct (start_codes_firstn span w i) as [-> ->]; [lia|].
  destruct (start_code4 span i || start_code3 span i); [reflexivity|].
  apply IH. lia.
Qed.

Lemma frame_type_of_nal_other (code : Z) :
  named_unit_type code = false -> frame_type_of_nal code = NALType code.
Proof.
  unfold named_unit_type, frame_type_of_nal. intro H.
  apply orb_false_iff in H as [H H8]. apply orb_false_iff in H as [H H7].
  apply orb_false_iff in H as [H5 H1].
  now rewrite H5, H1, H7, H8.
Qed.

(** C5. The byte scan looks for a start marker (00 00 01 or 00 00 00 01)
    that ends within the first min(32, length) bytes of the span, and its
    first result depends on these bytes only. With no marker there the
    classification is Unknown. At the first marker the byte behind it is
    read and its low five bits decide: 5 is IDR (keyframe), 1 is P-frame
    (delta), 7 is SPS, 8 is PPS, every other code is kept as the code. A
    marker that ends the span has no byte behind it and leaves Unknown. *)
Theorem scan_start_codes_classifies (span : list Z) :
  fst (scan_start_codes span) = fst (scan_start_codes (firstn 32 span))
  /\ ((forall i, (i < Nat.min 32 (length span))%nat -> ~ marker_ends_at span i) ->
      scan_start_codes span = (false, Unknown))
  /\ (forall i b, first_marker span i -> nth_error span (S i) = Some b ->
      scan_start_codes span = (true, frame_type_of_nal (Z.land b 31)))
  /\ (forall i, first_marker span i -> nth_error span (S i) = None ->
      scan_start_codes span = (true, Unknown))
  /\ frame_type_of_nal 5 = IDR /\ frame_type_of_nal 1 = PFrame
  /\ frame_type_of_nal 7 = SPS /\ frame_type_of_nal 8 = PPS
  /\ (forall code, named_unit_type code = false ->
      frame_type_of_nal code = NALType code).
Proof.
  unfold scan_start_codes, scan_window, first_marker.
  split; [|split; [|split; [|split]]].
  - rewrite length_firstn.
    replace (Nat.min (Nat.min 32 (length span)) 32) with (Nat.min (length span) 32) by lia.
    symmetry. apply scan_from_firstn. lia.
  - intro Hno. apply scan_from_no_marker; [lia|].
    intros j Hj. apply Hno. lia.
  - intros i b (Hi & Hm & Hfirst) Hb.
    rewrite <- (analyze_nal_byte span i b Hb).
    apply scan_from_first_marker; [lia|lia|exact Hm|].
    intros j Hj. apply Hfirst. lia.
  - intros i (Hi & Hm & Hfirst) Hb.
    rewrite <- (analyze_nal_end span i Hb).
    apply scan_from_first_marker; [lia|lia|exact Hm|].
    intros j Hj. apply Hfirst. lia.
  - repeat split. exact frame_type_of_nal_other.
Qed.

Lemma idr_unit_first_marker : first_marker idr_unit 3.
Proof.
  unfold first_marker, marker_ends_at, marker3_ends_at, marker4_ends_at.
  split; [simpl; lia|]. split.
  - right. simpl. repeat split; lia.
  - intros j Hj [(H2 & _ & _ & H1)|(H3 & _)]; [|lia].
    assert (j = 2)%nat as -> by lia. discriminate H1.
Qed.

Lemma scan_start_codes_classifies_witness :
  scan_start_codes idr_unit = (true, IDR).
Proof.
  exact (proj1 (proj2 (proj2 (scan_start_codes_classifies idr_unit)))
           3%nat 101 idr_unit_first_marker eq_refl).
Defined.

(** ** The checks in front of the scan *)

(** When [compressed_packet] accepts. *)
Lemma compressed_packet_accepts (sdk : SDK) (f : NDIlib_video_frame_v2_t)
  (packet : NDIlib_compressed_packet_t) (h264_data : list Z) :
  compressed_packet sdk f = inr (packet, h264_data) <->
  exists bytes,
    p_data f = Some bytes
    /\ bytes <> []
    /\ FourCC f = NDIlib_compressed_FourCC_type_H264 sdk
    /\ (sizeof_NDIlib_compressed_packet_t sdk <= length bytes)%nat
    /\ packet = packet_of_bytes sdk (firstn (sizeof_NDIlib_compressed_packet_t sdk) bytes)
    /\ fourCC packet = NDIlib_compressed_FourCC_type_H264 sdk
    /\ h264_data = skipn (sizeof_NDIlib_compressed_packet_t sdk) bytes.
Proof.
  unfold compressed_packet, data_size_in_bytes.
  destruct (p_data f) as [bytes|].
  2:{ split; [discriminate|]. intros (bytes & H & _). discriminate. }
  destruct (Z.eqb_spec (Z.of_nat (length bytes)) 0) as [E0|E0].
  { split; [discriminate|]. intros (b & [= <-] & Hne & _).
    destruct bytes; [now elim Hne|discriminate]. }
  destruct (Z.eqb_spec (FourCC f) (NDIlib_compressed_FourCC_type_H264 sdk)) as [Ef|Ef].
  2:{ split; [discriminate|]. intros (b & _ & _ & H & _). contradiction. }
  cbv zeta.
  destruct (Z.ltb_spec (Z.of_nat (length bytes))
              (Z.of_nat (sizeof_NDIlib_compressed_packet_t sdk))) as [El|El].
  { split; [discriminate|]. intros (b & [= <-] & _ & _ & H & _). lia. }
  destruct (Z.eqb_spec
              (fourCC (packet_of_bytes sdk
                         (firstn (sizeof_NDIlib_compressed_packet_t sdk) bytes)))
              (NDIlib_compressed_FourCC_type_H264 sdk)) as [Ec|Ec]; cbn [negb].
  - split.
    + intros [= <- <-]. exists bytes. repeat split; try assumption; try lia.
      intros ->. now apply E0.
    + intros (b & [= <-] & _ & _ & _ & -> & _ & ->). reflexivity.
  - split; [discriminate|].
    intros (b & [= <-] & _ & _ & _ & -> & H & _). contradiction.
Qed.

(** The frame handed to [omt_send] carries the bytes behind the header. *)
Lemma handle_compressed_frame_accepted (sdk : SDK) (f : NDIlib_video_frame_v2_t)
  (packet : NDIlib_compressed_packet_t) (h264_data : list Z)
  (sr cc : Z) (c : NDIToOMTConverter) (fr : OMTMediaFrame) :
  compressed_packet sdk f = inr (packet, h264_data) ->
  exists c' calls,
    handle_compressed_frame sdk f sr cc c fr =
    (true, c', fill_omt_frame sdk c h264_data (packet_is_keyframe sdk packet) fr,
     frame_analysis (packet_is_keyframe sdk packet)
       (fst (scan_start_codes h264_data)) (snd (scan_start_codes h264_data))
     :: omt_send (fill_omt_frame sdk c h264_data (packet_is_keyframe sdk packet) fr) sr
     :: calls).
Proof.
  intro H. unfold handle_compressed_frame. rewrite H.
  destruct (scan_start_codes h264_data) as [has nal].
  unfold send_compressed_to_omt.
  destruct (0 <=? sr); eexists; eexists; reflexivity.
Qed.

(** C6. A frame is accepted exactly when it carries data, the H.264
    format tag, at least a header of payload, and the H.264 codec in the
    header. For every such frame the encoded bytes are the payload behind
    the header, their number is the payload length minus the header size,
    and these bytes, with this length, are scanned and handed to the sink.
    A payload that is exactly a header is accepted: its span is empty, the
    scan answers Unknown, and the frame is still handed to the sink, with
    data length 0. *)
Theorem accepted_span_is_payload_after_header (sdk : SDK) (f : NDIlib_video_frame_v2_t) :
  (forall packet h264_data,
     compressed_packet sdk f = inr (packet, h264_data) ->
     exists bytes,
       p_data f = Some bytes
       /\ FourCC f = NDIlib_compressed_FourCC_type_H264 sdk
       /\ fourCC packet = NDIlib_compressed_FourCC_type_H264 sdk
       /\ Z.of_nat (sizeof_NDIlib_compressed_packet_t sdk) <= data_size_in_bytes f
       /\ bytes = firstn (sizeof_NDIlib_compressed_packet_t sdk) bytes ++ h264_data
       /\ Z.of_nat (length h264_data) =
          data_size_in_bytes f - Z.of_nat (sizeof_NDIlib_compressed_packet_t sdk))
  /\ (forall bytes,
        p_data f = Some bytes ->
        FourCC f = NDIlib_compressed_FourCC_type_H264 sdk ->
        fourCC (packet_of_bytes sdk
                  (firstn (sizeof_NDIlib_compressed_packet_t sdk) bytes))
        = NDIlib_compressed_FourCC_type_H264 sdk ->
        (sizeof_NDIlib_compressed_packet_t sdk <= length bytes)%nat ->
        (0 < sizeof_NDIlib_compressed_packet_t sdk)%nat ->
        let packet :=
          packet_of_bytes sdk (firstn (sizeof_NDIlib_compressed_packet_t sdk) bytes) in
        let h264_data := skipn (sizeof_NDIlib_compressed_packet_t sdk) bytes in
        compressed_packet sdk f = inr (packet, h264_data)
        /\ bytes = firstn (sizeof_NDIlib_compressed_packet_t sdk) bytes ++ h264_data
        /\ Z.of_nat (length h264_data) =
           data_size_in_bytes f - Z.of_nat (sizeof_NDIlib_compressed_packet_t sdk)
        /\ forall sr cc c fr, exists c' fr' calls,
             handle_compressed_frame sdk f sr cc c fr =
             (true, c', fr',
              frame_analysis (packet_is_keyframe sdk packet)
                (fst (scan_start_codes h264_data)) (snd (scan_start_codes h264_data))
              :: omt_send fr' sr :: calls)
             /\ Data fr' = h264_data
             /\ DataLength fr' =
                data_size_in_bytes f - Z.of_nat (sizeof_NDIlib_compressed_packet_t sdk))
  /\ (forall bytes,
        p_data f = Some bytes ->
        FourCC f = NDIlib_compressed_FourCC_type_H264 sdk ->
        fourCC (packet_of_bytes sdk bytes) = NDIlib_compressed_FourCC_type_H264 sdk ->
        length bytes = sizeof_NDIlib_compressed_packet_t sdk ->
        (0 < sizeof_NDIlib_compressed_packet_t sdk)%nat ->
        compressed_packet sdk f = inr (packet_of_bytes sdk bytes, [])
        /\ scan_start_codes [] = (false, Unknown)
        /\ forall sr cc c fr, exists c' fr' calls,
             handle_compressed_frame sdk f sr cc c fr =
             (true, c', fr',
              frame_analysis (packet_is_keyframe sdk (packet_of_bytes sdk bytes))
                false Unknown
              :: omt_send fr' sr :: calls)
             /\ Data fr' = [] /\ DataLength fr' = 0).
Proof.
  split; [|split].
  - intros packet h264_data H.
    apply compressed_packet_accepts in H
      as (bytes & Hp & Hne & Hf & Hlen & Hpk & Hc & Hd).
    exists bytes. unfold data_size_in_bytes. rewrite Hp.
    repeat split; try assumption.
    + lia.
    + subst h264_data. symmetry. apply firstn_skipn.
    + subst h264_data. rewrite length_skipn. lia.
  - intros bytes Hp Hf Hc Hlen Hpos. cbv zeta.
    assert (Hacc : compressed_packet sdk f
                   = inr (packet_of_bytes sdk
                            (firstn (sizeof_NDIlib_compressed_packet_t sdk) bytes),
                          skipn (sizeof_NDIlib_compressed_packet_t sdk) bytes)).
    { apply compressed_packet_accepts. exists bytes.
      repeat split; try assumption.
      intros ->. simpl in Hlen. lia. }
    assert (Hsize : Z.of_nat (length (skipn (sizeof_NDIlib_compressed_packet_t sdk)
                                        bytes))
                    = data_size_in_bytes f
                      - Z.of_nat (sizeof_NDIlib_compressed_packet_t sdk)).
    { unfold data_size_in_bytes. rewrite Hp, length_skipn. lia. }
    split; [exact Hacc|]. split; [symmetry; apply firstn_skipn|].
    split; [exact Hsize|].
    intros sr cc c fr.
    destruct (handle_compressed_frame_accepted sdk f _ _ sr cc c fr Hacc)
      as (c' & calls & E).
    exists c'. eexists. exists calls. split; [exact E|].
    split; [reflexivity|exact Hsize].
  - intros bytes Hp Hf Hc Hlen Hpos.
    assert (Hacc : compressed_packet sdk f = inr (packet_of_bytes sdk bytes, [])).
    { apply compressed_packet_accepts. exists bytes.
      rewrite <- Hlen, firstn_all, skipn_all.
      repeat split; try assumption; try lia.
      intros ->. simpl in Hlen. lia. }
    split; [exact Hacc|]. split; [reflexivity|].
    intros sr cc c fr.
    destruct (handle_compressed_frame_accepted sdk f _ _ sr cc c fr Hacc)
      as (c' & calls & E).
    exists c'. eexists. exists calls. split; [exact E|].
    split; reflexivity.
Qed.

Lemma accepted_span_is_payload_after_header_witness :
  (exists bytes,
     p_data key_frame = Some bytes
     /\ bytes = firstn 44 bytes ++ idr_unit
     /\ Z.of_nat (length idr_unit) = data_size_in_bytes key_frame - 44)
  /\ compressed_packet sdk44 key_frame
     = inr (packet_of_bytes sdk44 (header44 h264_code 1), idr_unit)
  /\ (exists c' fr' calls,
        handle_compressed_frame sdk44 key_frame 52 0 (new_converter 0)
          (omt_frame (run_start sdk44 (new_converter 0) 0))
        = (true, c', fr',
           frame_analysis true true IDR :: omt_send fr' 52 :: calls)
        /\ Data fr' = idr_unit /\ DataLength fr' = 8)
  /\ compressed_packet sdk44 header_only_frame
     = inr (packet_of_bytes sdk44 (header44 h264_code 1), []).
Proof.
  split; [|split; [|split]].
  - destruct (proj1 (accepted_span_is_payload_after_header sdk44 key_frame)
                (packet_of_bytes sdk44 (header44 h264_code 1)) idr_unit eq_refl)
      as (bytes & Hp & _ & _ & _ & Hb & Hl).
    exists bytes. repeat split; assumption.
  - apply (proj1 (proj2 (accepted_span_is_payload_after_header sdk44 key_frame))
             (header44 h264_code 1 ++ idr_unit)); try reflexivity; simpl; lia.
  - destruct (proj1 (proj2 (accepted_span_is_payload_after_header sdk44 key_frame))
                (header44 h264_code 1 ++ idr_unit) eq_refl eq_refl eq_refl)
      as (_ & _ & _ & H); [simpl; lia|simpl; lia|].
    exact (H 52 0 (new_converter 0)
             (omt_frame (run_start sdk44 (new_converter 0) 0))).
  - apply (proj2 (proj2 (accepted_span_is_payload_after_header sdk44 header_only_frame))
             (header44 h264_code 1)); try reflexivity.
    simpl. lia.
Defined.

(** ** The frame handed to the sink *)

(** C1 (the program departs from the claim). The frame handed to
    [omt_send] is the same whether the header's keyframe flag is set or
    clear: both branches of lines 455-463 store [OMTVideoFlags_None], so
    the sink cannot tell a key frame from a delta frame. The result of the
    byte scan is not an argument of [send_compressed_to_omt]. On the two
    concrete frames [key_frame] and [delta_frame], which differ in the
    keyframe flag only, the calls of [omt_send] are the same. *)
Theorem keyframe_flag_is_lost_on_the_envelope (sdk : SDK)
  (c : NDIToOMTConverter) (h264_data : list Z) (fr : OMTMediaFrame) :
  fill_omt_frame sdk c h264_data true fr = fill_omt_frame sdk c h264_data false fr
  /\ Flags (fill_omt_frame sdk c h264_data true fr) = OMTVideoFlags_None sdk
  /\ Flags (fill_omt_frame sdk c h264_data false fr) = OMTVideoFlags_None sdk
  /\ (fst (compressed_packet_flags sdk44 key_frame) = Some true
      /\ fst (compressed_packet_flags sdk44 delta_frame) = Some false
      /\ filter is_omt_send
           (snd (handle_video_frame sdk44 key_frame 52 0 hd_converter
                   (omt_frame (run_start sdk44 hd_converter 0))))
         = filter is_omt_send
             (snd (handle_video_frame sdk44 delta_frame 52 0 hd_converter
                     (omt_frame (run_start sdk44 hd_converter 0))))).
Proof. repeat split. Qed.

(** ** One frame *)

(** What [send_compressed_to_omt] does to the converter, field by field. *)
Lemma send_compressed_to_omt_effect (sdk : SDK) (h264_data : list Z)
  (is_keyframe : bool) (sr cc : Z) (c : NDIToOMTConverter) (fr : OMTMediaFrame) :
  let '(ok, c', fr', calls) :=
    send_compressed_to_omt sdk h264_data is_keyframe sr cc c fr in
  ok = (0 <=? sr)
  /\ fr' = fill_omt_frame sdk c h264_data is_keyframe fr
  /\ calls = omt_send fr' sr
             :: (if 0 <=? sr then [] else [omt_send_connections cc])
  /\ frames_received c' = frames_received c
  /\ keyframes_sent c' =
     (if is_keyframe then Int32.incr (keyframes_sent c) else keyframes_sent c)
  /\ pframes_sent c' =
     (if is_keyframe then pframes_sent c else Int32.incr (pframes_sent c))
  /\ frames_sent c' =
     (if 0 <=? sr then Int32.incr (frames_sent c) else frames_sent c)
  /\ bytes_sent c' =
     (if 0 <=? sr then Int32.add (bytes_sent c) (Z.of_nat (length h264_data))
      else bytes_sent c)
  /\ bytes_received c' =
     (if 0 <=? sr then Int32.add (bytes_received c) (Z.of_nat (length h264_data))
      else bytes_received c)
  /\ frames_dropped c' =
     (if 0 <=? sr then frames_dropped c else Int32.incr (frames_dropped c))
  /\ current_width c' = current_width c /\ current_height c' = current_height c
  /\ current_fps_n c' = current_fps_n c /\ current_fps_d c' = current_fps_d c
  /\ connections c' = connections c
  /\ start_time c' = start_time c /\ last_stats_time c' = last_stats_time c.
Proof.
  unfold send_compressed_to_omt, count_frame_kind.
  destruct c, is_keyframe, (0 <=? sr); cbn; repeat split.
Qed.

Lemma received_effect (f : NDIlib_video_frame_v2_t) (c : NDIToOMTConverter) :
  let c' := received f c in
  frames_received c' = Int32.incr (frames_received c)
  /\ frames_sent c' = frames_sent c /\ frames_dropped c' = frames_dropped c
  /\ bytes_received c' = bytes_received c /\ bytes_sent c' = bytes_sent c
  /\ keyframes_sent c' = keyframes_sent c /\ pframes_sent c' = pframes_sent c
  /\ connections c' = connections c
  /\ start_time c' = start_time c /\ last_stats_time c' = last_stats_time c
  /\ current_width c' = xres f /\ current_height c' = yres f
  /\ current_fps_n c' = frame_rate_N f /\ current_fps_d c' = frame_rate_D f.
Proof.
  unfold received.
  destruct (stream_properties_changed _ f) eqn:E.
  - destruct c; cbn; repeat split.
  - unfold stream_properties_changed in E.
    apply orb_false_iff in E as [E Ed]. apply orb_false_iff in E as [E En].
    apply orb_false_iff in E as [Ew Eh].
    apply negb_false_iff, Z.eqb_eq in Ew, Eh, En, Ed.
    destruct c; cbn in *; repeat split; assumption.
Qed.

Lemma handle_video_frame_rejected (sdk : SDK) (f : NDIlib_video_frame_v2_t)
  (r : rejection) (sr cc : Z) (c : NDIToOMTConverter) (fr : OMTMediaFrame) :
  compressed_packet sdk f = inl r ->
  handle_video_frame sdk f sr cc c fr = (received f c, fr, []).
Proof.
  intro H. unfold handle_video_frame, handle_compressed_frame. now rewrite H.
Qed.

Lemma handle_video_frame_accepted (sdk : SDK) (f : NDIlib_video_frame_v2_t)
  (packet : NDIlib_compressed_packet_t) (h264_data : list Z)
  (sr cc : Z) (c : NDIToOMTConverter) (fr : OMTMediaFrame) :
  compressed_packet sdk f = inr (packet, h264_data) ->
  handle_video_frame sdk f sr cc c fr =
  let '(_, c', fr', calls) :=
    send_compressed_to_omt sdk h264_data (packet_is_keyframe sdk packet) sr cc
      (received f c) fr in
  (c', fr',
   frame_analysis (packet_is_keyframe sdk packet)
     (fst (scan_start_codes h264_data)) (snd (scan_start_codes h264_data)) :: calls).
Proof.
  intro H. unfold handle_video_frame, handle_compressed_frame. rewrite H.
  fold (received f c).
  destruct (scan_start_codes h264_data) as [has nal].
  now destruct (send_compressed_to_omt _ _ _ _ _ _ _) as [[[ok c'] fr'] calls].
Qed.

(** The calls of one video frame: none, or the analysis and one send,
    followed on failure by the query for the number of connections. *)
Lemma handle_video_frame_calls (sdk : SDK) (f : NDIlib_video_frame_v2_t)
  (sr cc : Z) (c : NDIToOMTConverter) (fr : OMTMediaFrame) :
  let '(_, fr', calls) := handle_video_frame sdk f sr cc c fr in
  (calls = [] /\ fr' = fr /\ exists r, compressed_packet sdk f = inl r)
  \/ exists packet h264_data,
       compressed_packet sdk f = inr (packet, h264_data)
       /\ fr' = fill_omt_frame sdk (received f c) h264_data
                  (packet_is_keyframe sdk packet) fr
       /\ calls =
          frame_analysis (packet_is_keyframe sdk packet)
            (fst (scan_start_codes h264_data)) (snd (scan_start_codes h264_data))
          :: omt_send fr' sr
          :: (if 0 <=? sr then [] else [omt_send_connections cc]).
Proof.
  destruct (compressed_packet sdk f) as [r|[packet h264_data]] eqn:E.
  - rewrite (handle_video_frame_rejected sdk f r sr cc c fr E).
    left. repeat split. now exists r.
  - rewrite (handle_video_frame_accepted sdk f packet h264_data sr cc c fr E).
    pose proof (send_compressed_to_omt_effect sdk h264_data
                  (packet_is_keyframe sdk packet) sr cc (received f c) fr) as S.
    destruct (send_compressed_to_omt _ _ _ _ _ _ _) as [[[ok c'] fr'] calls].
    destruct S as (_ & Hfr & Hcalls & _).
    right. exists packet, h264_data. subst calls. subst fr'.
    repeat split.
Qed.

Lemma run_from_cons (sdk : SDK) (s : run_state) (i : capture) (rest : list capture) :
  fst (run_from sdk s (i :: rest)) = fst (run_from sdk (fst (iteration sdk i s)) rest).
Proof.
  cbn [run_from]. destruct (iteration sdk i s) as [s' calls]. cbn [fst].
  now destruct (run_from sdk s' rest).
Qed.

(** C2 (as amended). A frame stopped at the size check or at the codec
    check is counted as received and as nothing else: the dropped counter
    and every other counter keep their values, nothing is handed to the
    sink, and the run goes on with the next input. *)
Theorem rejected_frame_is_not_forwarded (sdk : SDK) (f : NDIlib_video_frame_v2_t)
  (sr cc : Z) (c : NDIToOMTConverter) (fr : OMTMediaFrame) :
  compressed_packet sdk f = inl TooSmall \/ compressed_packet sdk f = inl WrongCodec ->
  let '(c', fr', calls) := handle_video_frame sdk f sr cc c fr in
  calls = [] /\ fr' = fr
  /\ frames_received c' = Int32.incr (frames_received c)
  /\ frames_dropped c' = frames_dropped c
  /\ frames_sent c' = frames_sent c
  /\ bytes_received c' = bytes_received c /\ bytes_sent c' = bytes_sent c
  /\ keyframes_sent c' = keyframes_sent c /\ pframes_sent c' = pframes_sent c
  /\ forall i s rest, captured i = NDIlib_frame_type_video f ->
       fst (run_from sdk s (i :: rest))
       = fst (run_from sdk (fst (iteration sdk i s)) rest).
Proof.
  intro H.
  assert (E : exists r, compressed_packet sdk f = inl r)
    by (destruct H; eauto).
  destruct E as [r E].
  rewrite (handle_video_frame_rejected sdk f r sr cc c fr E).
  pose proof (received_effect f c) as R. cbv zeta in R.
  destruct R as (R1 & R2 & R3 & R4 & R5 & R6 & R7 & _).
  repeat split; try assumption.
  intros i s rest _. apply run_from_cons.
Qed.

Lemma rejected_frame_is_not_forwarded_witness :
  let '(c', fr', calls) :=
    handle_video_frame sdk44 short_frame 52 0 hd_converter
      (omt_frame (run_start sdk44 hd_converter 0)) in
  calls = [] /\ frames_received c' = 1 /\ frames_dropped c' = 0.
Proof.
  pose proof (rejected_frame_is_not_forwarded sdk44 short_frame 52 0 hd_converter
                (omt_frame (run_start sdk44 hd_converter 0))
                (or_introl eq_refl)) as H.
  destruct (handle_video_frame _ _ _ _ _ _) as [[c' fr'] calls].
  destruct H as (H1 & _ & H2 & H3 & _).
  repeat split; [exact H1| |].
  - rewrite H2. reflexivity.
  - rewrite H3. reflexivity.
Defined.

(** C2 fails as stated: the four byte frame is stopped at the size check
    and the dropped counter stays 0. *)
Lemma rejected_frame_counts_as_dropped_fails :
  compressed_packet sdk44 short_frame = inl TooSmall
  /\ ~ rejected_frame_counts_as_dropped sdk44 short_frame 52 0 hd_converter
         (omt_frame (run_start sdk44 hd_converter 0)).
Proof.
  split; [reflexivity|].
  intro H. specialize (H (or_introl eq_refl)).
  cbn in H. destruct H as [H _]. discriminate H.
Qed.

(** C3 (as amended). The counter of the frame's kind, key or delta, is
    incremented before [omt_send] is called and whatever it answers. After
    the call: with a result of 0 or more the sent counter and both byte
    counters go up and the dropped counter stays; with a negative result
    the dropped counter goes up and the sent counter and the byte counters
    stay. Either way the run goes on with the next input. *)
Theorem send_result_accounting (sdk : SDK) (h264_data : list Z)
  (is_keyframe : bool) (sr cc : Z) (c : NDIToOMTConverter) (fr : OMTMediaFrame) :
  let '(ok, c', _, _) :=
    send_compressed_to_omt sdk h264_data is_keyframe sr cc c fr in
  keyframes_sent c' =
    (if is_keyframe then Int32.incr (keyframes_sent c) else keyframes_sent c)
  /\ pframes_sent c' =
    (if is_keyframe then pframes_sent c else Int32.incr (pframes_sent c))
  /\ frames_received c' = frames_received c
  /\ (0 <= sr ->
      ok = true
      /\ frames_sent c' = Int32.incr (frames_sent c)
      /\ bytes_sent c' = Int32.add (bytes_sent c) (Z.of_nat (length h264_data))
      /\ bytes_received c' = Int32.add (bytes_received c) (Z.of_nat (length h264_data))
      /\ frames_dropped c' = frames_dropped c)
  /\ (sr < 0 ->
      ok = false
      /\ frames_dropped c' = Int32.incr (frames_dropped c)
      /\ frames_sent c' = frames_sent c
      /\ bytes_sent c' = bytes_sent c
      /\ bytes_received c' = bytes_received c)
  /\ forall i s rest,
       fst (run_from sdk s (i :: rest))
       = fst (run_from sdk (fst (iteration sdk i s)) rest).
Proof.
  pose proof (send_compressed_to_omt_effect sdk h264_data is_keyframe sr cc c fr) as S.
  destruct (send_compressed_to_omt _ _ _ _ _ _ _) as [[[ok c'] fr'] calls].
  destruct S as (Hok & _ & _ & Hr & Hk & Hp & Hs & Hbs & Hbr & Hd & _).
  split; [exact Hk|]. split; [exact Hp|]. split; [exact Hr|].
  split; [|split].
  - intro Hsr. assert (E : (0 <=? sr) = true) by now apply Z.leb_le.
    rewrite E in *. repeat split; assumption.
  - intro Hsr. assert (E : (0 <=? sr) = false) by now apply Z.leb_gt.
    rewrite E in *. repeat split; assumption.
  - intros. apply run_from_cons.
Qed.

Lemma send_result_accounting_witness :
  let '(ok, c', _, _) :=
    send_compressed_to_omt sdk44 idr_unit true (-1) 0 hd_converter
      (omt_frame (run_start sdk44 hd_converter 0)) in
  ok = false /\ frames_dropped c' = 1 /\ frames_sent c' = 0 /\ keyframes_sent c' = 1.
Proof.
  pose proof (send_result_accounting sdk44 idr_unit true (-1) 0 hd_converter
                (omt_frame (run_start sdk44 hd_converter 0))) as H.
  destruct (send_compressed_to_omt _ _ _ _ _ _ _) as [[[ok c'] fr'] calls].
  destruct H as (Hk & _ & _ & _ & Hneg & _).
  destruct (Hneg ltac:(lia)) as (Hok & Hd & Hs & _).
  repeat split; [exact Hok| | |].
  - rewrite Hd. reflexivity.
  - rewrite Hs. reflexivity.
  - rewrite Hk. reflexivity.
Defined.

(** C3 fails as stated: a key frame the sink refuses is counted as a key
    frame all the same. *)
Lemma failed_send_counts_dropped_only_fails :
  ~ failed_send_counts_dropped_only sdk44 idr_unit true (-1) 0 hd_converter
      (omt_frame (run_start sdk44 hd_converter 0)).
Proof.
  intro H. specialize (H ltac:(lia)).
  cbn in H. destruct H as (_ & _ & H & _). discriminate H.
Qed.

(** ** Stream properties and the aspect ratio *)

(** A [float] divided by a zero is an infinity or not a number. *)
Lemma div_by_zero_not_finite (x : spec_float) (s : bool) :
  Float.is_finite (Float.div x (S754_zero s)) = false.
Proof. now destruct x. Qed.

Lemma of_int_zero : Float.of_int 0 = S754_zero false.
Proof. reflexivity. Qed.

(** C4 (as amended). The stream properties are taken from every video
    frame without a check: after [handle_video_frame] width, height and
    frame rate are those of the frame, also when its height is 0. A frame
    handed to the sink carries them, with the aspect ratio the [float]
    quotient of width by height; for height 0 that quotient is an infinity
    or not a number, and the frame is sent with it. *)
Theorem stream_properties_follow_the_frame (sdk : SDK) (f : NDIlib_video_frame_v2_t)
  (sr cc : Z) (c : NDIToOMTConverter) (fr : OMTMediaFrame) :
  let '(c', _, calls) := handle_video_frame sdk f sr cc c fr in
  current_width c' = xres f /\ current_height c' = yres f
  /\ current_fps_n c' = frame_rate_N f /\ current_fps_d c' = frame_rate_D f
  /\ (forall env r, In (omt_send env r) calls ->
      Width env = xres f /\ Height env = yres f
      /\ AspectRatio env = Float.div (Float.of_int (xres f)) (Float.of_int (yres f)))
  /\ (yres f = 0 ->
      forall env r, In (omt_send env r) calls ->
      Height env = 0 /\ Float.is_finite (AspectRatio env) = false).
Proof.
  pose proof (received_effect f c) as R. cbv zeta in R.
  destruct R as (_ & _ & _ & _ & _ & _ & _ & _ & _ & _ & Rw & Rh & Rn & Rd).
  assert (Henv : forall h264_data k env,
             env = fill_omt_frame sdk (received f c) h264_data k fr ->
             Width env = xres f /\ Height env = yres f
             /\ AspectRatio env
                = Float.div (Float.of_int (xres f)) (Float.of_int (yres f))).
  { intros h264_data k env ->. cbn. now rewrite Rw, Rh. }
  destruct (compressed_packet sdk f) as [r|[packet h264_data]] eqn:E.
  - rewrite (handle_video_frame_rejected sdk f r sr cc c fr E).
    repeat split; try assumption; intros; contradiction.
  - rewrite (handle_video_frame_accepted sdk f packet h264_data sr cc c fr E).
    pose proof (send_compressed_to_omt_effect sdk h264_data
                  (packet_is_keyframe sdk packet) sr cc (received f c) fr) as S.
    destruct (send_compressed_to_omt _ _ _ _ _ _ _) as [[[ok c'] fr'] calls].
    destruct S as (_ & Hfr & Hcalls & _ & _ & _ & _ & _ & _ & _
                   & Hw & Hh & Hn & Hd & _).
    assert (Hin : forall env r,
               In (omt_send env r)
                  (frame_analysis (packet_is_keyframe sdk packet)
                     (fst (scan_start_codes h264_data))
                     (snd (scan_start_codes h264_data)) :: calls) ->
               env = fr').
    { intros env r [H|H]; [discriminate|]. subst calls.
      destruct H as [H|H]; [now inversion H|].
      destruct (0 <=? sr); [contradiction|].
      destruct H as [H|[]]. discriminate. }
    split; [congruence|]. split; [congruence|].
    split; [congruence|]. split; [congruence|]. split.
    + intros env r H. apply (Henv h264_data (packet_is_keyframe sdk packet)).
      rewrite (Hin env r H). exact Hfr.
    + intros Hz env r H.
      destruct (Henv h264_data (packet_is_keyframe sdk packet) env) as (_ & Hh' & Ha).
      { rewrite (Hin env r H). exact Hfr. }
      split; [congruence|].
      rewrite Ha, Hz, of_int_zero. apply div_by_zero_not_finite.
Qed.

Lemma stream_properties_follow_the_frame_witness :
  let '(c', _, calls) :=
    handle_video_frame sdk44 flat_frame 52 0 hd_converter
      (omt_frame (run_start sdk44 hd_converter 0)) in
  current_height c' = 0
  /\ forall env r, In (omt_send env r) calls ->
       Height env = 0 /\ Float.is_finite (AspectRatio env) = false.
Proof.
  pose proof (stream_properties_follow_the_frame sdk44 flat_frame 52 0 hd_converter
                (omt_frame (run_start sdk44 hd_converter 0))) as H.
  destruct (handle_video_frame _ _ _ _ _ _) as [[c' fr'] calls].
  destruct H as (_ & Hh & _ & _ & _ & Hz).
  split; [exact Hh|]. exact (Hz eq_refl).
Defined.

(** C4 fails as stated: from 1920x1080 a key frame of height 0 makes the
    current height 0, and the frame goes to the sink with an infinite
    aspect ratio. *)
Lemma zero_height_is_rejected_fails :
  current_height hd_converter = 1080
  /\ ~ zero_height_is_rejected sdk44 flat_frame 52 0 hd_converter
         (omt_frame (run_start sdk44 hd_converter 0))
  /\ exists env,
       In (omt_send env 52)
          (snd (handle_video_frame sdk44 flat_frame 52 0 hd_converter
                  (omt_frame (run_start sdk44 hd_converter 0))))
       /\ AspectRatio env = S754_infinity false.
Proof.
  split; [reflexivity|]. split.
  - intro H. specialize (H eq_refl). cbn in H.
    destruct H as (_ & H & _). discriminate H.
  - eexists. split; [right; left; reflexivity|reflexivity].
Qed.

(** ** Releasing what was captured *)

Lemma count_app (p : call -> bool) (a b : list call) :
  count p (a ++ b) = (count p a + count p b)%nat.
Proof. unfold count. now rewrite filter_app, length_app. Qed.

(** [handle_video_frame] and [print_statistics] release nothing, and
    after the release nothing is sent. *)
Lemma handle_video_frame_releases_nothing (sdk : SDK) (f : NDIlib_video_frame_v2_t)
  (sr cc : Z) (c : NDIToOMTConverter) (fr : OMTMediaFrame) :
  let calls := snd (handle_video_frame sdk f sr cc c fr) in
  count is_free_video calls = 0%nat /\ count is_free_audio calls = 0%nat
  /\ count is_free_metadata calls = 0%nat.
Proof.
  pose proof (handle_video_frame_calls sdk f sr cc c fr) as H.
  destruct (handle_video_frame _ _ _ _ _ _) as [[c' fr'] calls]. cbn [snd].
  destruct H as [(-> & _)|(packet & h264_data & _ & _ & ->)]; [now repeat split|].
  destruct (0 <=? sr); now repeat split.
Qed.

Lemma print_statistics_calls (t : Z) (c : NDIToOMTConverter) :
  snd (print_statistics t c) = []
  \/ exists secs, snd (print_statistics t c) = [printed_statistics (statistics_of secs c)].
Proof.
  unfold print_statistics.
  destruct (2 * ticks_per_second <=? Int64.sub t (last_stats_time c)); [|now left].
  cbn [snd]. destruct (0 <? _); [right; eauto|now left].
Qed.

(** The calls of an iteration: those of the [switch], then those of the
    periodic check. *)
Lemma iteration_calls (sdk : SDK) (i : capture) (s : run_state) :
  exists periodic,
    snd (iteration sdk i s)
    = snd (dispatch sdk i (converter s) (omt_frame s)) ++ periodic
    /\ count is_free_video periodic = 0%nat
    /\ count is_free_audio periodic = 0%nat
    /\ count is_free_metadata periodic = 0%nat
    /\ count is_omt_send periodic = 0%nat.
Proof.
  unfold iteration.
  destruct (dispatch sdk i (converter s) (omt_frame s)) as [[c f] calls].
  destruct (ticks_per_second <=? Int64.sub (now i) (last_connection_check s)).
  - pose proof (print_statistics_calls (stats_now i)
                  (with_connections (connections_now i) c)) as P.
    destruct (print_statistics _ _) as [c' printed]. cbn [snd] in *.
    exists (omt_send_connections (connections_now i) :: printed).
    split; [reflexivity|].
    destruct P as [->|[secs ->]]; now repeat split.
  - exists []. cbn [snd]. rewrite app_nil_r. now repeat split.
Qed.

(** C9. In an iteration that captures a video, an audio or a metadata
    frame, the frame is released exactly once, by the call that belongs to
    its kind, whatever happens to the frame: stopped at a check, sent, or
    refused by the sink. For a video frame the release comes after
    everything that is handed to the sink. An iteration that captures
    nothing or a status change releases nothing. *)
Theorem captured_frame_is_released_once (sdk : SDK) (i : capture) (s : run_state) :
  let calls := snd (iteration sdk i s) in
  match captured i with
  | NDIlib_frame_type_video _ =>
      count is_free_video calls = 1%nat
      /\ count is_free_audio calls = 0%nat /\ count is_free_metadata calls = 0%nat
      /\ exists before after,
           calls = before ++ NDIlib_recv_free_video_v2 :: after
           /\ count is_omt_send after = 0%nat
  | NDIlib_frame_type_audio =>
      count is_free_video calls = 0%nat
      /\ count is_free_audio calls = 1%nat /\ count is_free_metadata calls = 0%nat
  | NDIlib_frame_type_metadata =>
      count is_free_video calls = 0%nat
      /\ count is_free_audio calls = 0%nat /\ count is_free_metadata calls = 1%nat
  | _ =>
      count is_free_video calls = 0%nat
      /\ count is_free_audio calls = 0%nat /\ count is_free_metadata calls = 0%nat
  end.
Proof.
  cbv zeta.
  destruct (iteration_calls sdk i s) as (periodic & -> & Pv & Pa & Pm & Ps).
  unfold dispatch.
  destruct (captured i) as [f| | | | |];
    try (cbn [snd]; rewrite !count_app, Pv, Pa, Pm; now repeat split).
  pose proof (handle_video_frame_releases_nothing sdk f (send_result i)
                (conn_count i) (converter s) (omt_frame s)) as H.
  cbv zeta in H.
  destruct (handle_video_frame _ _ _ _ _ _) as [[c' fr'] calls].
  cbn [snd] in *. destruct H as (Hv & Ha & Hm).
  rewrite !count_app, Hv, Ha, Hm, Pv, Pa, Pm.
  repeat split.
  exists calls, periodic. split; [now rewrite <- app_assoc|exact Ps].
Qed.

(** ** Iterations and runs *)

(** The converter after the [switch]. *)
Lemma dispatch_converter (sdk : SDK) (i : capture) (c : NDIToOMTConverter)
  (fr : OMTMediaFrame) :
  let c' := fst (fst (dispatch sdk i c fr)) in
  match captured i with
  | NDIlib_frame_type_video f =>
      match compressed_packet sdk f with
      | inl _ => c' = received f c
      | inr (packet, h264_data) =>
          c' = snd (fst (fst (send_compressed_to_omt sdk h264_data
                                (packet_is_keyframe sdk packet)
                                (send_result i) (conn_count i) (received f c) fr)))
      end
  | _ => c' = c
  end.
Proof.
  unfold dispatch. destruct (captured i) as [f| | | | |]; try reflexivity.
  destruct (compressed_packet sdk f) as [r|[packet h264_data]] eqn:E.
  - now rewrite (handle_video_frame_rejected sdk f r _ _ c fr E).
  - rewrite (handle_video_frame_accepted sdk f packet h264_data _ _ c fr E).
    now destruct (send_compressed_to_omt _ _ _ _ _ _ _) as [[[ok c'] fr'] calls].
Qed.

(** Nothing is printed inside the [switch]. *)
Lemma dispatch_prints_no_statistics (sdk : SDK) (i : capture)
  (c : NDIToOMTConverter) (fr : OMTMediaFrame) (st : statistics) :
  ~ In (printed_statistics st) (snd (dispatch sdk i c fr)).
Proof.
  unfold dispatch. destruct (captured i) as [f| | | | |]; cbn [snd];
    try (intros [H|[]]; discriminate); try (intros []).
  pose proof (handle_video_frame_calls sdk f (send_result i) (conn_count i) c fr) as H.
  destruct (handle_video_frame _ _ _ _ _ _) as [[c' fr'] calls]. cbn [snd].
  intro Hin. apply in_app_or in Hin as [Hin|[Hin|[]]]; [|discriminate].
  destruct H as [(-> & _)|(packet & h264_data & _ & _ & ->)]; [contradiction|].
  destruct Hin as [Hin|[Hin|Hin]]; try discriminate.
  destruct (0 <=? send_result i); [contradiction|].
  destruct Hin as [Hin|[]]. discriminate.
Qed.

(** The periodic check writes [connections] and [last_stats_time] only. *)
Lemma print_statistics_same_counters (t : Z) (c : NDIToOMTConverter) :
  same_counters c (fst (print_statistics t c))
  /\ (fst (print_statistics t c) = c
      \/ fst (print_statistics t c) = with_last_stats_time t c).
Proof.
  unfold print_statistics.
  destruct (2 * ticks_per_second <=? Int64.sub t (last_stats_time c)); cbn [fst].
  - split; [|now right]. destruct c; cbn. now repeat split.
  - split; [|now left]. now repeat split.
Qed.

Lemma with_connections_same_counters (v : Z) (c : NDIToOMTConverter) :
  same_counters c (with_connections v c).
Proof. destruct c; cbn. now repeat split. Qed.

(** The converter an iteration leaves, and what it prints. *)
Lemma iteration_converter (sdk : SDK) (i : capture) (s : run_state) :
  let c1 := fst (fst (dispatch sdk i (converter s) (omt_frame s))) in
  same_counters c1 (converter (fst (iteration sdk i s)))
  /\ forall st, In (printed_statistics st) (snd (iteration sdk i s)) ->
       exists secs, st = statistics_of secs (with_connections (connections_now i) c1).
Proof.
  cbv zeta. unfold iteration.
  pose proof (dispatch_prints_no_statistics sdk i (converter s) (omt_frame s)) as N.
  destruct (dispatch sdk i (converter s) (omt_frame s)) as [[c f] calls].
  cbn [fst snd] in *.
  destruct (ticks_per_second <=? Int64.sub (now i) (last_connection_check s)).
  - pose proof (print_statistics_same_counters (stats_now i)
                  (with_connections (connections_now i) c)) as [P _].
    pose proof (print_statistics_calls (stats_now i)
                  (with_connections (connections_now i) c)) as Q.
    destruct (print_statistics _ _) as [c' printed]. cbn [fst snd converter] in *.
    split.
    + pose proof (with_connections_same_counters (connections_now i) c) as W.
      unfold same_counters in *. intuition congruence.
    + intros st Hin. apply in_app_or in Hin as [Hin|[Hin|Hin]].
      * now apply N in Hin.
      * discriminate.
      * destruct Q as [->|[secs ->]]; [contradiction|].
        destruct Hin as [[= <-]|[]]. now exists secs.
  - cbn [fst snd converter]. split; [now repeat split|].
    intros st Hin. now apply N in Hin.
Qed.

Lemma run_from_app (sdk : SDK) (a b : list capture) :
  forall s,
    run_from sdk s (a ++ b)
    = (fst (run_from sdk (fst (run_from sdk s a)) b),
       snd (run_from sdk s a) ++ snd (run_from sdk (fst (run_from sdk s a)) b)).
Proof.
  induction a as [|i a IH]; intro s.
  - cbn. now destruct (run_from sdk s b).
  - cbn [app run_from]. destruct (iteration sdk i s) as [s1 calls1].
    rewrite IH. destruct (run_from sdk s1 a) as [s2 calls2]. cbn [fst snd].
    now rewrite app_assoc.
Qed.

(** ** The two byte counters *)

(** What one video frame does to the byte counters. *)
Lemma handle_video_frame_bytes (sdk : SDK) (f : NDIlib_video_frame_v2_t)
  (sr cc : Z) (c : NDIToOMTConverter) (fr : OMTMediaFrame) :
  let '(c', _, _) := handle_video_frame sdk f sr cc c fr in
  match compressed_packet sdk f with
  | inr (_, h264_data) =>
      if 0 <=? sr
      then bytes_sent c' = Int32.add (bytes_sent c) (Z.of_nat (length h264_data))
           /\ bytes_received c'
              = Int32.add (bytes_received c) (Z.of_nat (length h264_data))
      else bytes_sent c' = bytes_sent c /\ bytes_received c' = bytes_received c
  | inl _ => bytes_sent c' = bytes_sent c /\ bytes_received c' = bytes_received c
  end.
Proof.
  pose proof (received_effect f c) as R. cbv zeta in R.
  destruct R as (_ & _ & _ & Rbr & Rbs & _).
  destruct (compressed_packet sdk f) as [r|[packet h264_data]] eqn:E.
  - rewrite (handle_video_frame_rejected sdk f r sr cc c fr E). now split.
  - rewrite (handle_video_frame_accepted sdk f packet h264_data sr cc c fr E).
    pose proof (send_compressed_to_omt_effect sdk h264_data
                  (packet_is_keyframe sdk packet) sr cc (received f c) fr) as S.
    destruct (send_compressed_to_omt _ _ _ _ _ _ _) as [[[ok c'] fr'] calls].
    destruct S as (_ & _ & _ & _ & _ & _ & _ & Hbs & Hbr & _).
    rewrite Hbs, Hbr, Rbs, Rbr. now destruct (0 <=? sr).
Qed.

Lemma iteration_bytes_agree (sdk : SDK) (i : capture) (s : run_state) :
  bytes_received (converter s) = bytes_sent (converter s) ->
  bytes_received (converter (fst (iteration sdk i s)))
  = bytes_sent (converter (fst (iteration sdk i s)))
  /\ forall st, In (printed_statistics st) (snd (iteration sdk i s)) ->
       mbps_received st = mbps_sent st.
Proof.
  intro H.
  destruct (iteration_converter sdk i s) as [Hc Hp].
  assert (H1 : bytes_received (fst (fst (dispatch sdk i (converter s) (omt_frame s))))
               = bytes_sent (fst (fst (dispatch sdk i (converter s) (omt_frame s))))).
  { pose proof (dispatch_converter sdk i (converter s) (omt_frame s)) as D.
    cbv zeta in D. unfold dispatch in *.
    destruct (captured i) as [f| | | | |]; try exact H.
    pose proof (handle_video_frame_bytes sdk f (send_result i) (conn_count i)
                  (converter s) (omt_frame s)) as B.
    destruct (handle_video_frame _ _ _ _ _ _) as [[c' fr'] calls]. cbn [fst].
    destruct (compressed_packet sdk f) as [r|[packet h264_data]].
    - destruct B as [-> ->]. exact H.
    - destruct (0 <=? send_result i); destruct B as [-> ->]; now rewrite H. }
  split.
  - destruct Hc as (_ & _ & _ & -> & -> & _). exact H1.
  - intros st Hin. destruct (Hp st Hin) as [secs ->]. cbn.
    replace (bytes_received (with_connections (connections_now i)
               (fst (fst (dispatch sdk i (converter s) (omt_frame s))))))
      with (bytes_sent (with_connections (connections_now i)
               (fst (fst (dispatch sdk i (converter s) (omt_frame s)))))).
    + reflexivity.
    + destruct (fst (fst (dispatch sdk i (converter s) (omt_frame s)))).
      cbn in *. now symmetry.
Qed.

Lemma run_from_bytes_agree (sdk : SDK) (inputs : list capture) :
  forall s,
    bytes_received (converter s) = bytes_sent (converter s) ->
    bytes_received (converter (fst (run_from sdk s inputs)))
    = bytes_sent (converter (fst (run_from sdk s inputs)))
    /\ forall st, In (printed_statistics st) (snd (run_from sdk s inputs)) ->
         mbps_received st = mbps_sent st.
Proof.
  induction inputs as [|i rest IH]; intros s H.
  - cbn. split; [exact H|]. intros st [].
  - cbn [run_from].
    destruct (iteration_bytes_agree sdk i s H) as [H1 P1].
    destruct (iteration sdk i s) as [s1 calls1]. cbn [fst snd] in *.
    destruct (IH s1 H1) as [H2 P2].
    destruct (run_from sdk s1 rest) as [s2 calls2]. cbn [fst snd] in *.
    split; [exact H2|].
    intros st Hin. apply in_app_or in Hin as [Hin|Hin]; auto.
Qed.

(** C10. Throughout a run the counter of bytes received equals the
    counter of bytes sent: both start at 0, and a video frame adds the
    number of bytes behind its header to both when the checks accept it and
    [omt_send] answers 0 or more, and leaves both alone otherwise. Every
    statistics block therefore shows the same bitrate in and out. *)
Theorem byte_counters_agree (sdk : SDK) (t0 t1 : Z) (inputs : list capture) :
  bytes_received (converter (fst (run sdk t0 t1 inputs)))
  = bytes_sent (converter (fst (run sdk t0 t1 inputs)))
  /\ (forall st, In (printed_statistics st) (snd (run sdk t0 t1 inputs)) ->
      mbps_received st = mbps_sent st)
  /\ forall f sr cc c fr,
       let '(c', _, _) := handle_video_frame sdk f sr cc c fr in
       match compressed_packet sdk f with
       | inr (_, h264_data) =>
           if 0 <=? sr
           then bytes_sent c' = Int32.add (bytes_sent c) (Z.of_nat (length h264_data))
                /\ bytes_received c'
                   = Int32.add (bytes_received c) (Z.of_nat (length h264_data))
           else bytes_sent c' = bytes_sent c /\ bytes_received c' = bytes_received c
       | inl _ => bytes_sent c' = bytes_sent c /\ bytes_received c' = bytes_received c
       end.
Proof.
  unfold run.
  destruct (run_from_bytes_agree sdk inputs (run_start sdk (new_converter t0) t1)
              eq_refl) as [H P].
  split; [exact H|]. split; [exact P|].
  exact (handle_video_frame_bytes sdk).
Qed.

(** ** Counters that do not wrap *)

Lemma max_int_value : Int32.max_int = 2147483647.
Proof. reflexivity. Qed.

Lemma min_int_value : Int32.min_int = -2147483648.
Proof. reflexivity. Qed.

Lemma wrap32_small (z : Z) : Int32.in_range z -> Int32.wrap32 z = z.
Proof.
  unfold Int32.in_range, Int32.wrap32. rewrite max_int_value, min_int_value.
  change (2 ^ 31) with 2147483648. change (2 ^ 32) with 4294967296.
  intro H. rewrite Z.mod_small; lia.
Qed.

Lemma incr_small (c : Z) : 0 <= c < Int32.max_int -> Int32.incr c = c + 1.
Proof.
  intro H. apply wrap32_small. unfold Int32.in_range.
  rewrite max_int_value, min_int_value in *. lia.
Qed.

Lemma add_small (c n : Z) :
  0 <= c -> 0 <= n -> c + n <= Int32.max_int -> Int32.add c n = c + n.
Proof.
  intros Hc Hn H. apply wrap32_small. unfold Int32.in_range.
  rewrite max_int_value, min_int_value in *. lia.
Qed.

Lemma wrap32_add_l (a b : Z) : Int32.wrap32 (Int32.wrap32 a + b) = Int32.wrap32 (a + b).
Proof.
  unfold Int32.wrap32. f_equal.
  replace ((a + 2 ^ 31) mod 2 ^ 32 - 2 ^ 31 + b + 2 ^ 31)
    with ((a + 2 ^ 31) mod 2 ^ 32 + b) by ring.
  rewrite Zplus_mod_idemp_l. f_equal. ring.
Qed.

Lemma counters_le_refl (c : NDIToOMTConverter) : counters_le c c.
Proof. unfold counters_le. repeat split; lia. Qed.

Lemma counters_le_trans (a b c : NDIToOMTConverter) :
  counters_le a b -> counters_le b c -> counters_le a c.
Proof. unfold counters_le. intros H1 H2. repeat split; lia. Qed.

Lemma same_counters_le (c c' : NDIToOMTConverter) :
  same_counters c c' -> counters_le c c'.
Proof. unfold same_counters, counters_le. intro H. repeat split; lia. Qed.

Lemma same_counters_consistent (n b : Z) (c c' : NDIToOMTConverter) :
  same_counters c c' -> consistent n b c -> consistent n b c'.
Proof.
  unfold same_counters, consistent.
  intros (-> & -> & -> & -> & -> & -> & ->) H. exact H.
Qed.

Lemma data_size_in_bytes_nonneg (f : NDIlib_video_frame_v2_t) :
  0 <= data_size_in_bytes f.
Proof. unfold data_size_in_bytes. destruct (p_data f); lia. Qed.

(** The bytes behind the header are no more than the payload. *)
Lemma h264_size_le_data_size (sdk : SDK) (f : NDIlib_video_frame_v2_t)
  (packet : NDIlib_compressed_packet_t) (h264_data : list Z) :
  compressed_packet sdk f = inr (packet, h264_data) ->
  Z.of_nat (length h264_data) <= data_size_in_bytes f.
Proof.
  intro H. apply compressed_packet_accepts in H
    as (bytes & Hp & _ & _ & _ & _ & _ & ->).
  unfold data_size_in_bytes. rewrite Hp, length_skipn. lia.
Qed.

Lemma video_frames_of_range (i : capture) : 0 <= video_frames_of i <= 1.
Proof. unfold video_frames_of. destruct (captured i); lia. Qed.

Lemma video_bytes_of_nonneg (i : capture) : 0 <= video_bytes_of i.
Proof.
  unfold video_bytes_of.
  destruct (captured i); try lia. apply data_size_in_bytes_nonneg.
Qed.

Lemma video_frames_nonneg (inputs : list capture) : 0 <= video_frames inputs.
Proof.
  induction inputs as [|i rest IH]; [cbn; lia|].
  change (video_frames (i :: rest)) with (video_frames_of i + video_frames rest).
  pose proof (video_frames_of_range i). lia.
Qed.

Lemma video_bytes_nonneg (inputs : list capture) : 0 <= video_bytes inputs.
Proof.
  induction inputs as [|i rest IH]; [cbn; lia|].
  change (video_bytes (i :: rest)) with (video_bytes_of i + video_bytes rest).
  pose proof (video_bytes_of_nonneg i). lia.
Qed.

(** One [switch] keeps the counters consistent and lets none decrease,
    as long as no counter reaches the largest [int]. *)
Lemma dispatch_consistent (sdk : SDK) (i : capture) (c : NDIToOMTConverter)
  (fr : OMTMediaFrame) (n b : Z) :
  consistent n b c ->
  n + video_frames_of i <= Int32.max_int ->
  b + video_bytes_of i <= Int32.max_int ->
  consistent (n + video_frames_of i) (b + video_bytes_of i)
    (fst (fst (dispatch sdk i c fr)))
  /\ counters_le c (fst (fst (dispatch sdk i c fr))).
Proof.
  intros C Hn Hb.
  pose proof (dispatch_converter sdk i c fr) as D. cbv zeta in D.
  pose proof (video_frames_of_range i) as Vf.
  pose proof (video_bytes_of_nonneg i) as Vb.
  unfold video_frames_of, video_bytes_of in *.
  destruct (captured i) as [f| | | | |];
    try (rewrite D; split; [|apply counters_le_refl];
         unfold consistent in *; intuition lia).
  pose proof (received_effect f c) as R. cbv zeta in R.
  destruct R as (Rr & Rs & Rd & Rbr & Rbs & Rk & Rp & _).
  unfold consistent in C.
  destruct C as (C1 & C2 & C3 & C4 & C5 & C6 & C7 & C8 & C9).
  rewrite incr_small in Rr by lia.
  destruct (compressed_packet sdk f) as [r|[packet h264_data]] eqn:E.
  - rewrite D. unfold consistent, counters_le.
    rewrite Rr, Rs, Rd, Rbr, Rbs, Rk, Rp. repeat split; lia.
  - pose proof (h264_size_le_data_size sdk f packet h264_data E) as Hsize.
    pose proof (send_compressed_to_omt_effect sdk h264_data
                  (packet_is_keyframe sdk packet) (send_result i) (conn_count i)
                  (received f c) fr) as S.
    destruct (send_compressed_to_omt _ _ _ _ _ _ _) as [[[ok c'] fr'] calls].
    cbn [fst snd] in D. rewrite D.
    destruct S as (_ & _ & _ & Sr & Sk & Sp & Ss & Sbs & Sbr & Sd & _).
    rewrite Rk in Sk. rewrite Rp in Sp. rewrite Rs in Ss.
    rewrite Rbs in Sbs. rewrite Rbr in Sbr. rewrite Rd in Sd. rewrite Rr in Sr.
    rewrite (incr_small (keyframes_sent c)) in Sk by lia.
    rewrite (incr_small (pframes_sent c)) in Sp by lia.
    rewrite (incr_small (frames_sent c)) in Ss by lia.
    rewrite (incr_small (frames_dropped c)) in Sd by lia.
    rewrite (add_small (bytes_sent c)) in Sbs by lia.
    rewrite (add_small (bytes_received c)) in Sbr by lia.
    unfold consistent, counters_le.
    rewrite Sr, Sk, Sp, Ss, Sbs, Sbr, Sd.
    destruct (packet_is_keyframe sdk packet), (0 <=? send_result i);
      repeat split; lia.
Qed.

Lemma iteration_consistent (sdk : SDK) (i : capture) (s : run_state) (n b : Z) :
  consistent n b (converter s) ->
  n + video_frames_of i <= Int32.max_int ->
  b + video_bytes_of i <= Int32.max_int ->
  consistent (n + video_frames_of i) (b + video_bytes_of i)
    (converter (fst (iteration sdk i s)))
  /\ counters_le (converter s) (converter (fst (iteration sdk i s))).
Proof.
  intros C Hn Hb.
  destruct (dispatch_consistent sdk i (converter s) (omt_frame s) n b C Hn Hb)
    as [C1 L1].
  destruct (iteration_converter sdk i s) as [Hsame _].
  split.
  - exact (same_counters_consistent _ _ _ _ Hsame C1).
  - exact (counters_le_trans _ _ _ L1 (same_counters_le _ _ Hsame)).
Qed.

Lemma run_from_consistent (sdk : SDK) (inputs : list capture) :
  forall (s : run_state) (n b : Z),
    consistent n b (converter s) ->
    n + video_frames inputs <= Int32.max_int ->
    b + video_bytes inputs <= Int32.max_int ->
    consistent (n + video_frames inputs) (b + video_bytes inputs)
      (converter (fst (run_from sdk s inputs)))
    /\ counters_le (converter s) (converter (fst (run_from sdk s inputs))).
Proof.
  induction inputs as [|i rest IH]; intros s n b C Hn Hb.
  - cbn. rewrite !Z.add_0_r. split; [exact C|apply counters_le_refl].
  - rewrite run_from_cons.
    pose proof (video_frames_nonneg rest) as Nf.
    pose proof (video_bytes_nonneg rest) as Nb.
    change (video_frames (i :: rest)) with (video_frames_of i + video_frames rest) in *.
    change (video_bytes (i :: rest)) with (video_bytes_of i + video_bytes rest) in *.
    destruct (iteration_consistent sdk i s n b C) as [C1 L1]; [lia|lia|].
    destruct (IH (fst (iteration sdk i s)) _ _ C1) as [C2 L2]; [lia|lia|].
    rewrite !Z.add_assoc. split; [exact C2|].
    exact (counters_le_trans _ _ _ L1 L2).
Qed.

Lemma new_converter_consistent (t : Z) : consistent 0 0 (new_converter t).
Proof. unfold consistent. cbn. repeat split; lia. Qed.

Lemma video_frames_app (a b : list capture) :
  video_frames (a ++ b) = video_frames a + video_frames b.
Proof.
  induction a as [|i a IH]; [reflexivity|]. cbn [app].
  change (video_frames (i :: a ++ b)) with (video_frames_of i + video_frames (a ++ b)).
  change (video_frames (i :: a)) with (video_frames_of i + video_frames a).
  lia.
Qed.

Lemma video_bytes_app (a b : list capture) :
  video_bytes (a ++ b) = video_bytes a + video_bytes b.
Proof.
  induction a as [|i a IH]; [reflexivity|]. cbn [app].
  change (video_bytes (i :: a ++ b)) with (video_bytes_of i + video_bytes (a ++ b)).
  change (video_bytes (i :: a)) with (video_bytes_of i + video_bytes a).
  lia.
Qed.

Lemma ratio_in_unit_interval (s r : Z) :
  0 <= s <= r -> 0 < r -> (0 <= inject_Z s / inject_Z r <= 1)%Q.
Proof.
  intros Hs Hr. destruct r as [|p|p]; try lia.
  unfold Qle, Qdiv, Qmult, Qinv, inject_Z. cbn. nia.
Qed.

(** X12. What holds of the counters below the wrap. In a run that captures at
    most 2^31 - 1 video frames with at most 2^31 - 1 bytes of payload in
    all, no counter is ever smaller after more iterations than it was
    before (none is reset), and at every point 0 <= sent <= received, so
    that the success rate sent/received lies between 0 and 1 when a frame
    was received. *)
Lemma counters_grow_until_they_wrap (sdk : SDK) (t0 t1 : Z)
  (before after : list capture) :
  video_frames (before ++ after) <= Int32.max_int ->
  video_bytes (before ++ after) <= Int32.max_int ->
  let c := converter (fst (run sdk t0 t1 before)) in
  let c' := converter (fst (run sdk t0 t1 (before ++ after))) in
  counters_le c c'
  /\ counters_le (new_converter t0) c
  /\ 0 <= frames_sent c' <= frames_received c'
  /\ (0 < frames_received c' ->
      (0 <= inject_Z (frames_sent c') / inject_Z (frames_received c') <= 1)%Q).
Proof.
  intros Hn Hb. cbv zeta. unfold run.
  rewrite video_frames_app in Hn. rewrite video_bytes_app in Hb.
  pose proof (video_frames_nonneg before). pose proof (video_frames_nonneg after).
  pose proof (video_bytes_nonneg before). pose proof (video_bytes_nonneg after).
  rewrite run_from_app. cbn [fst].
  destruct (run_from_consistent sdk before (run_start sdk (new_converter t0) t1) 0 0
              (new_converter_consistent t0)) as [C1 L1]; [lia|lia|].
  destruct (run_from_consistent sdk after _ _ _ C1) as [C2 L2]; [lia|lia|].
  split; [exact L2|]. split; [exact L1|].
  assert (Hs : 0 <= frames_sent
                 (converter (fst (run_from sdk
                    (fst (run_from sdk (run_start sdk (new_converter t0) t1) before))
                    after)))
               <= frames_received
                 (converter (fst (run_from sdk
                    (fst (run_from sdk (run_start sdk (new_converter t0) t1) before))
                    after)))).
  { unfold consistent in C2. lia. }
  split; [exact Hs|].
  intro Hr. now apply ratio_in_unit_interval.
Qed.

Example counters_grow_in_twenty_frames :
  let c := converter (fst (run sdk44 0 0 (firstn 9 twenty_frames))) in
  let c' := converter (fst (run sdk44 0 0 twenty_frames)) in
  counters_le c c' /\ 0 <= frames_sent c' <= frames_received c'.
Proof.
  assert (Hn : video_frames (firstn 9 twenty_frames ++ skipn 9 twenty_frames)
               <= Int32.max_int) by (vm_compute; discriminate).
  assert (Hb : video_bytes (firstn 9 twenty_frames ++ skipn 9 twenty_frames)
               <= Int32.max_int) by (vm_compute; discriminate).
  pose proof (counters_grow_until_they_wrap sdk44 0 0 (firstn 9 twenty_frames)
                (skipn 9 twenty_frames) Hn Hb) as H.
  rewrite (firstn_skipn 9 twenty_frames) in H.
  cbv zeta in *. destruct H as (H1 & _ & H2 & _). split; assumption.
Defined.

(** ** A run that makes the byte counters wrap *)

Lemma wrap32_in_range (z : Z) : Int32.in_range (Int32.wrap32 z).
Proof.
  unfold Int32.in_range, Int32.wrap32. rewrite max_int_value, min_int_value.
  change (2 ^ 31) with 2147483648. change (2 ^ 32) with 4294967296.
  pose proof (Z.mod_pos_bound (z + 2147483648) 4294967296). lia.
Qed.

(** One more frame of 1000 bytes, sent while the clock stands still. *)
Lemma kilobyte_frame_iteration (s : run_state) :
  last_connection_check s = 0 ->
  last_connection_check (fst (iteration sdk44 kilobyte_frame s)) = 0
  /\ bytes_sent (converter (fst (iteration sdk44 kilobyte_frame s)))
     = Int32.add (bytes_sent (converter s)) 1000.
Proof.
  intro Hl.
  destruct (iteration_converter sdk44 kilobyte_frame s) as [Hsame _].
  destruct Hsame as (_ & _ & _ & _ & Hbs & _).
  split.
  - unfold iteration.
    destruct (dispatch sdk44 kilobyte_frame (converter s) (omt_frame s)) as [[c f] calls].
    rewrite Hl. reflexivity.
  - rewrite Hbs.
    pose proof (dispatch_converter sdk44 kilobyte_frame (converter s) (omt_frame s)) as D.
    cbv zeta in D.
    change (captured kilobyte_frame) with
      (NDIlib_frame_type_video
         (video 1920 1080 875967048 (header44 h264_code 1 ++ idr_unit ++ repeat 0 992)))
      in D.
    cbv beta iota in D.
    assert (E : compressed_packet sdk44
                  (video 1920 1080 875967048
                     (header44 h264_code 1 ++ idr_unit ++ repeat 0 992))
                = inr ({| version := 44; fourCC := 875967048; flags := 1 |},
                       idr_unit ++ repeat 0 992))
      by (vm_compute; reflexivity).
    rewrite E in D. rewrite D.
    pose proof (send_compressed_to_omt_effect sdk44 (idr_unit ++ repeat 0 992)
                  (packet_is_keyframe sdk44
                     {| version := 44; fourCC := 875967048; flags := 1 |})
                  (send_result kilobyte_frame) (conn_count kilobyte_frame)
                  (received (video 1920 1080 875967048
                               (header44 h264_code 1 ++ idr_unit ++ repeat 0 992))
                            (converter s))
                  (omt_frame s)) as S.
    destruct (send_compressed_to_omt _ _ _ _ _ _ _) as [[[ok c'] fr'] calls].
    destruct S as (_ & _ & _ & _ & _ & _ & _ & Sbs & _).
    cbn [fst snd]. rewrite Sbs.
    pose proof (received_effect
                  (video 1920 1080 875967048
                     (header44 h264_code 1 ++ idr_unit ++ repeat 0 992))
                  (converter s)) as R.
    cbv zeta in R. destruct R as (_ & _ & _ & _ & -> & _).
    reflexivity.
Qed.

Lemma kilobyte_frames_run (n : nat) :
  forall s,
    last_connection_check s = 0 ->
    Int32.in_range (bytes_sent (converter s)) ->
    bytes_sent (converter (fst (run_from sdk44 s (repeat kilobyte_frame n))))
    = Int32.wrap32 (bytes_sent (converter s) + 1000 * Z.of_nat n).
Proof.
  induction n as [|n IH]; intros s Hl Hr.
  - cbn [repeat run_from fst]. rewrite Z.add_0_r. symmetry. now apply wrap32_small.
  - cbn [repeat]. rewrite run_from_cons.
    destruct (kilobyte_frame_iteration s Hl) as [Hl1 Hb1].
    rewrite IH; [|exact Hl1|rewrite Hb1; apply wrap32_in_range].
    rewrite Hb1. unfold Int32.add. rewrite wrap32_add_l. f_equal. lia.
Qed.

(** C7 (the program departs from the claim). The counters are 32-bit
    and wrap: in the run that forwards 2 147 483 frames of 1000 bytes the
    byte counters stand at 2 147 483 000, and one more such frame takes
    them to -2 147 483 296, so a counter is smaller after an iteration
    than before it. *)
Theorem byte_counters_wrap_in_a_long_run :
  bytes_sent (converter (fst (run sdk44 0 0 many_kilobyte_frames))) = 2147483000
  /\ bytes_sent (converter (fst (run sdk44 0 0 (many_kilobyte_frames ++ [kilobyte_frame]))))
     = -2147483296
  /\ ~ counters_never_decrease sdk44 0 0 many_kilobyte_frames kilobyte_frame.
Proof.
  assert (H0 : Int32.in_range (bytes_sent (converter (run_start sdk44 (new_converter 0) 0))))
    by (unfold Int32.in_range; rewrite max_int_value, min_int_value; cbn; lia).
  assert (Hbefore : bytes_sent (converter (fst (run sdk44 0 0 many_kilobyte_frames)))
                    = 2147483000).
  { unfold run, many_kilobyte_frames.
    rewrite kilobyte_frames_run by (reflexivity || exact H0).
    rewrite Z2Nat.id by lia. reflexivity. }
  assert (Hafter : bytes_sent (converter (fst (run sdk44 0 0
                      (many_kilobyte_frames ++ [kilobyte_frame]))))
                   = -2147483296).
  { change [kilobyte_frame] with (repeat kilobyte_frame 1).
    unfold run, many_kilobyte_frames. rewrite <- repeat_app.
    rewrite kilobyte_frames_run by (reflexivity || exact H0).
    rewrite Nat2Z.inj_add, Z2Nat.id by lia. reflexivity. }
  split; [exact Hbefore|]. split; [exact Hafter|].
  unfold counters_never_decrease, counters_le.
  rewrite Hbefore, Hafter. lia.
Qed.

(** ** Single precision division of small integers *)

Lemma digits2_pos_bounds (p : positive) :
  2 ^ (Z.pos (digits2_pos p) - 1) <= Z.pos p < 2 ^ Z.pos (digits2_pos p).
Proof.
  induction p as [p IH|p IH|]; cbn [digits2_pos].
  - rewrite Pos2Z.inj_succ.
    replace (Z.succ (Z.pos (digits2_pos p)) - 1) with (Z.succ (Z.pos (digits2_pos p) - 1)) by lia.
    rewrite !Z.pow_succ_r by lia. lia.
  - rewrite Pos2Z.inj_succ.
    replace (Z.succ (Z.pos (digits2_pos p)) - 1) with (Z.succ (Z.pos (digits2_pos p) - 1)) by lia.
    rewrite !Z.pow_succ_r by lia. lia.
  - cbn. lia.
Qed.

(** The number of binary digits of a number between two powers of 2. *)
Lemma Zdigits2_between (q k : Z) :
  0 < k -> 2 ^ (k - 1) <= q < 2 ^ k -> Zdigits2 q = k.
Proof.
  intros Hk Hq.
  assert (Hpos : 0 < q) by (pose proof (Z.pow_pos_nonneg 2 (k - 1)); lia).
  destruct q as [|p|p]; try lia. cbn [Zdigits2].
  pose proof (digits2_pos_bounds p) as B.
  destruct (Z.lt_trichotomy (Z.pos (digits2_pos p)) k) as [H|[H|H]]; [|exact H|].
  - pose proof (Z.pow_le_mono_r 2 (Z.pos (digits2_pos p)) (k - 1)). lia.
  - pose proof (Z.pow_le_mono_r 2 k (Z.pos (digits2_pos p) - 1)). lia.
Qed.

Lemma iter_xO_pow (n m : positive) :
  Z.pos (Pos.iter xO m n) = Z.pos m * 2 ^ Z.pos n.
Proof.
  induction n as [|n IH] using Pos.peano_ind.
  - cbn. lia.
  - rewrite Pos.iter_succ, Pos2Z.inj_succ, Z.pow_succ_r by lia.
    rewrite Pos2Z.inj_xO, IH. ring.
Qed.

Lemma loc_of_shr_record_of_loc (m : Z) (l : location) :
  loc_of_shr_record (shr_record_of_loc m l) = l
  /\ shr_m (shr_record_of_loc m l) = m.
Proof. destruct l as [|[| |]]; split; reflexivity. Qed.

(** A mantissa of [prec] digits with an exact location is kept as it is. *)
Lemma binary_round_aux_exact (prec emax : Z) (q : positive) (e : Z) :
  Zdigits2 (Z.pos q) = prec ->
  3 - emax - prec <= e <= emax - prec ->
  binary_round_aux prec emax false (Z.pos q) e loc_Exact = S754_finite false q e.
Proof.
  intros Hd He. unfold binary_round_aux, shr_fexp.
  rewrite Hd.
  replace (fexp prec emax (prec + e) - e) with 0
    by (unfold fexp, emin; lia).
  cbn [shr shr_record_of_loc shr_m loc_of_shr_record round_nearest_even].
  rewrite Hd.
  replace (fexp prec emax (prec + e) - e) with 0
    by (unfold fexp, emin; lia).
  cbn [shr shr_record_of_loc shr_m].
  replace (e <=? emax - prec) with true by (symmetry; apply Z.leb_le; lia).
  reflexivity.
Qed.

(** [(float)z] for 0 < z < 2^24 is z itself, with a mantissa of 24 bits. *)
Lemma of_int_small (z : Z) :
  0 < z < 2 ^ 24 ->
  exists m a,
    Float.of_int z = S754_finite false m (- a)
    /\ 0 <= a <= 23
    /\ Z.pos m = z * 2 ^ a
    /\ 2 ^ 23 <= Z.pos m < 2 ^ 24.
Proof.
  intro Hz. destruct z as [|p|p]; try lia.
  unfold Float.of_int, binary_normalize, binary_round.
  pose proof (digits2_pos_bounds p) as B.
  set (k := Z.pos (digits2_pos p)) in *.
  assert (Hk : 1 <= k <= 24).
  { split; [unfold k; lia|].
    destruct (Z_le_gt_dec k 24) as [H|H]; [exact H|].
    pose proof (Z.pow_le_mono_r 2 24 (k - 1)). lia. }
  assert (Hf : fexp Float.prec32 Float.emax32 (k + 0) = k - 24)
    by (unfold fexp, emin, Float.prec32, Float.emax32; lia).
  rewrite Hf. unfold shl_align.
  destruct (k - 24 - 0) as [|s|s] eqn:Es; try lia.
  - assert (Hk24 : k = 24) by lia.
    assert (Hb : 2 ^ 23 <= Z.pos p < 2 ^ 24).
    { replace 23 with (k - 1) by lia. replace 24 with k by lia. exact B. }
    exists p, 0. rewrite binary_round_aux_exact.
    + replace (2 ^ 0) with 1 by reflexivity.
      repeat split; lia.
    + apply (Zdigits2_between _ 24); lia.
    + unfold Float.prec32, Float.emax32. lia.
  - assert (Hs : Z.pos s = 24 - k) by lia.
    assert (Hm : Z.pos (Pos.iter xO p s) = Z.pos p * 2 ^ (24 - k))
      by (rewrite iter_xO_pow, Hs; reflexivity).
    assert (Hb : 2 ^ 23 <= Z.pos p * 2 ^ (24 - k) < 2 ^ 24).
    { replace (2 ^ 23) with (2 ^ (k - 1) * 2 ^ (24 - k))
        by (rewrite <- Z.pow_add_r by lia; f_equal; lia).
      replace (2 ^ 24) with (2 ^ k * 2 ^ (24 - k))
        by (rewrite <- Z.pow_add_r by lia; f_equal; lia).
      pose proof (Z.pow_pos_nonneg 2 (24 - k)). nia. }
    exists (Pos.iter xO p s), (24 - k).
    rewrite binary_round_aux_exact.
    + replace (- (24 - k)) with (k - 24) by lia.
      repeat split; lia.
    + apply (Zdigits2_between _ 24); lia.
    + unfold Float.prec32, Float.emax32. lia.
Qed.

(** The second half of [binary_round_aux]: a rounded mantissa of 24 bits
    is kept, and 2^24 is renormalised to 2^23 with the next exponent. *)
Lemma renormalise_24 (m e : Z) :
  2 ^ 23 <= m <= 2 ^ 24 -> -149 <= e <= 103 ->
  (let '(mrs, e') := shr_fexp Float.prec32 Float.emax32 m e loc_Exact in
   match shr_m mrs with
   | 0 => S754_zero false
   | Z.pos m' =>
       if e' <=? Float.emax32 - Float.prec32
       then S754_finite false m' e' else S754_infinity false
   | Z.neg _ => S754_nan
   end)
  = if m <? 2 ^ 24 then S754_finite false (Z.to_pos m) e
    else S754_finite false 8388608 (e + 1).
Proof.
  intros Hm He. unfold shr_fexp.
  destruct (Z.ltb_spec m (2 ^ 24)) as [Hlt|Hge].
  - rewrite (Zdigits2_between m 24) by lia.
    replace (fexp Float.prec32 Float.emax32 (24 + e) - e) with 0
      by (unfold fexp, emin, Float.prec32, Float.emax32; lia).
    cbn [shr shr_record_of_loc shr_m].
    destruct m as [|p|p]; try lia.
    replace (e <=? Float.emax32 - Float.prec32) with true
      by (symmetry; apply Z.leb_le; unfold Float.prec32, Float.emax32; lia).
    reflexivity.
  - assert (m = 16777216) as -> by (change (2 ^ 24) with 16777216 in *; lia).
    change (Zdigits2 16777216) with 25.
    replace (fexp Float.prec32 Float.emax32 (25 + e) - e) with 1
      by (unfold fexp, emin, Float.prec32, Float.emax32; lia).
    cbn.
    replace (e + 1 <=? 104) with true by (symmetry; apply Z.leb_le; lia).
    reflexivity.
Qed.

Lemma round_nearest_even_range (q : Z) (l : location) :
  q <= round_nearest_even q l <= q + 1.
Proof.
  destruct l as [|[| |]]; cbn [round_nearest_even]; try lia.
  destruct (Z.even q); lia.
Qed.

(** Rounding a quotient of 24 bits. *)
Lemma binary_round_aux_24 (q e : Z) (l : location) :
  2 ^ 23 <= q < 2 ^ 24 -> -149 <= e <= 103 ->
  binary_round_aux Float.prec32 Float.emax32 false q e l
  = if round_nearest_even q l <? 2 ^ 24
    then S754_finite false (Z.to_pos (round_nearest_even q l)) e
    else S754_finite false 8388608 (e + 1).
Proof.
  intros Hq He. unfold binary_round_aux. unfold shr_fexp at 1.
  rewrite (Zdigits2_between q 24) by lia.
  replace (fexp Float.prec32 Float.emax32 (24 + e) - e) with 0
    by (unfold fexp, emin, Float.prec32, Float.emax32; lia).
  cbn [shr].
  destruct (loc_of_shr_record_of_loc q l) as [-> ->].
  pose proof (round_nearest_even_range q l).
  apply renormalise_24; lia.
Qed.

(** One step to the right drops the last bit into the location. *)
Lemma shr_1_of_loc (q : Z) (l : location) :
  0 < q ->
  shr_m (shr_1 (shr_record_of_loc q l)) = Z.div2 q
  /\ loc_of_shr_record (shr_1 (shr_record_of_loc q l))
     = match Z.odd q, l with
       | false, loc_Exact => loc_Exact
       | false, _ => loc_Inexact Lt
       | true, loc_Exact => loc_Inexact Eq
       | true, _ => loc_Inexact Gt
       end.
Proof.
  intro Hq. destruct q as [|p|p]; try lia.
  destruct p as [p|p|]; destruct l as [|[| |]]; split; reflexivity.
Qed.

(** Rounding a quotient of 25 bits. *)
Lemma binary_round_aux_25 (q e : Z) (l : location) :
  2 ^ 24 <= q < 2 ^ 25 -> -149 <= e <= 102 ->
  let l' := loc_of_shr_record (shr_1 (shr_record_of_loc q l)) in
  binary_round_aux Float.prec32 Float.emax32 false q e l
  = if round_nearest_even (Z.div2 q) l' <? 2 ^ 24
    then S754_finite false (Z.to_pos (round_nearest_even (Z.div2 q) l')) (e + 1)
    else S754_finite false 8388608 (e + 2).
Proof.
  intros Hq He l'. unfold binary_round_aux. unfold shr_fexp at 1.
  rewrite (Zdigits2_between q 25) by lia.
  replace (fexp Float.prec32 Float.emax32 (25 + e) - e) with 1
    by (unfold fexp, emin, Float.prec32, Float.emax32; lia).
  cbn [shr iter_pos].
  assert (Hpos : 0 < q) by (change (2 ^ 24) with 16777216 in *; lia).
  destruct (shr_1_of_loc q l Hpos) as [Hm Hl].
  fold l'. rewrite Hm.
  pose proof (round_nearest_even_range (Z.div2 q) l').
  assert (Hd : 2 ^ 23 <= Z.div2 q < 2 ^ 24).
  { rewrite Z.div2_div. change (2 ^ 23) with 8388608 in *.
    change (2 ^ 24) with 16777216 in *. change (2 ^ 25) with 33554432 in *.
    split; [apply Z.div_le_lower_bound|apply Z.div_lt_upper_bound]; lia. }
  replace (e + 2) with (e + 1 + 1) by lia.
  apply renormalise_24; lia.
Qed.

(** The division of two positive [float]s with mantissas of 24 bits. *)
Lemma div_normal (m1 m2 : positive) (e1 e2 : Z) :
  2 ^ 23 <= Z.pos m1 < 2 ^ 24 -> 2 ^ 23 <= Z.pos m2 < 2 ^ 24 ->
  -23 <= e1 <= 0 -> -23 <= e2 <= 0 ->
  Float.div (S754_finite false m1 e1) (S754_finite false m2 e2)
  = binary_round_aux Float.prec32 Float.emax32 false
      (Z.pos m1 * 2 ^ 24 / Z.pos m2) (e1 - e2 - 24)
      (new_location (Z.pos m2) ((Z.pos m1 * 2 ^ 24) mod Z.pos m2)).
Proof.
  intros H1 H2 He1 He2. unfold Float.div, SFdiv, SFdiv_core_binary.
  rewrite (Zdigits2_between (Z.pos m1) 24), (Zdigits2_between (Z.pos m2) 24) by lia.
  replace (Z.min (fexp Float.prec32 Float.emax32 (24 + e1 - (24 + e2))) (e1 - e2))
    with (e1 - e2 - 24)
    by (unfold fexp, emin, Float.prec32, Float.emax32; lia).
  replace (e1 - e2 - (e1 - e2 - 24)) with 24 by lia.
  rewrite Z.shiftl_mul_pow2 by lia.
  unfold Z.div, Z.modulo.
  destruct (Z.div_eucl (Z.pos m1 * 2 ^ 24) (Z.pos m2)) as [q r].
  reflexivity.
Qed.

(** The promotion to [double] and the comparison with 0.1, on a [float]
    with a mantissa of 24 bits. *)
Lemma to_double_gt_tenth (m : positive) (e : Z) :
  2 ^ 23 <= Z.pos m < 2 ^ 24 -> -149 <= e <= 104 ->
  Float.gt (Float.to_double (S754_finite false m e)) Float.double_0_1
  = (-27 <? e) || ((e =? -27) && (13421773 <=? Z.pos m)).
Proof.
  intros Hm He. unfold Float.to_double, binary_round.
  assert (Hd : Z.pos (digits2_pos m) = 24)
    by (apply (Zdigits2_between (Z.pos m) 24); lia).
  rewrite Hd.
  replace (fexp Float.prec64 Float.emax64 (24 + e)) with (e - 29)
    by (unfold fexp, emin, Float.prec64, Float.emax64; lia).
  unfold shl_align. replace (e - 29 - e) with (-29) by lia.
  assert (HM : Z.pos (Pos.iter xO m 29) = Z.pos m * 536870912)
    by (rewrite iter_xO_pow; reflexivity).
  rewrite binary_round_aux_exact.
  2:{ apply (Zdigits2_between _ 53); [reflexivity|]. rewrite HM.
      change (2 ^ 23) with 8388608 in Hm. change (2 ^ 24) with 16777216 in Hm.
      change (2 ^ (53 - 1)) with 4503599627370496.
      change (2 ^ 53) with 9007199254740992. lia. }
  2:{ unfold Float.prec64, Float.emax64. lia. }
  unfold Float.gt, SFltb, SFcompare, Float.double_0_1.
  set (M := Pos.iter xO m 29) in *.
  clearbody M.
  change (2 ^ 23) with 8388608 in Hm. change (2 ^ 24) with 16777216 in Hm.
  assert (F1 : 13421773 <= Z.pos m -> 7205759511166976 <= Z.pos M)
    by (clear - HM; intro; rewrite HM; lia).
  assert (F2 : Z.pos m < 13421773 -> Z.pos M <= 7205758974296064)
    by (clear - HM; intro; rewrite HM; lia).
  clear HM Hm Hd.
  destruct (Z.compare_spec (-56) (e - 29)) as [E|E|E].
  - assert (e = -27) as -> by lia. cbn [Z.ltb Z.compare Z.eqb Pos.eqb orb andb].
    fold (Pos.compare 7205759403792794 M).
    clear He E.
    destruct (Z.leb_spec 13421773 (Z.pos m)) as [L|L];
      [specialize (F1 L); clear F2 L|specialize (F2 L); clear F1 L];
      destruct (Pos.compare_spec 7205759403792794 M) as [C|C|C];
      first [reflexivity
            |exfalso; first [subst M|apply Pos2Z.pos_lt_pos in C]; lia].
  - replace (-27 <? e) with true by (symmetry; apply Z.ltb_lt; lia). reflexivity.
  - replace (-27 <? e) with false by (symmetry; apply Z.ltb_ge; lia).
    replace (e =? -27) with false by (symmetry; apply Z.eqb_neq; lia).
    reflexivity.
Qed.

(** Where the remainder of a division lies. *)
Lemma new_location_cases (D r : Z) :
  0 <= r -> 0 < D ->
  (r = 0 /\ new_location D r = loc_Exact)
  \/ (0 < r /\ 2 * r < D /\ new_location D r = loc_Inexact Lt)
  \/ (0 < r /\ 2 * r = D /\ new_location D r = loc_Inexact Eq)
  \/ (0 < r /\ D < 2 * r /\ new_location D r = loc_Inexact Gt).
Proof.
  intros Hr HD. unfold new_location, new_location_even, new_location_odd.
  destruct (Z.eqb_spec r 0) as [->|Hne].
  - left. split; [reflexivity|]. now destruct (Z.even D).
  - right.
    assert (Hb : (r =? 0) = false) by (apply Z.eqb_neq; exact Hne).
    destruct (Z.even D) eqn:Ev; cbv beta; rewrite Hb.
    + destruct (Z.compare_spec (2 * r) D) as [E|E|E].
      * right. left. split; [lia|]. split; [lia|reflexivity].
      * left. split; [lia|]. split; [lia|reflexivity].
      * right. right. split; [lia|]. split; [lia|reflexivity].
    + assert (Hodd : Z.odd D = true) by (rewrite <- Z.negb_even, Ev; reflexivity).
      apply Z.odd_spec in Hodd as [k Hk].
      destruct (Z.compare_spec (2 * r + 1) D) as [E|E|E].
      * left. split; [lia|]. split; [lia|reflexivity].
      * left. split; [lia|]. split; [lia|reflexivity].
      * right. right. split; [lia|]. split; [lia|reflexivity].
Qed.

(** The rounded quotient of 24 bits reaches 13421773, the mantissa of
    0.1f, exactly when the quotient is above 13421772.5. *)
Lemma rounded_quotient_reaches_tenth (N D : Z) :
  0 <= N -> 0 < D ->
  (13421773 <=? round_nearest_even (N / D) (new_location D (N mod D)))
  = (26843545 * D <? 2 * N).
Proof.
  intros HN HD.
  pose proof (Z.div_mod N D ltac:(lia)) as Hdm.
  pose proof (Z.mod_pos_bound N D HD) as Hr.
  set (q := N / D) in *. set (r := N mod D) in *.
  assert (Hq : 0 <= q) by (apply Z.div_pos; lia).
  destruct (new_location_cases D r ltac:(lia) HD)
    as [(Hr0 & ->)|[(Hr0 & Hlt & ->)|[(Hr0 & Heq & ->)|(Hr0 & Hgt & ->)]]];
    cbn [round_nearest_even].
  - destruct (Z.leb_spec 13421773 q); destruct (Z.ltb_spec (26843545 * D) (2 * N));
      try reflexivity; exfalso; nia.
  - destruct (Z.leb_spec 13421773 q); destruct (Z.ltb_spec (26843545 * D) (2 * N));
      try reflexivity; exfalso; nia.
  - destruct (Z.even q) eqn:Ev.
    + destruct (Z.leb_spec 13421773 q); destruct (Z.ltb_spec (26843545 * D) (2 * N));
        try reflexivity; exfalso; nia.
    + assert (Hodd : Z.odd q = true) by (rewrite <- Z.negb_even, Ev; reflexivity).
      apply Z.odd_spec in Hodd as [k Hk].
      destruct (Z.leb_spec 13421773 (q + 1));
        destruct (Z.ltb_spec (26843545 * D) (2 * N));
        try reflexivity; exfalso; nia.
  - destruct (Z.leb_spec 13421773 (q + 1));
      destruct (Z.ltb_spec (26843545 * D) (2 * N));
      try reflexivity; exfalso; nia.
Qed.

(** The same for a quotient of 25 bits, which loses its last bit first:
    the rounded half reaches 13421773 exactly when the quotient is above
    26843545. *)
Lemma rounded_half_quotient_reaches_tenth (N D : Z) :
  0 <= N -> 0 < D -> 0 < N / D ->
  (13421773 <=?
     round_nearest_even (Z.div2 (N / D))
       (loc_of_shr_record
          (shr_1 (shr_record_of_loc (N / D) (new_location D (N mod D))))))
  = (26843545 * D <? N).
Proof.
  intros HN HD Hq0.
  pose proof (Z.div_mod N D ltac:(lia)) as Hdm.
  pose proof (Z.mod_pos_bound N D HD) as Hr.
  set (q := N / D) in *. set (r := N mod D) in *.
  destruct (shr_1_of_loc q (new_location D r) Hq0) as [_ ->].
  pose proof (Z.div2_odd q) as Hq2.
  set (h := Z.div2 q) in *.
  destruct (new_location_cases D r ltac:(lia) HD)
    as [(Hr0 & ->)|[(Hr0 & Hlt & ->)|[(Hr0 & Heq & ->)|(Hr0 & Hgt & ->)]]];
    destruct (Z.odd q); cbn [Z.b2z] in Hq2; cbn [round_nearest_even];
    try (destruct (Z.leb_spec 13421773 h);
         destruct (Z.ltb_spec (26843545 * D) N);
         try reflexivity; exfalso; nia);
    try (destruct (Z.leb_spec 13421773 (h + 1));
         destruct (Z.ltb_spec (26843545 * D) N);
         try reflexivity; exfalso; nia);
    destruct (Z.even h) eqn:Ev;
    try (destruct (Z.leb_spec 13421773 h);
         destruct (Z.ltb_spec (26843545 * D) N);
         try reflexivity; exfalso; nia);
    assert (Hodd : Z.odd h = true) by (rewrite <- Z.negb_even, Ev; reflexivity);
    apply Z.odd_spec in Hodd as [k Hk];
    destruct (Z.leb_spec 13421773 (h + 1));
    destruct (Z.ltb_spec (26843545 * D) N);
    try reflexivity; exfalso; nia.
Qed.

(** Below 2^24 frames, 2^28 * d exceeds 26843545 * r exactly when
    r <= 10 * d. *)
Lemma tenth_threshold (d r : Z) :
  0 < d -> 0 < r < 2 ^ 24 ->
  268435456 * d > 26843545 * r <-> r <= 10 * d.
Proof. change (2 ^ 24) with 16777216. lia. Qed.

Lemma pow2_ratio_le (a b k : Z) :
  0 <= a -> 0 <= b -> 0 <= k -> a <= b + k -> 2 ^ a <= 2 ^ k * 2 ^ b.
Proof.
  intros Ha Hb Hk H. rewrite <- Z.pow_add_r by lia.
  apply Z.pow_le_mono_r; lia.
Qed.

Lemma pow2_ratio_ge (a b k : Z) :
  0 <= a -> 0 <= b -> 0 <= k -> b + k <= a -> 2 ^ k * 2 ^ b <= 2 ^ a.
Proof.
  intros Ha Hb Hk H. rewrite <- Z.pow_add_r by lia.
  apply Z.pow_le_mono_r; lia.
Qed.

(** Cancelling a positive factor. *)
Lemma scaled_lt (x y B : Z) : 0 < B -> x * B < y * B -> x < y.
Proof. intros HB H. now apply Z.mul_lt_mono_pos_r in H. Qed.

Lemma scaled_le (x y B : Z) : 0 < B -> x * B <= y * B -> x <= y.
Proof. intros HB H. now apply Z.mul_le_mono_pos_r in H. Qed.

(** From [r * B < c * (d * A)] with [A <= k * B] to [r < c * k * d]. *)
Lemma ratio_below (d r A B k c : Z) :
  0 < d -> 0 < B -> 0 <= c -> A <= k * B -> r * B < c * (d * A) ->
  r < c * k * d.
Proof.
  intros Hd HB Hc HA H. apply (scaled_lt _ _ B HB).
  assert (d * A <= d * (k * B)) by (apply Z.mul_le_mono_nonneg_l; lia).
  assert (c * (d * A) <= c * (d * (k * B))) by (apply Z.mul_le_mono_nonneg_l; lia).
  replace (c * k * d * B) with (c * (d * (k * B))) by ring. lia.
Qed.

(** From [c * (d * A) < r * B] with [k * B <= A] to [c * k * d < r]. *)
Lemma ratio_above (d r A B k c : Z) :
  0 < d -> 0 < B -> 0 <= c -> k * B <= A -> c * (d * A) < r * B ->
  c * k * d < r.
Proof.
  intros Hd HB Hc HA H. apply (scaled_lt _ _ B HB).
  assert (d * (k * B) <= d * A) by (apply Z.mul_le_mono_nonneg_l; lia).
  assert (c * (d * (k * B)) <= c * (d * A)) by (apply Z.mul_le_mono_nonneg_l; lia).
  replace (c * k * d * B) with (c * (d * (k * B))) by ring. lia.
Qed.

(** From [c * (r * B) <= c' * (d * A)] with [A = k * B] to
    [c * r <= c' * k * d], and the strict form both ways. *)
Lemma ratio_le (d r A B k c c' : Z) :
  0 < B -> A = k * B -> c * (r * B) <= c' * (d * A) -> c * r <= c' * k * d.
Proof.
  intros HB -> H. apply (scaled_le _ _ B HB).
  replace (c * r * B) with (c * (r * B)) by ring.
  replace (c' * k * d * B) with (c' * (d * (k * B))) by ring. exact H.
Qed.

Lemma ratio_lt_iff (d r A B k c c' : Z) :
  0 < B -> A = k * B -> c * (r * B) < c' * (d * A) <-> c * r < c' * k * d.
Proof.
  intros HB ->.
  replace (c * (r * B)) with (c * r * B) by ring.
  replace (c' * (d * (k * B))) with (c' * k * d * B) by ring.
  split; [apply scaled_lt; exact HB|].
  intro H. apply Z.mul_lt_mono_pos_r; assumption.
Qed.

Ltac split_bools :=
  repeat match goal with
         | |- context [?x <? ?y] => destruct (Z.ltb_spec x y)
         | |- context [?x <=? ?y] => destruct (Z.leb_spec x y)
         | |- context [?x =? ?y] => destruct (Z.eqb_spec x y)
         end;
  cbn [orb andb]; try reflexivity; exfalso.

(** The drop rate test on two positive integers below 2^24, through their
    [float] images [m1 * 2^-a] and [m2 * 2^-b]. *)
Lemma drop_rate_test_normal (d r a b : Z) (m1 m2 : positive) :
  0 < d -> 0 < r < 2 ^ 24 -> 0 <= a <= 23 -> 0 <= b <= 23 ->
  Z.pos m1 = d * 2 ^ a -> Z.pos m2 = r * 2 ^ b ->
  2 ^ 23 <= Z.pos m1 < 2 ^ 24 -> 2 ^ 23 <= Z.pos m2 < 2 ^ 24 ->
  Float.gt (Float.to_double
              (Float.div (S754_finite false m1 (- a)) (S754_finite false m2 (- b))))
           Float.double_0_1
  = (r <=? 10 * d).
Proof.
  intros Hd Hr Ha Hb E1 E2 B1 B2.
  rewrite div_normal by lia.
  pose proof (tenth_threshold d r Hd Hr) as T.
  pose proof (Z.pow_pos_nonneg 2 a ltac:(lia) ltac:(lia)) as PA.
  pose proof (Z.pow_pos_nonneg 2 b ltac:(lia) ltac:(lia)) as PB.
  (* how 2^a compares with 2^b *)
  assert (Hab : (a <= b + 2 /\ 2 ^ a <= 4 * 2 ^ b)
                \/ (a = b + 3 /\ 2 ^ a = 8 * 2 ^ b)
                \/ (a = b + 4 /\ 2 ^ a = 16 * 2 ^ b)
                \/ (b + 5 <= a /\ 32 * 2 ^ b <= 2 ^ a)).
  { destruct (Z_le_gt_dec a (b + 2)) as [H|H].
    - left. split; [exact H|]. apply (pow2_ratio_le a b 2); lia.
    - right. destruct (Z.eq_dec a (b + 3)) as [H3|H3].
      + left. split; [exact H3|]. subst a. rewrite Z.pow_add_r by lia.
        change (2 ^ 3) with 8. lia.
      + right. destruct (Z.eq_dec a (b + 4)) as [H4|H4].
        * left. split; [exact H4|]. subst a. rewrite Z.pow_add_r by lia.
          change (2 ^ 4) with 16. lia.
        * right. split; [lia|]. apply (pow2_ratio_ge a b 5); lia. }
  change (2 ^ 23) with 8388608 in *. change (2 ^ 24) with 16777216 in *.
  set (A := 2 ^ a) in *. set (B := 2 ^ b) in *.
  set (D := Z.pos m2) in *. set (N := Z.pos m1 * 16777216) in *.
  assert (HN : N = 16777216 * (d * A)) by (unfold N; rewrite E1; ring).
  assert (HD : 0 < D) by (unfold D; lia).
  (* the two mantissas are within a factor 2 of each other *)
  assert (Hlo : r * B < 2 * (d * A)) by (rewrite <- E1, <- E2; lia).
  assert (Hhi : 1 * (d * A) < 2 * (r * B)) by (rewrite <- E1, <- E2; lia).
  assert (Hfar : a <= b + 2 -> 2 ^ a <= 4 * 2 ^ b -> r < 8 * d).
  { intros _ H2. exact (ratio_below d r A B 4 2 Hd PB ltac:(lia) H2 Hlo). }
  assert (Hnear : 32 * B <= A -> 16 * d < r).
  { intro H2. pose proof (ratio_above d (2 * r) A B 32 1 Hd PB ltac:(lia) H2
                            ltac:(lia)). lia. }
  pose proof (Z.div_mod N D ltac:(lia)) as Hdm.
  pose proof (Z.mod_pos_bound N D HD) as Hrem.
  set (e := - a - - b - 24).
  destruct (Z_lt_ge_dec (Z.pos m1) D) as [Hlt|Hge].
  - (* the quotient has 24 bits *)
    assert (Hq : 8388608 <= N / D < 16777216).
    { split; [apply Z.div_le_lower_bound|apply Z.div_lt_upper_bound]; unfold N; lia. }
    assert (Hlt' : 1 * (d * A) < r * B) by (rewrite <- E1, <- E2; lia).
    rewrite binary_round_aux_24
      by (change (2 ^ 23) with 8388608; change (2 ^ 24) with 16777216; unfold e; lia).
    pose proof (round_nearest_even_range (N / D) (new_location D (N mod D))) as Hm.
    pose proof (rounded_quotient_reaches_tenth N D ltac:(unfold N; lia) HD) as Ht.
    set (m := round_nearest_even (N / D) (new_location D (N mod D))) in *.
    change (2 ^ 24) with 16777216.
    destruct (Z.ltb_spec m 16777216) as [Hm24|Hm24].
    + rewrite to_double_gt_tenth
        by (change (2 ^ 23) with 8388608; change (2 ^ 24) with 16777216;
            rewrite ?Z2Pos.id by lia; unfold e; lia).
      rewrite Z2Pos.id by lia. rewrite Ht.
      destruct Hab as [[H1 H2]|[[H1 H2]|[[H1 H2]|[H1 H2]]]].
      * pose proof (Hfar H1 H2). unfold e. split_bools; lia.
      * pose proof (ratio_above d r A B 8 1 Hd PB ltac:(lia) ltac:(lia) Hlt').
        assert (Hx : 26843545 * D < 2 * N <-> 26843545 * r < 33554432 * 8 * d).
        { rewrite HN, E2.
          replace (2 * (16777216 * (d * A))) with (33554432 * (d * A)) by ring.
          apply ratio_lt_iff; assumption. }
        unfold e. split_bools; lia.
      * pose proof (ratio_above d r A B 16 1 Hd PB ltac:(lia) ltac:(lia) Hlt').
        unfold e. split_bools; lia.
      * pose proof (Hnear H2). unfold e. split_bools; lia.
    + assert (Hm' : m = 16777216) by lia.
      assert (Hq' : N / D = 16777215) by lia.
      assert (HNq : 16777215 * D <= N) by (rewrite Hq' in Hdm; lia).
      rewrite to_double_gt_tenth
        by (change (2 ^ 23) with 8388608; change (2 ^ 24) with 16777216;
            unfold e; lia).
      destruct Hab as [[H1 H2]|[[H1 H2]|[[H1 H2]|[H1 H2]]]].
      * pose proof (Hfar H1 H2). unfold e. split_bools; lia.
      * assert (16777215 * r <= 16777216 * 8 * d).
        { apply (ratio_le d r A B 8 16777215 16777216 PB H2).
          rewrite <- E2, <- HN. exact HNq. }
        unfold e. split_bools; lia.
      * pose proof (ratio_above d r A B 16 1 Hd PB ltac:(lia) ltac:(lia) Hlt').
        unfold e. split_bools; lia.
      * pose proof (Hnear H2). unfold e. split_bools; lia.
  - (* the quotient has 25 bits *)
    assert (Hq : 16777216 <= N / D < 33554432).
    { split; [apply Z.div_le_lower_bound|apply Z.div_lt_upper_bound]; unfold N; lia. }
    assert (Hge' : 1 * (r * B) <= 1 * (d * A)) by (rewrite <- E1, <- E2; lia).
    rewrite binary_round_aux_25
      by (change (2 ^ 24) with 16777216; change (2 ^ 25) with 33554432; unfold e; lia).
    pose proof (rounded_half_quotient_reaches_tenth N D ltac:(unfold N; lia) HD
                  ltac:(lia)) as Ht.
    pose proof (round_nearest_even_range (Z.div2 (N / D))
                  (loc_of_shr_record
                     (shr_1 (shr_record_of_loc (N / D) (new_location D (N mod D))))))
      as Hm.
    set (m := round_nearest_even (Z.div2 (N / D)) _) in *.
    assert (Hh : 8388608 <= Z.div2 (N / D) < 16777216).
    { rewrite Z.div2_div.
      split; [apply Z.div_le_lower_bound|apply Z.div_lt_upper_bound]; lia. }
    change (2 ^ 24) with 16777216.
    destruct (Z.ltb_spec m 16777216) as [Hm24|Hm24].
    + rewrite to_double_gt_tenth
        by (change (2 ^ 23) with 8388608; change (2 ^ 24) with 16777216;
            rewrite ?Z2Pos.id by lia; unfold e; lia).
      rewrite Z2Pos.id by lia. rewrite Ht.
      destruct Hab as [[H1 H2]|[[H1 H2]|[[H1 H2]|[H1 H2]]]].
      * pose proof (Hfar H1 H2). unfold e. split_bools; lia.
      * pose proof (ratio_le d r A B 8 1 1 PB H2 Hge').
        unfold e. split_bools; lia.
      * assert (Hx : 26843545 * D < N <-> 26843545 * r < 16777216 * 16 * d).
        { rewrite HN, E2. apply ratio_lt_iff; assumption. }
        unfold e. split_bools; lia.
      * pose proof (Hnear H2). unfold e. split_bools; lia.
    + assert (Hm' : m = 16777216) by lia.
      assert (Hh' : Z.div2 (N / D) = 16777215) by lia.
      assert (Hq' : 33554430 <= N / D)
        by (pose proof (Z.div2_odd (N / D)); destruct (Z.odd (N / D));
            cbn [Z.b2z] in *; lia).
      assert (HNq : 33554430 * D <= N).
      { assert (D * 33554430 <= D * (N / D))
          by (apply Z.mul_le_mono_nonneg_l; lia).
        lia. }
      rewrite to_double_gt_tenth
        by (change (2 ^ 23) with 8388608; change (2 ^ 24) with 16777216;
            unfold e; lia).
      destruct Hab as [[H1 H2]|[[H1 H2]|[[H1 H2]|[H1 H2]]]].
      * pose proof (Hfar H1 H2). unfold e. split_bools; lia.
      * pose proof (ratio_le d r A B 8 1 1 PB H2 Hge').
        unfold e. split_bools; lia.
      * assert (33554430 * r <= 16777216 * 16 * d).
        { apply (ratio_le d r A B 16 33554430 16777216 PB H2).
          rewrite <- E2, <- HN. exact HNq. }
        unfold e. split_bools; lia.
      * pose proof (Hnear H2). unfold e. split_bools; lia.
Qed.

(** The drop rate test of line 544 on counters below 2^24: it holds
    exactly when received <= 10 * dropped, that is, when the ratio is at
    least one tenth. *)
Lemma drop_rate_test_below_2_24 (d r : Z) :
  0 <= d < 2 ^ 24 -> 0 < r < 2 ^ 24 ->
  drop_rate_test d r = (r <=? 10 * d).
Proof.
  intros Hd Hr. unfold drop_rate_test.
  destruct (of_int_small r Hr) as (m2 & b & -> & Hb & E2 & B2).
  destruct (Z.eq_dec d 0) as [->|Hd0].
  - change (Float.of_int 0) with (S754_zero false).
    replace (r <=? 10 * 0) with false by (symmetry; apply Z.leb_gt; lia).
    reflexivity.
  - destruct (of_int_small d ltac:(lia)) as (m1 & a & -> & Ha & E1 & B1).
    apply (drop_rate_test_normal d r a b m1 m2); try assumption; lia.
Qed.

(** ** The two warnings *)

(** The constants of the drop rate test: [(float)2 / 20] is the [float]
    next to 0.1, 0x3DCCCCCD, which lies above the [double] next to 0.1,
    0x3FB999999999999A. *)
Example float_two_twentieths :
  Float.div (Float.of_int 2) (Float.of_int 20) = S754_finite false 13421773 (-27).
Proof. reflexivity. Qed.

Example double_tenth_is_rounded_tenth :
  Float.double_0_1
  = SFdiv Float.prec64 Float.emax64
      (binary_normalize Float.prec64 Float.emax64 1 0 false)
      (binary_normalize Float.prec64 Float.emax64 10 0 false).
Proof. reflexivity. Qed.

Example float_tenth_above_double_tenth :
  Float.to_double (S754_finite false 13421773 (-27))
  = S754_finite false 7205759511166976 (-56)
  /\ Float.gt (S754_finite false 7205759511166976 (-56)) Float.double_0_1 = true.
Proof. split; reflexivity. Qed.

Lemma drop_ratio_at_least_tenth_iff (d r : Z) :
  0 < r -> drop_ratio_at_least_tenth d r <-> r <= 10 * d.
Proof.
  intro Hr. destruct r as [|p|p]; try lia.
  unfold drop_ratio_at_least_tenth, Qle, Qdiv, Qmult, Qinv, inject_Z.
  cbn [Qnum Qden]. lia.
Qed.

Lemma drop_ratio_above_tenth_iff (d r : Z) :
  0 < r -> drop_ratio_above_tenth d r <-> r < 10 * d.
Proof.
  intro Hr. destruct r as [|p|p]; try lia.
  unfold drop_ratio_above_tenth, Qlt, Qdiv, Qmult, Qinv, inject_Z.
  cbn [Qnum Qden]. lia.
Qed.

Lemma printed_blocks_In (calls : list call) (s : statistics) :
  In s (printed_blocks calls) <-> In (printed_statistics s) calls.
Proof.
  induction calls as [|k rest IH]; [reflexivity|].
  destruct k; cbn [printed_blocks In]; rewrite ?IH;
    try (split; [now right|intros [H|H]; [discriminate|exact H]]).
  split; intros [H|H]; auto; left; congruence.
Qed.

(** X13. What holds of the two warnings. [print_statistics] changes no
    counter; it leaves the converter as it is or stores the time of the
    report, whatever the two warnings say. In a printed block the warning
    "only I-frames" is raised exactly when sent > 10 and the count of
    P-frames is 0. The warning "high drop rate" is raised only when
    received > 10, and for fewer than 2^24 frames received it is raised
    exactly when received > 10 and dropped/received >= 0.1: the test
    agrees with "dropped/received > 0.1" everywhere but at 0.1 itself. *)
Lemma warnings_of_a_statistics_block (t : Z) (c : NDIToOMTConverter) :
  same_counters c (fst (print_statistics t c))
  /\ (fst (print_statistics t c) = c
      \/ fst (print_statistics t c) = with_last_stats_time t c)
  /\ forall st, In (printed_statistics st) (snd (print_statistics t c)) ->
       total_received st = frames_received c /\ total_sent st = frames_sent c
       /\ total_dropped st = frames_dropped c /\ p_frames st = pframes_sent c
       /\ (warning_only_keyframes st = true <-> 10 < total_sent st /\ p_frames st = 0)
       /\ (warning_high_drop_rate st = true -> 10 < total_received st)
       /\ (0 <= total_dropped st <= total_received st ->
           total_received st < 2 ^ 24 ->
           (warning_high_drop_rate st = true <->
            10 < total_received st
            /\ drop_ratio_at_least_tenth (total_dropped st) (total_received st))).
Proof.
  destruct (print_statistics_same_counters t c) as [Hs Hc].
  split; [exact Hs|]. split; [exact Hc|].
  intros st Hin.
  destruct (print_statistics_calls t c) as [E|[secs E]]; rewrite E in Hin;
    [contradiction|].
  destruct Hin as [[= <-]|[]]. cbn.
  split; [reflexivity|]. split; [reflexivity|].
  split; [reflexivity|]. split; [reflexivity|].
  split; [|split].
  - unfold only_keyframes. rewrite andb_true_iff, Z.ltb_lt, Z.eqb_eq. tauto.
  - unfold high_drop_rate. rewrite andb_true_iff, Z.ltb_lt. tauto.
  - intros Hd Hr. unfold high_drop_rate, drop_rate.
    fold (drop_rate_test (frames_dropped c) (frames_received c)).
    rewrite andb_true_iff, Z.ltb_lt.
    split.
    + intros (H10 & Ht). split; [exact H10|].
      rewrite drop_rate_test_below_2_24 in Ht by lia.
      apply drop_ratio_at_least_tenth_iff; [lia|]. now apply Z.leb_le.
    + intros (H10 & Hq). split; [exact H10|].
      rewrite drop_rate_test_below_2_24 by lia.
      apply Z.leb_le. apply drop_ratio_at_least_tenth_iff in Hq; lia.
Qed.

Example warnings_after_twenty_frames :
  let c := converter (fst (run sdk44 0 0 twenty_frames)) in
  warning_high_drop_rate (statistics_of 4 c) = true
  /\ 10 < frames_received c
  /\ drop_ratio_at_least_tenth (frames_dropped c) (frames_received c).
Proof.
  cbv zeta.
  assert (Hin : In (printed_statistics
                      (statistics_of 4 (converter (fst (run sdk44 0 0 twenty_frames)))))
                   (snd (print_statistics 4100000000
                           (converter (fst (run sdk44 0 0 twenty_frames))))))
    by (vm_compute; left; reflexivity).
  destruct (proj2 (proj2 (warnings_of_a_statistics_block 4100000000
                            (converter (fst (run sdk44 0 0 twenty_frames)))))
              _ Hin)
    as (Hr & _ & Hd & _ & _ & _ & H).
  assert (Hw : warning_high_drop_rate
                 (statistics_of 4 (converter (fst (run sdk44 0 0 twenty_frames))))
               = true)
    by (vm_compute; reflexivity).
  split; [exact Hw|].
  rewrite <- Hr, <- Hd.
  apply H; [vm_compute; split; discriminate|vm_compute; reflexivity|exact Hw].
Defined.

(** C8 (the program departs from the claim). The drop rate is a [float]
    and is compared with the [double] 0.1. The run over [twenty_frames]
    prints one block, with 20 frames received and 2 dropped; 2/20 is not
    above 0.1, and the warning "high drop rate" is raised all the same:
    the flags of the block are not the two conditions of the claim. *)
Theorem drop_warning_at_one_tenth :
  printed_blocks (snd (run sdk44 0 0 twenty_frames)) = [twenty_frames_block]
  /\ total_received twenty_frames_block = 20
  /\ total_dropped twenty_frames_block = 2
  /\ warning_high_drop_rate twenty_frames_block = true
  /\ ~ drop_ratio_above_tenth 2 20
  /\ ~ flags_as_specified twenty_frames_block.
Proof.
  assert (Hw : warning_high_drop_rate twenty_frames_block = true)
    by (vm_compute; reflexivity).
  split; [vm_compute; reflexivity|].
  split; [vm_compute; reflexivity|]. split; [vm_compute; reflexivity|].
  split; [exact Hw|].
  assert (Hq : ~ drop_ratio_above_tenth 2 20).
  { intro H. apply drop_ratio_above_tenth_iff in H; lia. }
  split; [exact Hq|].
  intros [_ [H _]]. apply H in Hw. destruct Hw as [_ Hw].
  revert Hw. vm_compute. discriminate.
Qed.

(** ** The command line *)

Lemma parse_arguments_cons (arg : String.string) (rest : list String.string)
  (a : arguments) :
  parse_arguments (arg :: rest) a =
  match rest with
  | value :: rest' =>
      if String.eqb arg "-s" then parse_arguments rest' (apply_option a (source_given value))
      else if String.eqb arg "-o" then parse_arguments rest' (apply_option a (output_given value))
      else if String.eqb arg "-l" then parse_arguments rest (apply_option a list_given)
      else if String.eqb arg "--help" then inr 0
      else inr 1
  | [] =>
      if String.eqb arg "-l" then inl (apply_option a list_given)
      else if String.eqb arg "--help" then inr 0
      else inr 1
  end.
Proof.
  cbn [parse_arguments].
  destruct rest as [|value rest'];
    destruct (String.eqb arg "-s"), (String.eqb arg "-o"); reflexivity.
Qed.

Lemma parse_arguments_option (o : option_given) (rest : list String.string)
  (a : arguments) :
  parse_arguments (words_of o ++ rest) a = parse_arguments rest (apply_option a o).
Proof.
  destruct o; cbn [words_of app]; rewrite parse_arguments_cons.
  - reflexivity.
  - reflexivity.
  - destruct rest; reflexivity.
Qed.

Lemma parse_arguments_command_line (options : list option_given)
  (rest : list String.string) :
  forall a,
    parse_arguments (command_line options ++ rest) a
    = parse_arguments rest (fold_left apply_option options a).
Proof.
  induction options as [|o options IH]; intro a; [reflexivity|].
  unfold command_line in *. cbn [flat_map fold_left].
  rewrite <- app_assoc, parse_arguments_option. apply IH.
Qed.

Lemma parse_arguments_help (rest : list String.string) (a : arguments) :
  parse_arguments ("--help" :: rest) a = inr 0.
Proof. rewrite parse_arguments_cons. now destruct rest. Qed.

Lemma parse_arguments_unknown (arg : String.string) (rest : list String.string)
  (a : arguments) :
  unknown_argument arg rest -> parse_arguments (arg :: rest) a = inr 1.
Proof.
  intros (Hl & Hh & H). rewrite parse_arguments_cons.
  apply String.eqb_neq in Hl, Hh. rewrite Hl, Hh.
  destruct H as [[Hs Ho]| ->]; [|reflexivity].
  apply String.eqb_neq in Hs, Ho. rewrite Hs, Ho. now destruct rest.
Qed.

Lemma argv_cases (argv : list String.string) :
  (exists options, argv = command_line options)
  \/ (exists options rest, argv = command_line options ++ "--help" :: rest)
  \/ (exists options arg rest,
        argv = command_line options ++ arg :: rest /\ unknown_argument arg rest).
Proof.
  assert (H : forall n argv, (length argv <= n)%nat ->
    (exists options, argv = command_line options)
    \/ (exists options rest, argv = command_line options ++ "--help" :: rest)
    \/ (exists options arg rest,
          argv = command_line options ++ arg :: rest /\ unknown_argument arg rest)).
  { clear argv. induction n as [|n IH]; intros argv Hn.
    - destruct argv; [|cbn in Hn; lia]. left. now exists [].
    - destruct argv as [|arg rest]; [left; now exists []|].
      cbn [length] in Hn.
      assert (Step : forall o tail, (length tail <= n)%nat ->
        (exists options, words_of o ++ tail = command_line options)
        \/ (exists options rest',
              words_of o ++ tail = command_line options ++ "--help" :: rest')
        \/ (exists options arg' rest',
              words_of o ++ tail = command_line options ++ arg' :: rest'
              /\ unknown_argument arg' rest')).
      { intros o tail Ht.
        destruct (IH tail Ht) as [[os ->]|[(os & r & ->)|(os & x & r & -> & U)]].
        - left. now exists (o :: os).
        - right; left. exists (o :: os), r. unfold command_line. cbn [flat_map].
          now rewrite <- app_assoc.
        - right; right. exists (o :: os), x, r. split; [|exact U].
          unfold command_line. cbn [flat_map]. now rewrite <- app_assoc. }
      destruct (String.eqb_spec arg "-l") as [->|Hl].
      { apply (Step list_given rest). lia. }
      destruct (String.eqb_spec arg "--help") as [->|Hh].
      { right; left. now exists [], rest. }
      destruct (String.eqb_spec arg "-s") as [->|Hs].
      { destruct rest as [|value rest'].
        - right; right. exists [], "-s", []. split; [reflexivity|].
          repeat split; auto.
        - apply (Step (source_given value) rest'). cbn [length] in Hn. lia. }
      destruct (String.eqb_spec arg "-o") as [->|Ho].
      { destruct rest as [|value rest'].
        - right; right. exists [], "-o", []. split; [reflexivity|].
          repeat split; auto.
        - apply (Step (output_given value) rest'). cbn [length] in Hn. lia. }
      right; right. exists [], arg, rest. split; [reflexivity|].
      repeat split; auto. }
  apply (H (length argv)). lia.
Qed.

(** X1. The argument loop of [main] runs to its end exactly on the command
    lines that are a sequence of options [-s <source>], [-o <output>] and
    [-l]; the word behind [-s] or [-o] is taken as the value whatever it
    is, and of an option given more than once the last one counts. *)
Theorem accepted_command_lines (argv : list String.string) (a a' : arguments) :
  parse_arguments argv a = inl a'
  <-> exists options,
        argv = command_line options /\ a' = fold_left apply_option options a.
Proof.
  split.
  - intro H.
    destruct (argv_cases argv) as [[os ->]|[(os & r & ->)|(os & x & r & -> & U)]].
    + exists os. split; [reflexivity|].
      rewrite <- (app_nil_r (command_line os)), parse_arguments_command_line in H.
      cbn in H. congruence.
    + rewrite parse_arguments_command_line, parse_arguments_help in H. discriminate.
    + rewrite parse_arguments_command_line, (parse_arguments_unknown _ _ _ U) in H.
      discriminate.
  - intros (os & -> & ->).
    rewrite <- (app_nil_r (command_line os)), parse_arguments_command_line.
    reflexivity.
Qed.

(** X2. [main] prints the help text and returns 0 from the argument loop
    exactly when [--help] stands behind a sequence of complete options;
    what follows [--help] is not read. *)
Theorem help_is_shown (argv : list String.string) (a : arguments) :
  parse_arguments argv a = inr 0
  <-> exists options rest, argv = command_line options ++ "--help" :: rest.
Proof.
  split.
  - intro H.
    destruct (argv_cases argv) as [[os ->]|[(os & r & ->)|(os & x & r & -> & U)]].
    + rewrite <- (app_nil_r (command_line os)), parse_arguments_command_line in H.
      discriminate.
    + now exists os, r.
    + rewrite parse_arguments_command_line, (parse_arguments_unknown _ _ _ U) in H.
      discriminate.
  - intros (os & r & ->).
    now rewrite parse_arguments_command_line, parse_arguments_help.
Qed.

(** X3. [main] returns 1 from the argument loop exactly when, behind a
    sequence of complete options, there is an argument that is none of
    [-s], [-o], [-l], [--help], or [-s] or [-o] as the last argument,
    without a value. *)
Theorem rejected_command_lines (argv : list String.string) (a : arguments) :
  parse_arguments argv a = inr 1
  <-> exists options arg rest,
        argv = command_line options ++ arg :: rest
        /\ arg <> "-l" /\ arg <> "--help"
        /\ ((arg <> "-s" /\ arg <> "-o") \/ rest = []).
Proof.
  split.
  - intro H.
    destruct (argv_cases argv) as [[os ->]|[(os & r & ->)|(os & x & r & -> & U)]].
    + rewrite <- (app_nil_r (command_line os)), parse_arguments_command_line in H.
      discriminate.
    + rewrite parse_arguments_command_line, parse_arguments_help in H. discriminate.
    + now exists os, x, r.
  - intros (os & x & r & -> & U).
    now rewrite parse_arguments_command_line, (parse_arguments_unknown _ _ _ U).
Qed.

(** ** The source the receiver connects to *)

Lemma found_in_occurs (name source_name : String.string) :
  found_in name source_name = true -> occurs_in name source_name.
Proof.
  unfold found_in. destruct (String.index 0 name source_name) as [m|] eqn:E;
    [|discriminate].
  intros _. exists m. now apply String.index_correct1 with (n := 0%nat).
Qed.

Lemma not_found_in_occurs (name source_name : String.string) :
  name <> "" -> found_in name source_name = false -> ~ occurs_in name source_name.
Proof.
  unfold found_in. intros Hn.
  destruct (String.index 0 name source_name) as [m|] eqn:E; [discriminate|].
  intros _ [m Hm]. revert Hm.
  apply (String.index_correct3 0 m name source_name E Hn). lia.
Qed.

Lemma find_source_by_name_spec (name : String.string) (sources : list String.string) :
  name <> "" ->
  forall k,
  match find_source_by_name name sources k with
  | Some (i, s) =>
      (k <= i)%nat /\ nth_error sources (i - k) = Some s /\ occurs_in name s
      /\ forall j s', (j < i - k)%nat -> nth_error sources j = Some s' ->
                      ~ occurs_in name s'
  | None => forall s', In s' sources -> ~ occurs_in name s'
  end.
Proof.
  intro Hn. induction sources as [|s sources IH]; intro k; cbn [find_source_by_name].
  - intros s' [].
  - destruct (found_in name s) eqn:E.
    + split; [lia|]. rewrite Nat.sub_diag. split; [reflexivity|].
      split; [now apply found_in_occurs|]. intros j s' Hj. lia.
    + specialize (IH (S k)).
      destruct (find_source_by_name name sources (S k)) as [[i s1]|].
      * destruct IH as (Hk & Hi & Ho & Hfirst).
        split; [lia|]. replace (i - k)%nat with (S (i - S k)) by lia.
        split; [exact Hi|]. split; [exact Ho|].
        intros [|j] s' Hj Hs'.
        -- injection Hs' as <-. now apply not_found_in_occurs.
        -- apply (Hfirst j s'); [lia|exact Hs'].
      * intros s' [<-|Hin]; [now apply not_found_in_occurs|now apply IH].
Qed.

(** X5. For a requested name that is not empty, the source selected is
    the first one found whose name contains the requested name; when no
    name contains it, no source is selected. *)
Theorem source_is_first_partial_match (name : String.string)
  (sources : list String.string) :
  name <> "" ->
  match select_source name sources with
  | Some (i, s) =>
      nth_error sources i = Some s /\ occurs_in name s
      /\ forall j s', (j < i)%nat -> nth_error sources j = Some s' ->
                      ~ occurs_in name s'
  | None => forall s', In s' sources -> ~ occurs_in name s'
  end.
Proof.
  intro Hn. unfold select_source.
  destruct sources as [|first rest]; [intros s' []|].
  apply String.eqb_neq in Hn as E. rewrite E.
  pose proof (find_source_by_name_spec name (first :: rest) Hn 0) as H.
  destruct (find_source_by_name name (first :: rest) 0) as [[i s]|]; [|exact H].
  rewrite Nat.sub_0_r in H. destruct H as (_ & H). exact H.
Qed.

Lemma source_is_first_partial_match_witness :
  "Camera" <> ""
  /\ select_source "Camera" ["OFFICE (Screen)"; "STUDIO (Camera 1)"; "STUDIO (Camera 2)"]
     = Some (1%nat, "STUDIO (Camera 1)")
  /\ occurs_in "Camera" "STUDIO (Camera 1)"
  /\ ~ occurs_in "Camera" "OFFICE (Screen)".
Proof.
  assert (Hn : "Camera" <> "") by discriminate.
  pose proof (source_is_first_partial_match "Camera"
                ["OFFICE (Screen)"; "STUDIO (Camera 1)"; "STUDIO (Camera 2)"] Hn) as H.
  change (select_source "Camera"
            ["OFFICE (Screen)"; "STUDIO (Camera 1)"; "STUDIO (Camera 2)"])
    with (Some (1%nat, "STUDIO (Camera 1)")) in H.
  destruct H as (_ & Ho & Hfirst).
  split; [exact Hn|]. split; [reflexivity|]. split; [exact Ho|].
  apply (Hfirst 0%nat); [lia|reflexivity].
Defined.

(** ** Start-up and shutdown *)


Lemma select_source_none (name : String.string) (sources : list String.string) :
  sources = []
  \/ (name <> "" /\ forall s, In s sources -> ~ occurs_in name s) ->
  select_source name sources = None.
Proof.
  intros [->|[Hn Hno]]; [reflexivity|].
  unfold select_source. destruct sources as [|first rest]; [reflexivity|].
  apply String.eqb_neq in Hn as E. rewrite E.
  pose proof (find_source_by_name_spec name (first :: rest) Hn 0) as H.
  destruct (find_source_by_name name (first :: rest) 0) as [[i s]|]; [|reflexivity].
  destruct H as (_ & Hi & Ho & _). apply nth_error_In in Hi.
  now elim (Hno s Hi).
Qed.

(** X7. When no source is found, or none contains the requested name,
    [main] returns 1: the finder was created and is destroyed again, and
    neither a receiver nor a sender is created. *)
Theorem main_without_a_matching_source (sdk : SDK) (argv : list String.string)
  (a : arguments) (w : world) (t0 t1 : Z) (inputs : list capture) :
  parse_arguments argv default_arguments = inl a ->
  list_sources a = false ->
  NDIlib_initialize_result w = true ->
  NDIlib_find_create_v2_result w = true ->
  current_sources w = []
  \/ (ndi_source a <> ""
      /\ forall s, In s (current_sources w) -> ~ occurs_in (ndi_source a) s) ->
  main sdk argv w t0 t1 inputs
  = (1, initialization_failed
          [NDIlib_initialize; NDIlib_find_create_v2;
           NDIlib_find_get_current_sources; NDIlib_find_destroy; NDIlib_destroy]).
Proof.
  intros Hp Hl Hi Hf Hs. apply select_source_none in Hs.
  unfold main. rewrite Hp, Hl.
  unfold initialize, find_ndi_source, new_components.
  cbn [ndi_receiver ndi_finder omt_sender ndi_source_name omt_stream_name].
  rewrite Hi, Hf. cbn [negb].
  rewrite Hs. destruct (current_sources w); reflexivity.
Qed.

Lemma main_without_a_matching_source_witness :
  main sdk44 ["-s"; "Screen"] two_cameras 0 0 []
  = (1, initialization_failed
          [NDIlib_initialize; NDIlib_find_create_v2;
           NDIlib_find_get_current_sources; NDIlib_find_destroy; NDIlib_destroy]).
Proof.
  apply (main_without_a_matching_source sdk44 ["-s"; "Screen"]
           {| ndi_source := "Screen"; omt_stream := "NDItoOMT";
              list_sources := false |}).
  - reflexivity.
  - reflexivity.
  - reflexivity.
  - reflexivity.
  - right. split; [discriminate|].
    intros s [<-|[<-|[]]]; apply not_found_in_occurs;
      solve [discriminate|reflexivity].
Defined.

Lemma list_sources_fold (options : list option_given) :
  forall a,
    list_sources (fold_left apply_option options a) = true
    <-> list_sources a = true \/ In list_given options.
Proof.
  induction options as [|o options IH]; intro a; cbn [fold_left In].
  - tauto.
  - rewrite IH. destruct o; cbn [apply_option list_sources];
      intuition (auto; discriminate).
Qed.

(** X4. When [-l] is among the options, wherever it stands, [main] lists
    the sources and returns 0: no receiver and no sender is created, and
    when the library initialises and the finder is created, the names
    printed are those of the sources found, in their order. *)
Theorem list_option_wins (sdk : SDK) (options : list option_given) (w : world)
  (t0 t1 : Z) (inputs : list capture) :
  In list_given options ->
  let '(code, done) := main sdk (command_line options) w t0 t1 inputs in
  code = 0
  /\ done = sources_listed (fst (list_ndi_sources w)) (snd (list_ndi_sources w))
  /\ filter is_recv_create (setup_calls done) = []
  /\ filter is_send_create (setup_calls done) = []
  /\ (NDIlib_initialize_result w = true ->
      NDIlib_find_create_v2_result w = true ->
      snd (list_ndi_sources w) = current_sources w).
Proof.
  intro Hin. unfold main.
  rewrite <- (app_nil_r (command_line options)), parse_arguments_command_line.
  cbn [parse_arguments].
  assert (E : list_sources (fold_left apply_option options default_arguments) = true)
    by (apply list_sources_fold; now right).
  rewrite E. unfold list_ndi_sources.
  destruct (NDIlib_initialize_result w), (NDIlib_find_create_v2_result w);
    cbn; repeat split; try reflexivity; intros; discriminate.
Qed.

Lemma list_option_wins_witness :
  main sdk44 ["-l"; "-s"; "Camera 2"] two_cameras 0 0 []
  = (0, sources_listed
          [NDIlib_initialize; NDIlib_find_create_v2; NDIlib_find_get_current_sources;
           NDIlib_find_destroy; NDIlib_destroy]
          ["STUDIO (Camera 1)"; "STUDIO (Camera 2)"]).
Proof.
  assert (Hin : In list_given [list_given; source_given "Camera 2"]) by (now left).
  pose proof (list_option_wins sdk44 [list_given; source_given "Camera 2"]
                two_cameras 0 0 [] Hin) as H.
  change (command_line [list_given; source_given "Camera 2"])
    with ["-l"; "-s"; "Camera 2"] in H.
  destruct (main sdk44 ["-l"; "-s"; "Camera 2"] two_cameras 0 0 []) as [code done].
  destruct H as (-> & -> & _). reflexivity.
Defined.

(** X8. Whatever the command line and whatever the SDKs answer, [main]
    creates at most one finder, one receiver and one sender, and destroys
    each handle it got exactly once and no other; [NDIlib_destroy] is
    called at most as often as [NDIlib_initialize], and as often when the
    library initialised. *)
Theorem main_releases_what_it_created (sdk : SDK) (argv : list String.string)
  (w : world) (t0 t1 : Z) (inputs : list capture) :
  let calls := setup_calls (snd (main sdk argv w t0 t1 inputs)) in
  occurrences NDIlib_find_destroy calls
  = (if NDIlib_find_create_v2_result w
     then occurrences NDIlib_find_create_v2 calls else 0%nat)
  /\ occurrences NDIlib_recv_destroy calls
     = (if NDIlib_recv_create_v3_result w
        then length (filter is_recv_create calls) else 0%nat)
  /\ occurrences omt_send_destroy calls
     = (if omt_send_create_result w
        then length (filter is_send_create calls) else 0%nat)
  /\ (occurrences NDIlib_find_create_v2 calls <= 1)%nat
  /\ (length (filter is_recv_create calls) <= 1)%nat
  /\ (length (filter is_send_create calls) <= 1)%nat
  /\ (occurrences NDIlib_destroy calls <= occurrences NDIlib_initialize calls)%nat
  /\ (NDIlib_initialize_result w = true ->
      occurrences NDIlib_destroy calls = occurrences NDIlib_initialize calls).
Proof.
  cbv zeta. unfold main.
  destruct w as [i f sources r o].
  destruct (parse_arguments argv default_arguments) as [a|code];
    [|destruct f, r, o; cbn; repeat split; lia].
  destruct (list_sources a).
  - unfold list_ndi_sources.
    cbn [NDIlib_initialize_result NDIlib_find_create_v2_result current_sources
         NDIlib_recv_create_v3_result omt_send_create_result].
    destruct i, f, r, o; cbn; repeat split; try lia; discriminate.
  - unfold initialize, find_ndi_source, init_omt_sender, new_components, cleanup.
    cbn [ndi_receiver ndi_finder omt_sender ndi_source_name omt_stream_name
         NDIlib_initialize_result NDIlib_find_create_v2_result current_sources
         NDIlib_recv_create_v3_result omt_send_create_result].
    destruct i; [|destruct f, r, o; cbn; repeat split; lia].
    destruct f; [|destruct r, o; cbn; repeat split; lia].
    cbn [negb].
    destruct sources as [|first rest]; [destruct r, o; cbn; repeat split; lia|].
    destruct (select_source (ndi_source a) (first :: rest)) as [[n s]|];
      [|destruct r, o; cbn; repeat split; lia].
    destruct r, o; cbn; repeat split; lia.
Qed.

(** X9. [cleanup] destroys each of the three handles that is set, once,
    and clears them all; a second [cleanup] destroys no handle again and
    only calls [NDIlib_destroy]. *)
Theorem cleanup_is_safe_to_repeat (c : components) :
  let '(c1, calls1) := cleanup c in
  let '(c2, calls2) := cleanup c1 in
  ndi_receiver c1 = false /\ ndi_finder c1 = false /\ omt_sender c1 = false
  /\ occurrences NDIlib_recv_destroy calls1 = (if ndi_receiver c then 1 else 0)%nat
  /\ occurrences NDIlib_find_destroy calls1 = (if ndi_finder c then 1 else 0)%nat
  /\ occurrences omt_send_destroy calls1 = (if omt_sender c then 1 else 0)%nat
  /\ c2 = c1 /\ calls2 = [NDIlib_destroy].
Proof.
  destruct c as [[] [] [] n s]; cbn; repeat split.
Qed.

(** ** The counters and the calls of a run *)

Lemma wrap32_add_r (a b : Z) : Int32.wrap32 (a + Int32.wrap32 b) = Int32.wrap32 (a + b).
Proof. rewrite (Z.add_comm a), wrap32_add_l. f_equal. ring. Qed.

Lemma accepted_bytes_app (a b : list call) :
  accepted_bytes (a ++ b) = accepted_bytes a + accepted_bytes b.
Proof.
  unfold accepted_bytes. induction a as [|k a IH]; cbn [app fold_right]; [ring|].
  rewrite IH. ring.
Qed.

Lemma accounted_for_in_range (c c' : NDIToOMTConverter) (calls : list call) :
  accounted_for c calls c' -> counters_in_range c'.
Proof.
  intros (A1 & A2 & A3 & A4 & _). unfold counters_in_range.
  rewrite A1, A2, A3, A4. repeat split; apply wrap32_in_range.
Qed.

Lemma accounted_for_nothing (c c' : NDIToOMTConverter) (calls : list call) :
  counters_in_range c -> same_counters c c' ->
  count is_free_video calls = 0%nat -> count is_omt_send calls = 0%nat ->
  count is_send_accepted calls = 0%nat -> count is_send_refused calls = 0%nat ->
  accepted_bytes calls = 0 ->
  accounted_for c calls c'.
Proof.
  intros (R1 & R2 & R3 & R4) (E1 & E2 & E3 & _ & E5 & E6 & E7) C1 C2 C3 C4 C5.
  unfold accounted_for. rewrite C1, C2, C3, C4, C5, E1, E2, E3, E5, E6, E7.
  cbn [Z.of_nat].
  rewrite !Z.add_0_r, !wrap32_small by assumption. repeat split.
Qed.

Lemma accounted_for_app (c c1 c2 : NDIToOMTConverter) (a b : list call) :
  accounted_for c a c1 -> accounted_for c1 b c2 -> accounted_for c (a ++ b) c2.
Proof.
  intros (A1 & A2 & A3 & A4 & A5) (B1 & B2 & B3 & B4 & B5).
  unfold accounted_for.
  rewrite !count_app, accepted_bytes_app, !Nat2Z.inj_add, !Z.add_assoc.
  rewrite B1, A1, B2, A2, B3, A3, B4, A4, !wrap32_add_l.
  repeat split.
  rewrite B5, <- wrap32_add_l, A5, wrap32_add_l. reflexivity.
Qed.

Ltac count_calls :=
  unfold accounted_for, count, accepted_bytes;
  cbn [app filter length fold_right is_free_video is_send_accepted
       is_send_refused is_omt_send accepted_bytes_of negb].

Lemma dispatch_accounted_for (sdk : SDK) (i : capture) (c : NDIToOMTConverter)
  (fr : OMTMediaFrame) :
  counters_in_range c ->
  accounted_for c (snd (dispatch sdk i c fr)) (fst (fst (dispatch sdk i c fr))).
Proof.
  intro R. unfold dispatch.
  destruct (captured i) as [f| | | | |]; cbn [fst snd];
    try (apply accounted_for_nothing; try reflexivity; try assumption;
         now repeat split).
  destruct R as (R1 & R2 & R3 & R4).
  destruct (received_effect f c) as (E1 & E2 & E3 & _ & E5 & E6 & E7 & _).
  destruct (compressed_packet sdk f) as [r|[packet h264_data]] eqn:E.
  - rewrite (handle_video_frame_rejected sdk f r _ _ c fr E). cbn [fst snd].
    count_calls.
    rewrite E1, E2, E3, E5, E6, E7. change (Z.of_nat 0) with 0.
    rewrite !Z.add_0_r, (wrap32_small _ R2), (wrap32_small _ R3), (wrap32_small _ R4).
    repeat split.
  - rewrite (handle_video_frame_accepted sdk f packet h264_data _ _ c fr E).
    pose proof (send_compressed_to_omt_effect sdk h264_data
                  (packet_is_keyframe sdk packet) (send_result i) (conn_count i)
                  (received f c) fr) as S.
    destruct (send_compressed_to_omt _ _ _ _ _ _ _) as [[[ok c'] fr'] calls].
    destruct S as (_ & Hfr & Hcalls & S1 & S2 & S3 & S4 & S5 & _ & S7 & _).
    cbn [fst snd]. subst calls.
    assert (HL : DataLength fr' = Z.of_nat (length h264_data)) by (now subst fr').
    count_calls.
    rewrite S1, S2, S3, S4, S5, S7, E1, E2, E3, E5, E6, E7, HL.
    unfold Int32.incr, Int32.add.
    destruct (0 <=? send_result i) eqn:Hs; count_calls;
      change (Z.of_nat 0) with 0; change (Z.of_nat 1) with 1;
      rewrite ?Z.add_0_r, ?(wrap32_small _ R2), ?(wrap32_small _ R3),
        ?(wrap32_small _ R4);
      (split; [reflexivity|]); (split; [reflexivity|]); (split; [reflexivity|]);
      (split; [reflexivity|]);
      destruct (packet_is_keyframe sdk packet);
      rewrite ?wrap32_add_l, ?wrap32_add_r; f_equal; ring.
Qed.

Lemma iteration_accounted_for (sdk : SDK) (i : capture) (s : run_state) :
  counters_in_range (converter s) ->
  accounted_for (converter s) (snd (iteration sdk i s))
    (converter (fst (iteration sdk i s))).
Proof.
  intro R.
  pose proof (dispatch_accounted_for sdk i (converter s) (omt_frame s) R) as D.
  unfold iteration.
  destruct (dispatch sdk i (converter s) (omt_frame s)) as [[c f] calls].
  cbn [fst snd] in D.
  destruct (ticks_per_second <=? Int64.sub (now i) (last_connection_check s));
    [|exact D].
  pose proof (print_statistics_same_counters (stats_now i)
                (with_connections (connections_now i) c)) as [P _].
  pose proof (print_statistics_calls (stats_now i)
                (with_connections (connections_now i) c)) as Q.
  destruct (print_statistics _ _) as [c' printed]. cbn [fst snd converter] in *.
  apply (accounted_for_app _ c _ _ _ D).
  apply accounted_for_nothing.
  - exact (accounted_for_in_range _ _ _ D).
  - pose proof (with_connections_same_counters (connections_now i) c) as W.
    unfold same_counters in *. intuition congruence.
  - destruct Q as [->|[secs ->]]; reflexivity.
  - destruct Q as [->|[secs ->]]; reflexivity.
  - destruct Q as [->|[secs ->]]; reflexivity.
  - destruct Q as [->|[secs ->]]; reflexivity.
  - destruct Q as [->|[secs ->]]; reflexivity.
Qed.

Lemma run_from_accounted_for (sdk : SDK) (inputs : list capture) :
  forall s,
    counters_in_range (converter s) ->
    accounted_for (converter s) (snd (run_from sdk s inputs))
      (converter (fst (run_from sdk s inputs))).
Proof.
  induction inputs as [|i inputs IH]; intros s R.
  - cbn. apply accounted_for_nothing; try reflexivity; [exact R|now repeat split].
  - pose proof (iteration_accounted_for sdk i s R) as A.
    cbn [run_from]. destruct (iteration sdk i s) as [s1 calls1].
    cbn [fst snd] in A.
    specialize (IH s1 (accounted_for_in_range _ _ _ A)).
    destruct (run_from sdk s1 inputs) as [s2 calls2]. cbn [fst snd] in *.
    exact (accounted_for_app _ _ _ _ _ A IH).
Qed.

Lemma new_converter_in_range (t : Z) : counters_in_range (new_converter t).
Proof. cbn. repeat split; discriminate. Qed.

(** X10. After a run from construction the counters are the calls of the
    run, counted in 32 bits: frames received is the number of video frames
    released, frames sent the number of sends the sink took, frames dropped
    the number of sends it refused, and bytes sent the sum of the payload
    lengths of the frames the sink took. *)
Theorem counters_mirror_the_calls (sdk : SDK) (t0 t1 : Z) (inputs : list capture) :
  let c := converter (fst (run sdk t0 t1 inputs)) in
  let calls := snd (run sdk t0 t1 inputs) in
  frames_received c = Int32.wrap32 (Z.of_nat (count is_free_video calls))
  /\ frames_sent c = Int32.wrap32 (Z.of_nat (count is_send_accepted calls))
  /\ frames_dropped c = Int32.wrap32 (Z.of_nat (count is_send_refused calls))
  /\ bytes_sent c = Int32.wrap32 (accepted_bytes calls).
Proof.
  cbv zeta. unfold run.
  destruct (run_from_accounted_for sdk inputs (run_start sdk (new_converter t0) t1)
              (new_converter_in_range t0)) as (A1 & A2 & A3 & A4 & _).
  cbn [run_start converter] in *.
  rewrite A1, A2, A3, A4. repeat split.
Qed.

(** X11. After a run from construction the key frames and the P-frames
    counted add up, in 32 bits, to the frames sent and the frames dropped:
    a frame is counted by its kind before the sink is asked, whether the
    sink takes it or not. *)
Theorem frame_kinds_add_up (sdk : SDK) (t0 t1 : Z) (inputs : list capture) :
  let c := converter (fst (run sdk t0 t1 inputs)) in
  Int32.wrap32 (keyframes_sent c + pframes_sent c)
  = Int32.wrap32 (frames_sent c + frames_dropped c)
  /\ Int32.wrap32 (keyframes_sent c + pframes_sent c)
     = Int32.wrap32 (Z.of_nat (count is_omt_send (snd (run sdk t0 t1 inputs)))).
Proof.
  cbv zeta. unfold run.
  destruct (run_from_accounted_for sdk inputs (run_start sdk (new_converter t0) t1)
              (new_converter_in_range t0)) as (_ & A2 & A3 & _ & A5).
  cbn [run_start converter] in *.
  split; [|exact A5].
  rewrite A5, A2, A3. cbn [new_converter frames_sent frames_dropped keyframes_sent
                           pframes_sent].
  rewrite !Z.add_0_l, wrap32_add_l, wrap32_add_r. f_equal.
  rewrite <- Nat2Z.inj_add. f_equal.
  generalize (snd (run_from sdk (run_start sdk (new_converter t0) t1) inputs)).
  intro calls. unfold count.
  induction calls as [|k calls IH]; [reflexivity|].
  destruct k as [| fr r | | | | | |]; cbn [filter is_omt_send is_send_accepted
                                          is_send_refused]; try exact IH.
  destruct (0 <=? r); cbn [negb length]; lia.
Qed.

(** ** The frames of a run *)

Lemma iteration_envelopes (sdk : SDK) (i : capture) (s : run_state) :
  Timestamp (omt_frame s) = -1 ->
  Timestamp (omt_frame (fst (iteration sdk i s))) = -1
  /\ Forall (plain_envelope sdk) (snd (iteration sdk i s)).
Proof.
  intro T. unfold iteration.
  assert (D : Timestamp (snd (fst (dispatch sdk i (converter s) (omt_frame s)))) = -1
              /\ Forall (plain_envelope sdk)
                   (snd (dispatch sdk i (converter s) (omt_frame s)))).
  { unfold dispatch.
    destruct (captured i) as [f| | | | |]; cbn [fst snd];
      try (split; [exact T|repeat constructor]).
    pose proof (handle_video_frame_calls sdk f (send_result i) (conn_count i)
                  (converter s) (omt_frame s)) as H.
    destruct (handle_video_frame _ _ _ _ _ _) as [[c' fr'] calls]. cbn [fst snd].
    destruct H as [(-> & -> & _)|(packet & h264_data & _ & -> & ->)].
    - split; [exact T|repeat constructor].
    - split; [exact T|].
      apply Forall_app. split; [|repeat constructor].
      constructor; [exact I|]. constructor.
      + cbn. repeat split; [exact T|]. now destruct (packet_is_keyframe sdk packet).
      + destruct (0 <=? send_result i); repeat constructor. }
  destruct (dispatch sdk i (converter s) (omt_frame s)) as [[c f] calls].
  cbn [fst snd] in D. destruct D as [D1 D2].
  destruct (ticks_per_second <=? Int64.sub (now i) (last_connection_check s)).
  - pose proof (print_statistics_calls (stats_now i)
                  (with_connections (connections_now i) c)) as Q.
    destruct (print_statistics _ _) as [c' printed]. cbn [fst snd omt_frame] in *.
    split; [exact D1|]. apply Forall_app. split; [exact D2|].
    constructor; [exact I|]. destruct Q as [->|[secs ->]]; repeat constructor.
  - cbn [fst snd omt_frame]. now split.
Qed.

(** X14. Every frame a run hands to the sink has the timestamp -1, the
    flags [OMTVideoFlags_None], compressed length 0, stride 0, and a data
    length that is the length of its payload. *)
Theorem sent_frames_have_a_plain_envelope (sdk : SDK) (t0 t1 : Z)
  (inputs : list capture) :
  Forall (plain_envelope sdk) (snd (run sdk t0 t1 inputs)).
Proof.
  unfold run.
  assert (T : Timestamp (omt_frame (run_start sdk (new_converter t0) t1)) = -1)
    by reflexivity.
  revert T. generalize (run_start sdk (new_converter t0) t1).
  induction inputs as [|i inputs IH]; intros s T; [constructor|].
  cbn [run_from].
  destruct (iteration_envelopes sdk i s T) as [T1 F1].
  destruct (iteration sdk i s) as [s1 calls1]. cbn [fst snd] in *.
  specialize (IH s1 T1). destruct (run_from sdk s1 inputs) as [s2 calls2].
  cbn [snd] in *. apply Forall_app. now split.
Qed.

(** ** The reports of a run *)

Lemma printed_blocks_app (a b : list call) :
  printed_blocks (a ++ b) = printed_blocks a ++ printed_blocks b.
Proof.
  induction a as [|k a IH]; [reflexivity|].
  destruct k; cbn [app printed_blocks]; rewrite IH; reflexivity.
Qed.

Lemma dispatch_prints_nothing (sdk : SDK) (i : capture) (c : NDIToOMTConverter)
  (fr : OMTMediaFrame) :
  printed_blocks (snd (dispatch sdk i c fr)) = [].
Proof.
  pose proof (dispatch_prints_no_statistics sdk i c fr) as N.
  destruct (printed_blocks (snd (dispatch sdk i c fr))) as [|st l] eqn:E;
    [reflexivity|].
  elim (N st). apply printed_blocks_In. rewrite E. now left.
Qed.

Lemma dispatch_times (sdk : SDK) (i : capture) (c : NDIToOMTConverter)
  (fr : OMTMediaFrame) :
  start_time (fst (fst (dispatch sdk i c fr))) = start_time c
  /\ last_stats_time (fst (fst (dispatch sdk i c fr))) = last_stats_time c.
Proof.
  pose proof (dispatch_converter sdk i c fr) as H. cbv zeta in H.
  destruct (received_effect
              match captured i with NDIlib_frame_type_video f => f | _ =>
                {| xres := 0; yres := 0; FourCC := 0; frame_rate_N := 0;
                   frame_rate_D := 0; p_data := None |} end c)
    as (_ & _ & _ & _ & _ & _ & _ & _ & R1 & R2 & _).
  destruct (captured i) as [f| | | | |]; try (rewrite H; now split).
  destruct (compressed_packet sdk f) as [r|[packet h264_data]].
  - rewrite H. now split.
  - rewrite H.
    pose proof (send_compressed_to_omt_effect sdk h264_data
                  (packet_is_keyframe sdk packet) (send_result i) (conn_count i)
                  (received f c) fr) as S.
    destruct (send_compressed_to_omt _ _ _ _ _ _ _) as [[[ok c'] fr'] calls].
    cbn [fst snd].
    destruct S as (_ & _ & _ & _ & _ & _ & _ & _ & _ & _ & _ & _ & _ & _ & _ & S1 & S2).
    rewrite S1, S2. now split.
Qed.

Lemma with_connections_times (v : Z) (c : NDIToOMTConverter) :
  start_time (with_connections v c) = start_time c
  /\ last_stats_time (with_connections v c) = last_stats_time c.
Proof. now destruct c. Qed.

Lemma wrap64_small (z : Z) : - 2 ^ 63 <= z < 2 ^ 63 -> Int64.wrap64 z = z.
Proof.
  unfold Int64.wrap64. change (2 ^ 63) with 9223372036854775808.
  change (2 ^ 64) with 18446744073709551616.
  intro H. rewrite Z.mod_small; lia.
Qed.

Lemma sub_near (t0 a b : Z) : near t0 a -> near t0 b -> Int64.sub a b = a - b.
Proof.
  unfold near, Int64.sub. change (2 ^ 62) with 4611686018427387904.
  intros Ha Hb. apply wrap64_small. change (2 ^ 63) with 9223372036854775808. lia.
Qed.

Lemma near_refl (t0 : Z) : near t0 t0.
Proof. unfold near. rewrite Z.sub_diag. split; reflexivity. Qed.

Lemma print_statistics_spaced (t prev : Z) (c : NDIToOMTConverter) :
  near (start_time c) (last_stats_time c) ->
  near (start_time c) t ->
  start_time c + prev * ticks_per_second <= last_stats_time c ->
  let '(c', printed) := print_statistics t c in
  start_time c' = start_time c
  /\ near (start_time c) (last_stats_time c')
  /\ ((printed_blocks printed = []
       /\ start_time c + prev * ticks_per_second <= last_stats_time c')
      \/ exists st,
           printed_blocks printed = [st] /\ prev + 2 <= seconds st
           /\ start_time c + seconds st * ticks_per_second <= last_stats_time c').
Proof.
  intros Nl Nt H. unfold print_statistics.
  rewrite (sub_near (start_time c) t (last_stats_time c) Nt Nl).
  rewrite (sub_near (start_time c) t (start_time c) Nt (near_refl _)).
  unfold ticks_per_second in *.
  destruct (Z.leb_spec (2 * 1000000000) (t - last_stats_time c)) as [L|L];
    [|split; [reflexivity|split; [exact Nl|left; now split]]].
  assert (Hs : start_time (with_last_stats_time t c) = start_time c)
    by (now destruct c).
  assert (Hl : last_stats_time (with_last_stats_time t c) = t) by (now destruct c).
  rewrite Hs, Hl. split; [reflexivity|]. split; [exact Nt|].
  destruct (Z.ltb_spec 0 (Z.quot (t - start_time c) 1000000000)) as [P|P].
  - right. exists (statistics_of (Z.quot (t - start_time c) 1000000000) c).
    split; [reflexivity|]. cbn [seconds statistics_of].
    assert (G : 0 <= t - start_time c).
    { destruct (Z.le_gt_cases 0 (t - start_time c)) as [G|G]; [exact G|].
      pose proof (Z.quot_le_mono (t - start_time c) 0 1000000000) as Q.
      rewrite Z.quot_0_l in Q by discriminate. lia. }
    rewrite Z.quot_div_nonneg in * by lia.
    pose proof (Z.mul_div_le (t - start_time c) 1000000000).
    pose proof (Z.mul_succ_div_gt (t - start_time c) 1000000000).
    lia.
  - left. split; [reflexivity|]. lia.
Qed.

Lemma iteration_spaced (sdk : SDK) (i : capture) (s : run_state) (prev : Z) :
  near (start_time (converter s)) (last_stats_time (converter s)) ->
  near (start_time (converter s)) (stats_now i) ->
  start_time (converter s) + prev * ticks_per_second
  <= last_stats_time (converter s) ->
  start_time (converter (fst (iteration sdk i s))) = start_time (converter s)
  /\ near (start_time (converter s))
          (last_stats_time (converter (fst (iteration sdk i s))))
  /\ ((printed_blocks (snd (iteration sdk i s)) = []
       /\ start_time (converter s) + prev * ticks_per_second
          <= last_stats_time (converter (fst (iteration sdk i s))))
      \/ exists st,
           printed_blocks (snd (iteration sdk i s)) = [st]
           /\ prev + 2 <= seconds st
           /\ start_time (converter s) + seconds st * ticks_per_second
              <= last_stats_time (converter (fst (iteration sdk i s)))).
Proof.
  intros Nl Nt H. unfold iteration.
  pose proof (dispatch_prints_nothing sdk i (converter s) (omt_frame s)) as N.
  destruct (dispatch_times sdk i (converter s) (omt_frame s)) as [D1 D2].
  destruct (dispatch sdk i (converter s) (omt_frame s)) as [[c f] calls].
  cbn [fst snd] in *.
  destruct (ticks_per_second <=? Int64.sub (now i) (last_connection_check s)).
  - destruct (with_connections_times (connections_now i) c) as [W1 W2].
    pose proof (print_statistics_spaced (stats_now i) prev
                  (with_connections (connections_now i) c)) as P.
    rewrite W1, W2, D1, D2 in P. specialize (P Nl Nt H).
    destruct (print_statistics _ _) as [c' printed]. cbn [fst snd converter].
    rewrite printed_blocks_app, N. cbn [app printed_blocks]. exact P.
  - cbn [fst snd converter]. rewrite D1, D2, N. split; [reflexivity|].
    split; [exact Nl|]. left. now split.
Qed.

Lemma run_from_spaced (sdk : SDK) (inputs : list capture) :
  forall s prev,
    Forall (fun i => near (start_time (converter s)) (stats_now i)) inputs ->
    near (start_time (converter s)) (last_stats_time (converter s)) ->
    start_time (converter s) + prev * ticks_per_second
    <= last_stats_time (converter s) ->
    spaced prev (map seconds (printed_blocks (snd (run_from sdk s inputs)))).
Proof.
  induction inputs as [|i inputs IH]; intros s prev F Nl H; [exact I|].
  cbn [run_from]. inversion F as [|i' l' Ni F']; subst i' l'.
  destruct (iteration_spaced sdk i s prev Nl Ni H) as (E & N1 & P).
  destruct (iteration sdk i s) as [s1 calls1]. cbn [fst snd] in *.
  rewrite <- E in P, N1, F'.
  destruct P as [(N & P)|(st & N & L & P)].
  - specialize (IH s1 prev F' N1 P).
    destruct (run_from sdk s1 inputs) as [s2 calls2]. cbn [snd] in *.
    rewrite printed_blocks_app, N. exact IH.
  - specialize (IH s1 (seconds st) F' N1 P).
    destruct (run_from sdk s1 inputs) as [s2 calls2]. cbn [snd] in *.
    rewrite printed_blocks_app, N. cbn [app map spaced]. now split.
Qed.

(** X15. In a run from construction in which every clock reading taken
    in [print_statistics] is less than 2^62 ticks (146 years) away from the
    reading of the constructor, so that no difference of two readings
    leaves the 64 bits of a tick count, the runtime in seconds shown in the
    first statistics block is at least 2, and in every further block it is
    at least 2 more than in the block before. The readings need not be in
    order. *)
Theorem reports_are_two_seconds_apart (sdk : SDK) (t0 t1 : Z)
  (inputs : list capture) :
  Forall (fun i => near t0 (stats_now i)) inputs ->
  spaced 0 (map seconds (printed_blocks (snd (run sdk t0 t1 inputs)))).
Proof.
  intro F. unfold run. apply run_from_spaced.
  - exact F.
  - apply near_refl.
  - cbn. lia.
Qed.

Lemma reports_are_two_seconds_apart_witness :
  Forall (fun i => near 0 (stats_now i)) twenty_frames
  /\ map seconds (printed_blocks (snd (run sdk44 0 0 twenty_frames))) = [2]
  /\ spaced 0 (map seconds (printed_blocks (snd (run sdk44 0 0 twenty_frames)))).
Proof.
  assert (F : Forall (fun i => near 0 (stats_now i)) twenty_frames).
  { apply Forall_forall. intros i Hi.
    assert (B : 0 <= stats_now i <= 2000000000).
    { revert i Hi. apply Forall_forall.
      repeat (constructor; [split; discriminate|]). constructor. }
    unfold near. change (2 ^ 62) with 4611686018427387904. lia. }
  split; [exact F|]. split; [vm_compute; reflexivity|].
  exact (reports_are_two_seconds_apart sdk44 0 0 twenty_frames F).
Defined.

(** ** The bytes the scan reads *)

Lemma analyze_nal_firstn (span : list Z) (w i : nat) :
  (i + 1 < w)%nat -> analyze_nal (firstn w span) i = analyze_nal span i.
Proof.
  intro Hi. unfold analyze_nal, at_. rewrite length_firstn, nth_firstn.
  replace (i + 1 <? w)%nat with true by (symmetry; apply Nat.ltb_lt; lia).
  destruct (Nat.ltb_spec (i + 1) (length span)) as [L|L].
  - replace (i + 1 <? Nat.min w (length span))%nat with true
      by (symmetry; apply Nat.ltb_lt; lia).
    reflexivity.
  - replace (i + 1 <? Nat.min w (length span))%nat with false
      by (symmetry; apply Nat.ltb_ge; lia).
    reflexivity.
Qed.

Lemma scan_from_firstn_whole (span : list Z) (w n : nat) :
  forall i, (i + n < w)%nat ->
  scan_from (firstn w span) n i = scan_from span n i.
Proof.
  induction n as [|n IH]; intros i Hw; [reflexivity|].
  rewrite !scan_from_step.
  destruct (start_codes_firstn span w i) as [-> ->]; [lia|].
  rewrite analyze_nal_firstn by lia.
  destruct (start_code4 span i || start_code3 span i); [reflexivity|].
  apply IH. lia.
Qed.

(** X16. The scan for start codes reads the first 33 bytes of the payload
    and no more: a payload and its first 33 bytes get the same answer. *)
Theorem scan_reads_the_first_33_bytes (span : list Z) :
  scan_start_codes (firstn 33 span) = scan_start_codes span.
Proof.
  unfold scan_start_codes, scan_window. rewrite length_firstn.
  replace (Nat.min (Nat.min 33 (length span)) 32) with (Nat.min (length span) 32)
    by lia.
  apply scan_from_firstn_whole. lia.
Qed.

(** ** The answer of [handle_compressed_frame] *)

(** X17. [handle_compressed_frame] answers true exactly when the frame
    has data, is marked H.264, holds a whole packet header, and the header
    names H.264; the answer does not depend on what the sink says. When it
    answers true the frame was handed to the sink once, and a refusal shows
    in the dropped counter only; when it answers false nothing was sent and
    the converter is unchanged. *)
Theorem answer_ignores_the_sink (sdk : SDK) (f : NDIlib_video_frame_v2_t)
  (sr cc : Z) (c : NDIToOMTConverter) (fr : OMTMediaFrame) :
  let '(ok, c', fr', calls) := handle_compressed_frame sdk f sr cc c fr in
  (ok = true <->
   exists bytes,
     p_data f = Some bytes /\ bytes <> []
     /\ FourCC f = NDIlib_compressed_FourCC_type_H264 sdk
     /\ (sizeof_NDIlib_compressed_packet_t sdk <= length bytes)%nat
     /\ fourCC (packet_of_bytes sdk
                  (firstn (sizeof_NDIlib_compressed_packet_t sdk) bytes))
        = NDIlib_compressed_FourCC_type_H264 sdk)
  /\ (ok = true ->
      count is_omt_send calls = 1%nat
      /\ frames_sent c' = (if 0 <=? sr then Int32.incr (frames_sent c)
                           else frames_sent c)
      /\ frames_dropped c' = (if 0 <=? sr then frames_dropped c
                              else Int32.incr (frames_dropped c)))
  /\ (ok = false -> calls = [] /\ c' = c /\ fr' = fr).
Proof.
  unfold handle_compressed_frame.
  destruct (compressed_packet sdk f) as [r|[packet h264_data]] eqn:E.
  - split; [|split; [discriminate|now repeat split]].
    split; [discriminate|].
    intros (bytes & H1 & H2 & H3 & H4 & H5).
    assert (A : compressed_packet sdk f
                = inr (packet_of_bytes sdk
                         (firstn (sizeof_NDIlib_compressed_packet_t sdk) bytes),
                       skipn (sizeof_NDIlib_compressed_packet_t sdk) bytes)).
    { apply compressed_packet_accepts. exists bytes. now repeat split. }
    congruence.
  - destruct (scan_start_codes h264_data) as [has nal].
    pose proof (send_compressed_to_omt_effect sdk h264_data
                  (packet_is_keyframe sdk packet) sr cc c fr) as S.
    destruct (send_compressed_to_omt _ _ _ _ _ _ _) as [[[ok c'] fr'] calls].
    destruct S as (_ & _ & -> & _ & _ & _ & S4 & _ & _ & S7 & _).
    split; [|split; [|discriminate]].
    + split; [|reflexivity]. intros _.
      apply compressed_packet_accepts in E
        as (bytes & H1 & H2 & H3 & H4 & H5 & H6 & _).
      exists bytes. subst packet. now repeat split.
    + intros _. split; [now destruct (0 <=? sr)|]. now split.
Qed.

(** ** A run from the command line *)

(** X18. When the arguments are read, [-l] is not among them, a source is
    selected and every call of the two SDKs succeeds, [main] creates the
    finder, the receiver for the selected source and the sender under the
    stream name, runs the loop, destroys the three handles and returns
    0. *)
Theorem main_converts (sdk : SDK) (argv : list String.string) (a : arguments)
  (w : world) (i : nat) (s : String.string) (t0 t1 : Z) (inputs : list capture) :
  parse_arguments argv default_arguments = inl a ->
  list_sources a = false ->
  NDIlib_initialize_result w = true ->
  NDIlib_find_create_v2_result w = true ->
  select_source (ndi_source a) (current_sources w) = Some (i, s) ->
  NDIlib_recv_create_v3_result w = true ->
  omt_send_create_result w = true ->
  main sdk argv w t0 t1 inputs
  = (0, converted
          [NDIlib_initialize; NDIlib_find_create_v2;
           NDIlib_find_get_current_sources; NDIlib_recv_create_v3 s;
           omt_send_create (omt_stream a); omt_send_setsenderinformation]
          (snd (run sdk t0 t1 inputs))
          [NDIlib_recv_destroy; NDIlib_find_destroy; omt_send_destroy;
           NDIlib_destroy]).
Proof.
  intros Hp Hl Hi Hf Hs Hr Ho. unfold main. rewrite Hp, Hl.
  unfold initialize, find_ndi_source, init_omt_sender, new_components, cleanup.
  cbn [ndi_receiver ndi_finder omt_sender ndi_source_name omt_stream_name].
  rewrite Hi, Hf. cbn [negb]. rewrite Hs.
  assert (Hne : current_sources w <> []).
  { intro E. rewrite E in Hs. discriminate. }
  destruct (current_sources w) as [|first rest]; [now elim Hne|].
  cbn [ndi_receiver ndi_finder omt_sender ndi_source_name omt_stream_name].
  rewrite Hr. cbn [negb].
  cbn [ndi_receiver ndi_finder omt_sender ndi_source_name omt_stream_name].
  rewrite Ho. reflexivity.
Qed.

Lemma main_converts_witness :
  main sdk44 [] two_cameras 0 0 twenty_frames
  = (0, converted
          [NDIlib_initialize; NDIlib_find_create_v2;
           NDIlib_find_get_current_sources;
           NDIlib_recv_create_v3 "STUDIO (Camera 1)";
           omt_send_create "NDItoOMT"; omt_send_setsenderinformation]
          (snd (run sdk44 0 0 twenty_frames))
          [NDIlib_recv_destroy; NDIlib_find_destroy; omt_send_destroy;
           NDIlib_destroy]).
Proof.
  apply (main_converts sdk44 [] default_arguments two_cameras 0
           "STUDIO (Camera 1)"); reflexivity.
Defined.
